(** * Model Release Orchestrator: the release engine of [src/App.tsx]

    A shallow embedding of the state that the [App] component owns (its
    [useState] variables and the [simulationInterval] ref), of its event
    handlers, of its timers and of the three effects that drive the canary
    flow, followed by the properties of the release engine.

    Conventions of the embedding.
    - JavaScript numbers that carry measurements are exact rationals ([Q]);
      counters and percentages are [nat]; [parseInt] results are [option Z]
      with [None] for [NaN].
    - [Math.random] and the wall clock are oracles: [random n] is the value
      of the [n]-th call of [Math.random], [clock n] the [n]-th reading of
      the current time in milliseconds.  The state counts the calls.
    - Timers ([setTimeout], [setInterval]) live in a queue of pending
      entries, each with a fresh handle; the environment fires any pending
      entry.  A one-shot entry leaves the queue when it fires.
    - After every event React renders again and runs the effects whose
      dependency array changed; an effect reads the variables of the render
      it belongs to, while its updates accumulate into the next render.
      [commit] is one such pass and [settle] iterates it to a fixed point.
    - The tour, the overview dashboard, the chat box, tab selection and the
      persistence of settings are views and are left out. *)

From Stdlib Require Import String Ascii Bool Arith ZArith QArith Qround Lia Lqa List.
From Stdlib Require Import DecimalString.
Import ListNotations.
Local Open Scope string_scope.
Local Open Scope list_scope.
Local Open Scope nat_scope.

Set Implicit Arguments.

(** ** Data model ([types.ts]) *)

Inductive AppPhase : Type :=
| IDLE
| SHADOW_TEST
| CANARY_SETUP
| MONITORING
| ANOMALY_DETECTED
| ROLLBACK_CONFIRM
| ROLLED_BACK.

Definition phase_eqb (a b : AppPhase) : bool :=
  match a, b with
  | IDLE, IDLE | SHADOW_TEST, SHADOW_TEST | CANARY_SETUP, CANARY_SETUP
  | MONITORING, MONITORING | ANOMALY_DETECTED, ANOMALY_DETECTED
  | ROLLBACK_CONFIRM, ROLLBACK_CONFIRM | ROLLED_BACK, ROLLED_BACK => true
  | _, _ => false
  end.

Record ModelData : Type := mkModelData {
  version : string;
  accuracy : Q;
  recall : Q;
  latency_ms : Q;
  fairness : Q
}.

(** [timeLabel] is either the locale rendering of an instant or a literal. *)
Inductive TimeLabel : Type :=
| LocaleTime (instant : Z)
| Literal (label : string).

Record MetricPoint : Type := mkMetricPoint {
  timestamp : Z;
  timeLabel : TimeLabel;
  latency : Q;
  error_rate : Q;
  drift_user_region : Q
}.

Inductive LogType : Type := LogInfo | LogWarning | LogError | LogSuccess.

Record LogEntry : Type := mkLogEntry {
  log_id : Q;            (* the draw that [toString(36)] renders *)
  log_timestamp : Z;
  event : string;
  details : string;
  log_type : LogType
}.

Inductive Sender : Type := Terra | System | User.
Inductive MessageType : Type := MsgNormal | MsgAlert | MsgRecommendation | MsgSuccess.
Inductive Risk : Type := Low | Medium | High.

Record Metadata : Type := mkMetadata {
  confidence : option nat;
  risk : option Risk;
  primaryDrift : option string
}.

Record AgentMessage : Type := mkAgentMessage {
  msg_id : Q;
  text : string;
  msg_timestamp : Z;
  sender : Sender;
  msg_type : MessageType;
  metadata : option Metadata
}.

Inductive ShadowStatus : Type := ShadowIdle | ShadowRunning | ShadowComplete.

(** ** Constants ([constants.ts]) *)

Definition BASELINE_MODEL : ModelData :=
  mkModelData "v2.1" 0.842 0.72 210 0.91.

Definition CANDIDATE_MODEL : ModelData :=
  mkModelData "v3.0" 0.895 0.79 232 0.898.

Module INITIAL_METRICS_STATE.
Definition error_rate : Q := 0.008.
Definition drifts_user_region : Q := 0.02.
End INITIAL_METRICS_STATE.

Definition ANOMALY_TICK_INDEX : nat := 3.
Definition TICK_INTERVAL_MS : Z := 1000.

(** [Math.round x] is [floor (x + 1/2)]. *)
Definition Math_round (x : Q) : Z := Qfloor (x + (1 # 2)).

Module ANOMALY_VALUES.
Definition latency : Q := inject_Z (Math_round (latency_ms BASELINE_MODEL * 1.22)).
Definition drift_user_region : Q := 0.18.
Definition error_rate : Q := 0.019.
End ANOMALY_VALUES.

(** ** Timers *)

(** The bodies that the component hands to [setTimeout] and [setInterval]. *)
Inductive Callback : Type :=
| TickInterval
    (* startSimulation: () => setTickIndex(prev => prev + 1) *)
| ShadowTestDone
    (* handleStartGuided: status complete, log and message *)
| PostAgentMessage (body : string) (kind : MessageType) (meta : option Metadata)
    (* the anomaly branch: () => addAgentMessage(...) *)
| RecommendationExpired.
    (* the timeout effect: () => setRecommendationTimeout(true) *)

Record Timer : Type := mkTimer {
  timer_id : nat;
  delay : Z;           (* milliseconds *)
  repeats : bool;      (* setInterval *)
  callback : Callback
}.

(** ** The state of the component *)

Record State : Type := mkState {
  (* useState *)
  phase : AppPhase;
  metrics : list MetricPoint;
  messages : list AgentMessage;
  logs : list LogEntry;
  activeModel : string;
  shadowTestStatus : ShadowStatus;
  networkEnabled : bool;
  defaultCanaryPercent : nat;
  canaryPercent : nat;
  rolloutDuration : option Z;
  tickIndex : nat;
  showRollbackModal : bool;
  showReleaseNotes : bool;
  recommendationTimeout : bool;
  agentConfidence : nat;
  (* useRef *)
  simulationInterval : option nat;
  (* runtime: pending timers, next handle, oracle positions *)
  timers : list Timer;
  nextTimerId : nat;
  draws : nat;
  reads : nat;
  (* dependency arrays seen by the last run of each effect, and the handle
     captured by the cleanup of the timeout effect *)
  syncDeps : option (nat * AppPhase);
  metricDeps : option (nat * AppPhase * bool);
  timeoutDeps : option AppPhase;
  timeoutId : option nat
}.

(** Field updates. *)

Definition set_phase (v : AppPhase) (s : State) : State :=
  mkState v (metrics s) (messages s) (logs s) (activeModel s) (shadowTestStatus s)
    (networkEnabled s) (defaultCanaryPercent s) (canaryPercent s) (rolloutDuration s)
    (tickIndex s) (showRollbackModal s) (showReleaseNotes s) (recommendationTimeout s)
    (agentConfidence s) (simulationInterval s) (timers s) (nextTimerId s) (draws s)
    (reads s) (syncDeps s) (metricDeps s) (timeoutDeps s) (timeoutId s).

Definition set_metrics (v : list MetricPoint) (s : State) : State :=
  mkState (phase s) v (messages s) (logs s) (activeModel s) (shadowTestStatus s)
    (networkEnabled s) (defaultCanaryPercent s) (canaryPercent s) (rolloutDuration s)
    (tickIndex s) (showRollbackModal s) (showReleaseNotes s) (recommendationTimeout s)
    (agentConfidence s) (simulationInterval s) (timers s) (nextTimerId s) (draws s)
    (reads s) (syncDeps s) (metricDeps s) (timeoutDeps s) (timeoutId s).

Definition set_messages (v : list AgentMessage) (s : State) : State :=
  mkState (phase s) (metrics s) v (logs s) (activeModel s) (shadowTestStatus s)
    (networkEnabled s) (defaultCanaryPercent s) (canaryPercent s) (rolloutDuration s)
    (tickIndex s) (showRollbackModal s) (showReleaseNotes s) (recommendationTimeout s)
    (agentConfidence s) (simulationInterval s) (timers s) (nextTimerId s) (draws s)
    (reads s) (syncDeps s) (metricDeps s) (timeoutDeps s) (timeoutId s).

Definition set_logs (v : list LogEntry) (s : State) : State :=
  mkState (phase s) (metrics s) (messages s) v (activeModel s) (shadowTestStatus s)
    (networkEnabled s) (defaultCanaryPercent s) (canaryPercent s) (rolloutDuration s)
    (tickIndex s) (showRollbackModal s) (showReleaseNotes s) (recommendationTimeout s)
    (agentConfidence s) (simulationInterval s) (timers s) (nextTimerId s) (draws s)
    (reads s) (syncDeps s) (metricDeps s) (timeoutDeps s) (timeoutId s).

Definition set_activeModel (v : string) (s : State) : State :=
  mkState (phase s) (metrics s) (messages s) (logs s) v (shadowTestStatus s)
    (networkEnabled s) (defaultCanaryPercent s) (canaryPercent s) (rolloutDuration s)
    (tickIndex s) (showRollbackModal s) (showReleaseNotes s) (recommendationTimeout s)
    (agentConfidence s) (simulationInterval s) (timers s) (nextTimerId s) (draws s)
    (reads s) (syncDeps s) (metricDeps s) (timeoutDeps s) (timeoutId s).

Definition set_shadowTestStatus (v : ShadowStatus) (s : State) : State :=
  mkState (phase s) (metrics s) (messages s) (logs s) (activeModel s) v (networkEnabled s)
    (defaultCanaryPercent s) (canaryPercent s) (rolloutDuration s) (tickIndex s)
    (showRollbackModal s) (showReleaseNotes s) (recommendationTimeout s) (agentConfidence s)
    (simulationInterval s) (timers s) (nextTimerId s) (draws s) (reads s) (syncDeps s)
    (metricDeps s) (timeoutDeps s) (timeoutId s).

Definition set_networkEnabled (v : bool) (s : State) : State :=
  mkState (phase s) (metrics s) (messages s) (logs s) (activeModel s) (shadowTestStatus s) v
    (defaultCanaryPercent s) (canaryPercent s) (rolloutDuration s) (tickIndex s)
    (showRollbackModal s) (showReleaseNotes s) (recommendationTimeout s) (agentConfidence s)
    (simulationInterval s) (timers s) (nextTimerId s) (draws s) (reads s) (syncDeps s)
    (metricDeps s) (timeoutDeps s) (timeoutId s).

Definition set_defaultCanaryPercent (v : nat) (s : State) : State :=
  mkState (phase s) (metrics s) (messages s) (logs s) (activeModel s) (shadowTestStatus s)
    (networkEnabled s) v (canaryPercent s) (rolloutDuration s) (tickIndex s)
    (showRollbackModal s) (showReleaseNotes s) (recommendationTimeout s) (agentConfidence s)
    (simulationInterval s) (timers s) (nextTimerId s) (draws s) (reads s) (syncDeps s)
    (metricDeps s) (timeoutDeps s) (timeoutId s).

Definition set_canaryPercent (v : nat) (s : State) : State :=
  mkState (phase s) (metrics s) (messages s) (logs s) (activeModel s) (shadowTestStatus s)
    (networkEnabled s) (defaultCanaryPercent s) v (rolloutDuration s) (tickIndex s)
    (showRollbackModal s) (showReleaseNotes s) (recommendationTimeout s) (agentConfidence s)
    (simulationInterval s) (timers s) (nextTimerId s) (draws s) (reads s) (syncDeps s)
    (metricDeps s) (timeoutDeps s) (timeoutId s).

Definition set_rolloutDuration (v : option Z) (s : State) : State :=
  mkState (phase s) (metrics s) (messages s) (logs s) (activeModel s) (shadowTestStatus s)
    (networkEnabled s) (defaultCanaryPercent s) (canaryPercent s) v (tickIndex s)
    (showRollbackModal s) (showReleaseNotes s) (recommendationTimeout s) (agentConfidence s)
    (simulationInterval s) (timers s) (nextTimerId s) (draws s) (reads s) (syncDeps s)
    (metricDeps s) (timeoutDeps s) (timeoutId s).

Definition set_tickIndex (v : nat) (s : State) : State :=
  mkState (phase s) (metrics s) (messages s) (logs s) (activeModel s) (shadowTestStatus s)
    (networkEnabled s) (defaultCanaryPercent s) (canaryPercent s) (rolloutDuration s) v
    (showRollbackModal s) (showReleaseNotes s) (recommendationTimeout s) (agentConfidence s)
    (simulationInterval s) (timers s) (nextTimerId s) (draws s) (reads s) (syncDeps s)
    (metricDeps s) (timeoutDeps s) (timeoutId s).

Definition set_showRollbackModal (v : bool) (s : State) : State :=
  mkState (phase s) (metrics s) (messages s) (logs s) (activeModel s) (shadowTestStatus s)
    (networkEnabled s) (defaultCanaryPercent s) (canaryPercent s) (rolloutDuration s)
    (tickIndex s) v (showReleaseNotes s) (recommendationTimeout s) (agentConfidence s)
    (simulationInterval s) (timers s) (nextTimerId s) (draws s) (reads s) (syncDeps s)
    (metricDeps s) (timeoutDeps s) (timeoutId s).

Definition set_showReleaseNotes (v : bool) (s : State) : State :=
  mkState (phase s) (metrics s) (messages s) (logs s) (activeModel s) (shadowTestStatus s)
    (networkEnabled s) (defaultCanaryPercent s) (canaryPercent s) (rolloutDuration s)
    (tickIndex s) (showRollbackModal s) v (recommendationTimeout s) (agentConfidence s)
    (simulationInterval s) (timers s) (nextTimerId s) (draws s) (reads s) (syncDeps s)
    (metricDeps s) (timeoutDeps s) (timeoutId s).

Definition set_recommendationTimeout (v : bool) (s : State) : State :=
  mkState (phase s) (metrics s) (messages s) (logs s) (activeModel s) (shadowTestStatus s)
    (networkEnabled s) (defaultCanaryPercent s) (canaryPercent s) (rolloutDuration s)
    (tickIndex s) (showRollbackModal s) (showReleaseNotes s) v (agentConfidence s)
    (simulationInterval s) (timers s) (nextTimerId s) (draws s) (reads s) (syncDeps s)
    (metricDeps s) (timeoutDeps s) (timeoutId s).

Definition set_agentConfidence (v : nat) (s : State) : State :=
  mkState (phase s) (metrics s) (messages s) (logs s) (activeModel s) (shadowTestStatus s)
    (networkEnabled s) (defaultCanaryPercent s) (canaryPercent s) (rolloutDuration s)
    (tickIndex s) (showRollbackModal s) (showReleaseNotes s) (recommendationTimeout s) v
    (simulationInterval s) (timers s) (nextTimerId s) (draws s) (reads s) (syncDeps s)
    (metricDeps s) (timeoutDeps s) (timeoutId s).

Definition set_simulationInterval (v : option nat) (s : State) : State :=
  mkState (phase s) (metrics s) (messages s) (logs s) (activeModel s) (shadowTestStatus s)
    (networkEnabled s) (defaultCanaryPercent s) (canaryPercent s) (rolloutDuration s)
    (tickIndex s) (showRollbackModal s) (showReleaseNotes s) (recommendationTimeout s)
    (agentConfidence s) v (timers s) (nextTimerId s) (draws s) (reads s) (syncDeps s)
    (metricDeps s) (timeoutDeps s) (timeoutId s).

Definition set_timers (v : list Timer) (s : State) : State :=
  mkState (phase s) (metrics s) (messages s) (logs s) (activeModel s) (shadowTestStatus s)
    (networkEnabled s) (defaultCanaryPercent s) (canaryPercent s) (rolloutDuration s)
    (tickIndex s) (showRollbackModal s) (showReleaseNotes s) (recommendationTimeout s)
    (agentConfidence s) (simulationInterval s) v (nextTimerId s) (draws s) (reads s)
    (syncDeps s) (metricDeps s) (timeoutDeps s) (timeoutId s).

Definition set_nextTimerId (v : nat) (s : State) : State :=
  mkState (phase s) (metrics s) (messages s) (logs s) (activeModel s) (shadowTestStatus s)
    (networkEnabled s) (defaultCanaryPercent s) (canaryPercent s) (rolloutDuration s)
    (tickIndex s) (showRollbackModal s) (showReleaseNotes s) (recommendationTimeout s)
    (agentConfidence s) (simulationInterval s) (timers s) v (draws s) (reads s) (syncDeps s)
    (metricDeps s) (timeoutDeps s) (timeoutId s).

Definition set_draws (v : nat) (s : State) : State :=
  mkState (phase s) (metrics s) (messages s) (logs s) (activeModel s) (shadowTestStatus s)
    (networkEnabled s) (defaultCanaryPercent s) (canaryPercent s) (rolloutDuration s)
    (tickIndex s) (showRollbackModal s) (showReleaseNotes s) (recommendationTimeout s)
    (agentConfidence s) (simulationInterval s) (timers s) (nextTimerId s) v (reads s)
    (syncDeps s) (metricDeps s) (timeoutDeps s) (timeoutId s).

Definition set_reads (v : nat) (s : State) : State :=
  mkState (phase s) (metrics s) (messages s) (logs s) (activeModel s) (shadowTestStatus s)
    (networkEnabled s) (defaultCanaryPercent s) (canaryPercent s) (rolloutDuration s)
    (tickIndex s) (showRollbackModal s) (showReleaseNotes s) (recommendationTimeout s)
    (agentConfidence s) (simulationInterval s) (timers s) (nextTimerId s) (draws s) v
    (syncDeps s) (metricDeps s) (timeoutDeps s) (timeoutId s).

Definition set_syncDeps (v : option (nat * AppPhase)) (s : State) : State :=
  mkState (phase s) (metrics s) (messages s) (logs s) (activeModel s) (shadowTestStatus s)
    (networkEnabled s) (defaultCanaryPercent s) (canaryPercent s) (rolloutDuration s)
    (tickIndex s) (showRollbackModal s) (showReleaseNotes s) (recommendationTimeout s)
    (agentConfidence s) (simulationInterval s) (timers s) (nextTimerId s) (draws s)
    (reads s) v (metricDeps s) (timeoutDeps s) (timeoutId s).

Definition set_metricDeps (v : option (nat * AppPhase * bool)) (s : State) : State :=
  mkState (phase s) (metrics s) (messages s) (logs s) (activeModel s) (shadowTestStatus s)
    (networkEnabled s) (defaultCanaryPercent s) (canaryPercent s) (rolloutDuration s)
    (tickIndex s) (showRollbackModal s) (showReleaseNotes s) (recommendationTimeout s)
    (agentConfidence s) (simulationInterval s) (timers s) (nextTimerId s) (draws s)
    (reads s) (syncDeps s) v (timeoutDeps s) (timeoutId s).

Definition set_timeoutDeps (v : option AppPhase) (s : State) : State :=
  mkState (phase s) (metrics s) (messages s) (logs s) (activeModel s) (shadowTestStatus s)
    (networkEnabled s) (defaultCanaryPercent s) (canaryPercent s) (rolloutDuration s)
    (tickIndex s) (showRollbackModal s) (showReleaseNotes s) (recommendationTimeout s)
    (agentConfidence s) (simulationInterval s) (timers s) (nextTimerId s) (draws s)
    (reads s) (syncDeps s) (metricDeps s) v (timeoutId s).

Definition set_timeoutId (v : option nat) (s : State) : State :=
  mkState (phase s) (metrics s) (messages s) (logs s) (activeModel s) (shadowTestStatus s)
    (networkEnabled s) (defaultCanaryPercent s) (canaryPercent s) (rolloutDuration s)
    (tickIndex s) (showRollbackModal s) (showReleaseNotes s) (recommendationTimeout s)
    (agentConfidence s) (simulationInterval s) (timers s) (nextTimerId s) (draws s)
    (reads s) (syncDeps s) (metricDeps s) (timeoutDeps s) v.


Notation "s |> f" := (f s) (at level 45, left associativity, only parsing).

(** Decimal rendering of a counter inside a template string. *)
Definition decimal (n : nat) : string := NilZero.string_of_uint (Nat.to_uint n).

(** ** Browser runtime: timers *)

Definition schedule (cb : Callback) (ms : Z) (periodic : bool) (s : State) : State :=
  s |> set_timers (timers s ++ [mkTimer (nextTimerId s) ms periodic cb])
    |> set_nextTimerId (S (nextTimerId s)).

Definition setTimeout (cb : Callback) (ms : Z) : State -> State := schedule cb ms false.
Definition setInterval (cb : Callback) (ms : Z) : State -> State := schedule cb ms true.

Definition cancel (id : nat) (q : list Timer) : list Timer :=
  filter (fun t => negb (timer_id t =? id)) q.

(** [clearTimeout] and [clearInterval]; an undefined or null handle clears
    nothing, and neither does a handle that is no longer pending. *)
Definition clearTimer (handle : option nat) (s : State) : State :=
  match handle with
  | Some id => set_timers (cancel id (timers s)) s
  | None => s
  end.

Definition pending (id : nat) (s : State) : option Timer :=
  find (fun t => timer_id t =? id) (timers s).

(** Bounded history: [next = [...prev, newPoint]; if (next.length > 30) next.shift()]. *)
Definition pushMetric (prev : list MetricPoint) (newPoint : MetricPoint) : list MetricPoint :=
  let next := prev ++ [newPoint] in
  if 30 <? length next then tl next else next.

(** Threading the state through [Array.from(...).map]. *)
Fixpoint mapState (A B : Type) (f : A -> State -> B * State) (l : list A) (s : State)
  : list B * State :=
  match l with
  | [] => ([], s)
  | a :: l' =>
      let (b, s1) := f a s in
      let (bs, s2) := mapState f l' s1 in
      (b :: bs, s2)
  end.

(** ** What the operator and the environment can do *)

Inductive Action : Type :=
| StartGuidedRelease                          (* handleStartGuided *)
| ContinueToSetup                             (* handleContinueToSetup *)
| SelectCanaryPercent (pct : nat)             (* setCanaryPercent(pct) *)
| EditRolloutDuration (parsed : option Z)     (* setRolloutDuration(parseInt(value)) *)
| StartCanary                                 (* handleStartCanary *)
| RequestRollback                             (* handleRollbackClick *)
| ContinueRollout                             (* handleContinueRollout *)
| AdjustConfidence (value : nat)              (* setAgentConfidence(Number(value)) *)
| ConfirmRollback                             (* confirmRollback *)
| CancelRollback                              (* setShowRollbackModal(false) *)
| GenerateNotes                               (* generateNotes *)
| Replay                                      (* replayTimeline *)
| ToggleNetwork                               (* toggleNetwork *)
| SelectDefaultCanaryPercent (val : nat)      (* setDefaultCanaryPercent(val) *)
| TimerFires (id : nat).                      (* a pending timer elapses *)

Definition canary_choice (n : nat) : bool := (n =? 1) || (n =? 5) || (n =? 10).

(** The phases in which the view renders (and enables) the control of an
    action, whatever the selected tab.  The modal buttons are rendered while
    [showRollbackModal] holds; a timer fires only while it is pending. *)
Definition offered (a : Action) (s : State) : bool :=
  match a with
  | StartGuidedRelease => phase_eqb (phase s) IDLE
  | ContinueToSetup =>
      phase_eqb (phase s) SHADOW_TEST
      && match shadowTestStatus s with ShadowRunning => false | _ => true end
  | SelectCanaryPercent pct => phase_eqb (phase s) CANARY_SETUP && canary_choice pct
  | EditRolloutDuration _ => phase_eqb (phase s) CANARY_SETUP
  | StartCanary => phase_eqb (phase s) CANARY_SETUP
  | RequestRollback => phase_eqb (phase s) ANOMALY_DETECTED
  | ContinueRollout => phase_eqb (phase s) ANOMALY_DETECTED
  | AdjustConfidence value => phase_eqb (phase s) ANOMALY_DETECTED && (value <=? 100)
  | ConfirmRollback => showRollbackModal s
  | CancelRollback => showRollbackModal s
  | GenerateNotes => phase_eqb (phase s) ROLLED_BACK
  | Replay => phase_eqb (phase s) ROLLED_BACK || phase_eqb (phase s) ANOMALY_DETECTED
  | ToggleNetwork => true
  | SelectDefaultCanaryPercent val => canary_choice val
  | TimerFires id => match pending id s with Some _ => true | None => false end
  end.

(** The state before the first render; the two settings come from
    [localStorage] when they were saved. *)
Definition initialState (savedNetwork : option bool) (savedCanary : option nat) : State :=
  let net := match savedNetwork with Some b => b | None => true end in
  let pct := match savedCanary with Some n => n | None => 5 end in
  {| phase := IDLE; metrics := []; messages := []; logs := [];
     activeModel := version BASELINE_MODEL; shadowTestStatus := ShadowIdle;
     networkEnabled := net; defaultCanaryPercent := pct; canaryPercent := pct;
     rolloutDuration := Some 20%Z; tickIndex := 0; showRollbackModal := false;
     showReleaseNotes := false; recommendationTimeout := false; agentConfidence := 83;
     simulationInterval := None;
     timers := []; nextTimerId := 1; draws := 0; reads := 0;
     syncDeps := None; metricDeps := None; timeoutDeps := None; timeoutId := None |}.

Section Engine.

(** The oracles. *)
Variable random : nat -> Q.
Variable clock : nat -> Z.

Definition Math_random (s : State) : Q * State :=
  (random (draws s), set_draws (S (draws s)) s).

Definition Date_now (s : State) : Z * State :=
  (clock (reads s), set_reads (S (reads s)) s).

(** *** Helpers *)

Definition addLog (ev dt : string) (ty : LogType) (s : State) : State :=
  let (id, s1) := Math_random s in
  let (now, s2) := Date_now s1 in
  set_logs (mkLogEntry id now ev dt ty :: logs s2) s2.

Definition addAgentMessage (body : string) (ty : MessageType) (meta : option Metadata)
    (s : State) : State :=
  let (id, s1) := Math_random s in
  let (now, s2) := Date_now s1 in
  set_messages (messages s2 ++ [mkAgentMessage id body now Terra ty meta]) s2.

(** *** The simulation *)

(** One element of the stable history that seeds the charts. *)
Definition warmupPoint (i : nat) (s : State) : MetricPoint * State :=
  let (now, s1) := Date_now s in
  let (r1, s2) := Math_random s1 in
  let (r2, s3) := Math_random s2 in
  let (r3, s4) := Math_random s3 in
  (mkMetricPoint
     (now - (10 - Z.of_nat i) * 1000)
     (Literal ("00:0" ++ decimal i)%string)
     (latency_ms BASELINE_MODEL + (r1 * 10 - 5))
     (INITIAL_METRICS_STATE.error_rate + (r2 * 0.002 - 0.001))
     (INITIAL_METRICS_STATE.drifts_user_region + r3 * 0.005),
   s4).

Definition startSimulation (s : State) : State :=
  let s1 := clearTimer (simulationInterval s) s in
  let (initialData, s2) := mapState warmupPoint (seq 0 10) s1 in
  let s3 := s2 |> set_metrics initialData |> set_tickIndex 0 in
  s3 |> setInterval TickInterval 1000
     |> set_simulationInterval (Some (nextTimerId s3)).

(** *** Handlers *)

Definition handleStartGuided (s : State) : State :=
  s |> set_phase SHADOW_TEST
    |> set_shadowTestStatus ShadowRunning
    |> addLog "Shadow Test Initiated"
         "Checking candidate model stability against baseline." LogInfo
    |> addAgentMessage
         "Hi — I’m Terra. I recommend a 5% canary for 20 minutes. I’ll monitor latency, error rate, and feature drift. I will not act without your confirmation."
         MsgNormal None
    |> setTimeout ShadowTestDone 2000.

Definition handleContinueToSetup (s : State) : State :=
  set_phase CANARY_SETUP s.

Definition handleStartCanary (s : State) : State :=
  s |> set_phase MONITORING
    |> set_activeModel
         (version BASELINE_MODEL ++ " (95%) / " ++ version CANDIDATE_MODEL ++ " (5%)")%string
    |> addLog "Canary Rollout Started" "Traffic split: 95/5. Monitoring started." LogInfo
    |> startSimulation.

Definition handleRollbackClick (s : State) : State :=
  set_showRollbackModal true s.

Definition handleContinueRollout (s : State) : State :=
  s |> set_recommendationTimeout false
    |> addLog "Rollout Continued"
         ("User overrode rollback recommendation. Adjusted Confidence: "
            ++ decimal (agentConfidence s) ++ "%.")%string
         LogWarning
    |> addAgentMessage
         "Continuing rollout. Monitoring extended to next 15 minutes. I will notify you immediately if degradation accelerates."
         MsgNormal None.

Definition confirmRollback (s : State) : State :=
  s |> clearTimer (simulationInterval s)
    |> set_phase ROLLED_BACK
    |> set_showRollbackModal false
    |> set_activeModel (version BASELINE_MODEL)
    |> set_recommendationTimeout false
    |> addLog "Rollback Executed"
         ("Reverted to v2.1. Reason: Terra Anomaly Detection. Adjusted Confidence: "
            ++ decimal (agentConfidence s) ++ "%.")%string
         LogError
    |> addAgentMessage
         "Rollback completed. Model v2.1 restored. I’ve logged the event and can generate release notes."
         MsgSuccess None.

Definition cancelRollback (s : State) : State :=
  set_showRollbackModal false s.

Definition generateNotes (s : State) : State :=
  s |> addLog "Release Notes Generated" "Incident report created successfully." LogSuccess
    |> set_showReleaseNotes true.

Definition toggleNetwork (s : State) : State :=
  let newState := negb (networkEnabled s) in
  let s1 := set_networkEnabled newState s in
  if negb newState
  then addLog "Network Failure" "Telemetry stream interrupted manually." LogWarning s1
  else addLog "Network Restored" "Telemetry resumed." LogSuccess s1.

Definition replayTimeline (s : State) : State :=
  s |> set_tickIndex 0
    |> startSimulation
    |> addLog "Replay" "Replaying last session data." LogInfo.

(** *** Timer bodies *)

Definition runCallback (cb : Callback) (s : State) : State :=
  match cb with
  | TickInterval => set_tickIndex (tickIndex s + 1) s
  | ShadowTestDone =>
      s |> set_shadowTestStatus ShadowComplete
        |> addLog "Shadow Test Completed" "Result: Stable. No anomalies detected." LogSuccess
        |> addAgentMessage "Shadow test stable. No anomalies detected." MsgSuccess None
  | PostAgentMessage body kind meta => addAgentMessage body kind meta s
  | RecommendationExpired => set_recommendationTimeout true s
  end.

(** The environment fires the pending timer [id]. *)
Definition fire (id : nat) (s : State) : State :=
  match pending id s with
  | Some t =>
      runCallback (callback t) (if repeats t then s else clearTimer (Some id) s)
  | None => s
  end.

(** *** Effects *)

Definition deps_sync (r : State) : nat * AppPhase := (defaultCanaryPercent r, phase r).
Definition deps_metric (r : State) : nat * AppPhase * bool :=
  (tickIndex r, phase r, networkEnabled r).
Definition deps_timeout (r : State) : AppPhase := phase r.

Definition same_sync (d : option (nat * AppPhase)) (r : State) : bool :=
  match d with
  | Some (p, ph) => (p =? defaultCanaryPercent r) && phase_eqb ph (phase r)
  | None => false
  end.

Definition same_metric (d : option (nat * AppPhase * bool)) (r : State) : bool :=
  match d with
  | Some (t, ph, n) =>
      (t =? tickIndex r) && phase_eqb ph (phase r) && Bool.eqb n (networkEnabled r)
  | None => false
  end.

Definition same_timeout (d : option AppPhase) (r : State) : bool :=
  match d with
  | Some ph => phase_eqb ph (phase r)
  | None => false
  end.

(** Sync default canary percent to flow state when IDLE. *)
Definition syncEffect (r s : State) : State :=
  if same_sync (syncDeps s) r then s
  else
    let s := set_syncDeps (Some (deps_sync r)) s in
    if phase_eqb (phase r) IDLE then set_canaryPercent (defaultCanaryPercent r) s else s.

(** The sample of the metric generation effect. *)
Definition newPoint (r s : State) : MetricPoint * State :=
  let isAnomaly := ANOMALY_TICK_INDEX <=? tickIndex r in
  let (now, s1) := Date_now s in
  let (r1, s2) := Math_random s1 in
  let (r2, s3) := Math_random s2 in
  let (r3, s4) := Math_random s3 in
  (mkMetricPoint now (LocaleTime now)
     (if isAnomaly then ANOMALY_VALUES.latency + r1 * 10
      else latency_ms BASELINE_MODEL + (r1 * 10 - 5))
     (if isAnomaly then ANOMALY_VALUES.error_rate + r2 * 0.005
      else INITIAL_METRICS_STATE.error_rate + (r2 * 0.002 - 0.001))
     (if isAnomaly then ANOMALY_VALUES.drift_user_region + r3 * 0.02
      else INITIAL_METRICS_STATE.drifts_user_region + r3 * 0.005),
   s4).

(** The anomaly branch of the metric generation effect. *)
Definition raiseAnomaly (s : State) : State :=
  s |> set_phase ANOMALY_DETECTED
    |> set_agentConfidence 83
    |> setTimeout
         (PostAgentMessage "⚠️ Early anomaly detected during canary rollout." MsgAlert None)
         500
    |> setTimeout
         (PostAgentMessage
            "Latency rose 22% (210ms → 256ms). Feature user_region drift 18% vs baseline 2%. Error rate increased to 1.9%."
            MsgAlert None)
         1500
    |> setTimeout
         (PostAgentMessage
            "Recommendation: Rollback to v2.1. Confidence: 83%. Options: [Continue Rollout] [Rollback to v2.1]. I will not act without your confirmation."
            MsgRecommendation
            (Some (mkMetadata (Some 83) (Some High) (Some "user_region"))))
         3000
    |> addLog "Anomaly Detected" "Latency > threshold (+22%), Drift > threshold (0.18)."
         LogWarning.

(** Metric Generation Effect (Canary Flow). *)
Definition metricEffect (r s : State) : State :=
  if same_metric (metricDeps s) r then s
  else
    let s := set_metricDeps (Some (deps_metric r)) s in
    if (negb (phase_eqb (phase r) MONITORING) && negb (phase_eqb (phase r) ANOMALY_DETECTED))
       || negb (networkEnabled r)
    then s
    else
      let (point, s1) := newPoint r s in
      let s2 := set_metrics (pushMetric (metrics s1) point) s1 in
      if (tickIndex r =? ANOMALY_TICK_INDEX) && phase_eqb (phase r) MONITORING
      then raiseAnomaly s2
      else s2.

(** Timeout Warning Logic; the cleanup of the previous run comes first. *)
Definition timeoutEffect (r s : State) : State :=
  if same_timeout (timeoutDeps s) r then s
  else
    let s := s |> clearTimer (timeoutId s) |> set_timeoutDeps (Some (deps_timeout r)) in
    if phase_eqb (phase r) ANOMALY_DETECTED
    then s |> setTimeout RecommendationExpired 60000
           |> set_timeoutId (Some (nextTimerId s))
    else s |> set_recommendationTimeout false
           |> set_timeoutId None.

(** One render followed by its effects, in the order of declaration. *)
Definition commit (s : State) : State :=
  s |> syncEffect s |> metricEffect s |> timeoutEffect s.

(** Rendering until no effect has anything left to do. *)
Definition settle (s : State) : State := commit (commit s).

(** *** Events *)

(** The handler behind each action, without the rendering that follows. *)
Definition handle (a : Action) (s : State) : State :=
  match a with
  | StartGuidedRelease => handleStartGuided s
  | ContinueToSetup => handleContinueToSetup s
  | SelectCanaryPercent pct => set_canaryPercent pct s
  | EditRolloutDuration parsed => set_rolloutDuration parsed s
  | StartCanary => handleStartCanary s
  | RequestRollback => handleRollbackClick s
  | ContinueRollout => handleContinueRollout s
  | AdjustConfidence value => set_agentConfidence value s
  | ConfirmRollback => confirmRollback s
  | CancelRollback => cancelRollback s
  | GenerateNotes => generateNotes s
  | Replay => replayTimeline s
  | ToggleNetwork => toggleNetwork s
  | SelectDefaultCanaryPercent val => set_defaultCanaryPercent val s
  | TimerFires id => fire id s
  end.

(** An event: the handler, then React renders until it is quiescent. *)
Definition step (a : Action) (s : State) : State := settle (handle a s).

Definition run (l : list Action) (s : State) : State :=
  fold_left (fun s a => step a s) l s.

(** The component once mounted. *)
Definition mount (savedNetwork : option bool) (savedCanary : option nat) : State :=
  settle (initialState savedNetwork savedCanary).

(** The interval timer elapses once (nothing happens without a handle). *)
Definition tick (s : State) : State :=
  match simulationInterval s with
  | Some id => step (TimerFires id) s
  | None => s
  end.

(** The sample that the metric effect appends in the render of [s]. *)
Definition sample (s : State) : MetricPoint := fst (newPoint s s).

(** The entry that the anomaly branch logs in the render of [s]. *)
Definition anomalyEntry (s : State) : LogEntry :=
  mkLogEntry (random (3 + draws s)) (clock (1 + reads s)) "Anomaly Detected"
    "Latency > threshold (+22%), Drift > threshold (0.18)." LogWarning.

(** *** Reachable states *)

(** The states that the operator and the timers can bring about from
    [s0], through controls that the view offers. *)
Inductive reachable (s0 : State) : State -> Prop :=
| reach_init : reachable s0 s0
| reach_step (s : State) (a : Action) :
    reachable s0 s -> offered a s = true -> reachable s0 (step a s).

(** Every action of a script is offered when its turn comes. *)
Fixpoint playable (l : list Action) (s : State) : bool :=
  match l with
  | [] => true
  | a :: l' => offered a s && playable l' (step a s)
  end.

End Engine.

(** ** Observations used by the properties *)

(** The phases in which the metric effect samples. *)
Definition sampling (p : AppPhase) : bool :=
  phase_eqb p MONITORING || phase_eqb p ANOMALY_DETECTED.

(** The metric effect of render [r] runs past its guards on [s]. *)
Definition runs (r s : State) : bool :=
  negb (same_metric (metricDeps s) r) && sampling (phase r) && networkEnabled r.

(** The metric effect of render [r] takes its anomaly branch on [s]. *)
Definition raises (r s : State) : bool :=
  runs r s && (tickIndex r =? ANOMALY_TICK_INDEX) && phase_eqb (phase r) MONITORING.

Definition samples (s : State) : bool := runs s s.
Definition fires (s : State) : bool := raises s s.

(** Every effect has seen the current value of its dependencies. *)
Definition stable (s : State) : Prop :=
  same_sync (syncDeps s) s = true
  /\ same_metric (metricDeps s) s = true
  /\ same_timeout (timeoutDeps s) s = true.

(** How many times the anomaly was recorded in the audit log. *)
Definition is_anomaly_entry (e : LogEntry) : bool := String.eqb (event e) "Anomaly Detected".
Definition anomalies (s : State) : nat := length (filter is_anomaly_entry (logs s)).

(** The three advisory timers of the anomaly branch, from handle [n] on. *)
Definition advisories (n : nat) : list Timer :=
  [ mkTimer n 500 false
      (PostAgentMessage "⚠️ Early anomaly detected during canary rollout." MsgAlert None);
    mkTimer (S n) 1500 false
      (PostAgentMessage
         "Latency rose 22% (210ms → 256ms). Feature user_region drift 18% vs baseline 2%. Error rate increased to 1.9%."
         MsgAlert None);
    mkTimer (S (S n)) 3000 false
      (PostAgentMessage
         "Recommendation: Rollback to v2.1. Confidence: 83%. Options: [Continue Rollout] [Rollback to v2.1]. I will not act without your confirmation."
         MsgRecommendation
         (Some (mkMetadata (Some 83) (Some High) (Some "user_region")))) ].

(** Timer discipline: handles are fresh and distinct; a pending timer is
    the interval of the simulation exactly when [simulationInterval] holds
    its handle, and the decision timeout exactly when the timeout effect
    remembers its handle. *)
Definition below (h : option nat) (n : nat) : Prop :=
  match h with Some i => i < n | None => True end.

Record wfT (q : list Timer) (next : nat) (interval timeout : option nat) : Prop := {
  wf_fresh : forall t, In t q -> timer_id t < next;
  wf_nodup : NoDup (map timer_id q);
  wf_interval : forall t, In t q ->
      (callback t = TickInterval <-> interval = Some (timer_id t));
  wf_periodic : forall t, In t q -> callback t = TickInterval -> repeats t = true;
  wf_timeout : forall t, In t q ->
      (callback t = RecommendationExpired <-> timeout = Some (timer_id t));
  wf_interval_handle : below interval next;
  wf_timeout_handle : below timeout next
}.

Definition wf (s : State) : Prop :=
  wfT (timers s) (nextTimerId s) (simulationInterval s) (timeoutId s).

(** The interval of the simulation is pending. *)
Definition ticking (s : State) : Prop :=
  exists id, simulationInterval s = Some id
             /\ In (mkTimer id 1000 true TickInterval) (timers s).

(** The pending timers once the timer behind a handle is cleared. *)
Definition cleared (handle : option nat) (q : list Timer) : list Timer :=
  match handle with Some id => cancel id q | None => q end.

(** A saved default is one of the choices of the settings view. *)
Definition saved_choice (saved : option nat) : Prop :=
  match saved with Some n => canary_choice n = true | None => True end.

(** Actions that start the simulation afresh. *)
Definition restarts (a : Action) : bool :=
  match a with StartCanary | Replay => true | _ => false end.

(** The transition table of section 4.1 of the specification, for the
    action intents; [None] stands for an illegal transition. *)
Definition spec_table (p : AppPhase) (a : Action) : option AppPhase :=
  match p, a with
  | IDLE, StartGuidedRelease => Some SHADOW_TEST
  | SHADOW_TEST, ContinueToSetup => Some CANARY_SETUP
  | CANARY_SETUP, StartCanary => Some MONITORING
  | ANOMALY_DETECTED, RequestRollback => Some ROLLBACK_CONFIRM
  | ROLLBACK_CONFIRM, ConfirmRollback => Some ROLLED_BACK
  | ROLLBACK_CONFIRM, CancelRollback => Some ANOMALY_DETECTED
  | ANOMALY_DETECTED, ContinueRollout => Some ANOMALY_DETECTED
  | (MONITORING | ANOMALY_DETECTED | ROLLBACK_CONFIRM | ROLLED_BACK), Replay =>
      Some MONITORING
  | _, _ => None
  end.

(** The transitions that the component makes when the view offers the
    action: the confirmation is a modal over [ANOMALY_DETECTED], timers and
    the network switch may let the anomaly through, and everything else
    keeps the phase.  [Replay] is not constrained here. *)
Definition follows_table (p : AppPhase) (a : Action) (p' : AppPhase) : Prop :=
  match a with
  | StartGuidedRelease => p = IDLE /\ p' = SHADOW_TEST
  | ContinueToSetup => p = SHADOW_TEST /\ p' = CANARY_SETUP
  | StartCanary => p = CANARY_SETUP /\ p' = MONITORING
  | RequestRollback | CancelRollback | ContinueRollout =>
      p = ANOMALY_DETECTED /\ p' = ANOMALY_DETECTED
  | ConfirmRollback => p = ANOMALY_DETECTED /\ p' = ROLLED_BACK
  | Replay => True
  | ToggleNetwork | TimerFires _ =>
      p' = p \/ (p = MONITORING /\ p' = ANOMALY_DETECTED)
  | _ => p' = p
  end.

(** ** A concrete environment and the guided scenario *)

Definition random0 (_ : nat) : Q := 0.
Definition clock0 (n : nat) : Z := Z.of_nat n * 10.

(** Idle, guided release, shadow test completed, setup, canary started. *)
Definition guided : list Action :=
  [StartGuidedRelease; TimerFires 1; ContinueToSetup; StartCanary].

Definition mount0 : State := mount random0 clock0 None None.

(** Canary setup, before the canary is started. *)
Definition setup0 : State :=
  run random0 clock0 [StartGuidedRelease; TimerFires 1; ContinueToSetup] mount0.

(** Monitoring at tick 0; the interval has handle 2. *)
Definition monitoring0 : State := step random0 clock0 StartCanary setup0.

(** Monitoring at tick 2. *)
Definition tick2 : State := Nat.iter 2 (tick random0 clock0) monitoring0.

(** The anomaly raised on the third tick, then the modal, then the rollback. *)
Definition anomaly0 : State := Nat.iter 3 (tick random0 clock0) monitoring0.
Definition confirming0 : State := step random0 clock0 RequestRollback anomaly0.
Definition rolledBack0 : State := step random0 clock0 ConfirmRollback confirming0.

(** The network switched off at tick 0, and three ticks later. *)
Definition offline0 : State := step random0 clock0 ToggleNetwork monitoring0.
Definition offline3 : State := Nat.iter 3 (tick random0 clock0) offline0.

(** The script behind [offline3] followed by a fourth tick, the network
    switched on again and two more ticks. *)
Definition missed : list Action :=
  [ToggleNetwork; TimerFires 2; TimerFires 2; TimerFires 2; TimerFires 2;
   ToggleNetwork; TimerFires 2; TimerFires 2].

(** Twenty-five ticks into the session the history is full. *)
Definition tick25 : State := Nat.iter 25 (tick random0 clock0) monitoring0.

(** The script behind [tick25]. *)
Definition ticks25 : list Action := guided ++ repeat (TimerFires 2) 25.

(** The network switched off before the third tick and on again while
    the tick index is still 3. *)
Definition reenabled : list Action :=
  [ToggleNetwork; TimerFires 2; TimerFires 2; TimerFires 2; ToggleNetwork].

(** An oracle at the upper edge of [Math.random]: the largest double
    below 1. *)
Definition randomEdge (_ : nat) : Q := 1 - (1 # 4503599627370496).

(** Canary setup with the duration field set to 0. *)
Definition zeroDuration0 : State :=
  step random0 clock0 (EditRolloutDuration (Some 0%Z)) setup0.

(** ** Observations on timers *)

Definition is_interval (t : Timer) : bool :=
  match callback t with TickInterval => true | _ => false end.

(** The pending intervals of the simulation. *)
Definition intervals (s : State) : list Timer := filter is_interval (timers s).

(** ** The overview dashboard

    The live dashboard effect of the component (App.tsx) runs once on
    mount: it fills the traffic history with twenty points and starts an
    interval of 1500 ms whose callback moves the four gauges and slides
    the traffic history.  Its state is disjoint from the release flow; it
    is modelled on its own, with the same oracles for [Math.random] and
    [Date.now]. *)

Module Overview.

Record SysStats : Type := mkSysStats {
  cpu : Q;
  memory : Q;
  requests : Z;
  latency : Z
}.

Record TrafficPoint : Type := mkTrafficPoint {
  name : Z;
  value : Q
}.

Record Dashboard : Type := mkDashboard {
  sysStats : SysStats;
  trafficData : list TrafficPoint;
  draws : nat;      (* calls of Math.random so far *)
  reads : nat       (* calls of Date.now so far *)
}.

Definition Math_min (a b : Q) : Q := if Qlt_le_dec b a then b else a.
Definition Math_max (a b : Q) : Q := if Qlt_le_dec a b then b else a.
Definition Math_floor (x : Q) : Z := Qfloor x.

(** The [useState] initial values. *)
Definition initialDashboard : Dashboard :=
  mkDashboard (mkSysStats 42 58 1420 205) [] 0 0.

Section Live.

Variable random : nat -> Q.
Variable clock : nat -> Z.

(** [Array.from({ length: 20 }).map((_, i) => ...)]. *)
Definition initialHistory (d : nat) : list TrafficPoint :=
  map (fun i => mkTrafficPoint (Z.of_nat i) (1200 + random (d + i) * 400)) (seq 0 20).

(** The body of the effect, up to the start of the interval. *)
Definition mountDashboard (b : Dashboard) : Dashboard :=
  mkDashboard (sysStats b) (initialHistory (draws b)) (20 + draws b) (reads b).

(** The updater passed to [setSysStats]. *)
Definition nextStats (d : nat) (prev : SysStats) : SysStats :=
  mkSysStats
    (Math_min 95 (Math_max 15 (cpu prev + (random d * 6 - 3))))
    (Math_min 90 (Math_max 25 (memory prev + (random (1 + d) * 4 - 2))))
    (Z.max 500 (Math_floor (1400 + (random (2 + d) * 300 - 150))))
    (Z.max 50 (Math_floor (205 + (random (3 + d) * 10 - 5)))).

(** The updater passed to [setTrafficData]; [next.shift()] drops the
    first element. *)
Definition nextTraffic (d r : nat) (prev : list TrafficPoint) : list TrafficPoint :=
  let next := prev ++ [mkTrafficPoint (clock r) (1400 + (random d * 300 - 150))] in
  if 20 <? length next then tl next else next.

(** One run of the interval callback. *)
Definition dashboardTick (b : Dashboard) : Dashboard :=
  mkDashboard (nextStats (draws b) (sysStats b))
              (nextTraffic (4 + draws b) (reads b) (trafficData b))
              (5 + draws b) (1 + reads b).

End Live.

End Overview.

(** * Properties *)

Unset Implicit Arguments.

Create HintDb frame.

Lemma phase_eqb_eq (a b : AppPhase) : phase_eqb a b = true <-> a = b.
Proof. destruct a, b; simpl; split; intro H; congruence. Qed.

Lemma phase_eqb_refl (a : AppPhase) : phase_eqb a a = true.
Proof. now destruct a. Qed.

Lemma same_sync_eq d r : same_sync d r = true <-> d = Some (deps_sync r).
Proof.
  unfold same_sync, deps_sync. destruct d as [[p ph]|]; [|split; discriminate].
  rewrite andb_true_iff, Nat.eqb_eq, phase_eqb_eq. split.
  - intros [-> ->]; reflexivity.
  - intros [= -> ->]; auto.
Qed.

Lemma same_metric_eq d r : same_metric d r = true <-> d = Some (deps_metric r).
Proof.
  unfold same_metric, deps_metric. destruct d as [[[t ph] n]|]; [|split; discriminate].
  rewrite !andb_true_iff, Nat.eqb_eq, phase_eqb_eq, eqb_true_iff. split.
  - intros [[-> ->] ->]; reflexivity.
  - intros [= -> -> ->]; auto.
Qed.

Lemma same_timeout_eq d r : same_timeout d r = true <-> d = Some (deps_timeout r).
Proof.
  unfold same_timeout, deps_timeout. destruct d as [ph|]; [|split; discriminate].
  rewrite phase_eqb_eq. split; [intros ->; reflexivity | intros [= ->]; reflexivity].
Qed.

(** ** The effects, field by field *)

(** Case analysis on the guards of an effect applied to abstract states. *)
Ltac prune := cbv beta iota.
Ltac break :=
  match goal with
  | |- context [if ?b then _ else _] =>
      lazymatch b with
      | context [if _ then _ else _] => fail
      | _ => destruct b eqn:?; prune
      end
  | |- context [clearTimer ?h _] =>
      lazymatch h with
      | Some _ => fail
      | None => fail
      | _ => destruct h eqn:?
      end
  end.
Ltac frame := intros; repeat break; reflexivity.

(** Case analysis on what decides the metric effect of render [r] on [s]. *)
Ltac metric_cases r s :=
  unfold metricEffect, raises, runs, sampling;
  destruct (same_metric (metricDeps s) r) eqn:Hsame, (phase r) eqn:Hphase,
    (networkEnabled r) eqn:Hnet, (tickIndex r =? ANOMALY_TICK_INDEX) eqn:Htick;
  cbn [phase_eqb negb andb orb]; prune.

Section Effects.

Variable random : nat -> Q.
Variable clock : nat -> Z.

(** What the sync effect leaves alone. *)

Lemma syncEffect_phase r s : phase (syncEffect r s) = phase s.
Proof. unfold syncEffect; frame. Qed.

Lemma syncEffect_metrics r s : metrics (syncEffect r s) = metrics s.
Proof. unfold syncEffect; frame. Qed.

Lemma syncEffect_messages r s : messages (syncEffect r s) = messages s.
Proof. unfold syncEffect; frame. Qed.

Lemma syncEffect_logs r s : logs (syncEffect r s) = logs s.
Proof. unfold syncEffect; frame. Qed.

Lemma syncEffect_activeModel r s : activeModel (syncEffect r s) = activeModel s.
Proof. unfold syncEffect; frame. Qed.

Lemma syncEffect_shadowTestStatus r s : shadowTestStatus (syncEffect r s) = shadowTestStatus s.
Proof. unfold syncEffect; frame. Qed.

Lemma syncEffect_networkEnabled r s : networkEnabled (syncEffect r s) = networkEnabled s.
Proof. unfold syncEffect; frame. Qed.

Lemma syncEffect_defaultCanaryPercent r s : defaultCanaryPercent (syncEffect r s) = defaultCanaryPercent s.
Proof. unfold syncEffect; frame. Qed.

Lemma syncEffect_rolloutDuration r s : rolloutDuration (syncEffect r s) = rolloutDuration s.
Proof. unfold syncEffect; frame. Qed.

Lemma syncEffect_tickIndex r s : tickIndex (syncEffect r s) = tickIndex s.
Proof. unfold syncEffect; frame. Qed.

Lemma syncEffect_showRollbackModal r s : showRollbackModal (syncEffect r s) = showRollbackModal s.
Proof. unfold syncEffect; frame. Qed.

Lemma syncEffect_showReleaseNotes r s : showReleaseNotes (syncEffect r s) = showReleaseNotes s.
Proof. unfold syncEffect; frame. Qed.

Lemma syncEffect_recommendationTimeout r s : recommendationTimeout (syncEffect r s) = recommendationTimeout s.
Proof. unfold syncEffect; frame. Qed.

Lemma syncEffect_agentConfidence r s : agentConfidence (syncEffect r s) = agentConfidence s.
Proof. unfold syncEffect; frame. Qed.

Lemma syncEffect_simulationInterval r s : simulationInterval (syncEffect r s) = simulationInterval s.
Proof. unfold syncEffect; frame. Qed.

Lemma syncEffect_timers r s : timers (syncEffect r s) = timers s.
Proof. unfold syncEffect; frame. Qed.

Lemma syncEffect_nextTimerId r s : nextTimerId (syncEffect r s) = nextTimerId s.
Proof. unfold syncEffect; frame. Qed.

Lemma syncEffect_metricDeps r s : metricDeps (syncEffect r s) = metricDeps s.
Proof. unfold syncEffect; frame. Qed.

Lemma syncEffect_timeoutDeps r s : timeoutDeps (syncEffect r s) = timeoutDeps s.
Proof. unfold syncEffect; frame. Qed.

Lemma syncEffect_timeoutId r s : timeoutId (syncEffect r s) = timeoutId s.
Proof. unfold syncEffect; frame. Qed.

Lemma syncEffect_draws r s : draws (syncEffect r s) = draws s.
Proof. unfold syncEffect; frame. Qed.

Lemma syncEffect_reads r s : reads (syncEffect r s) = reads s.
Proof. unfold syncEffect; frame. Qed.

(** What the metric effect leaves alone. *)

Lemma metricEffect_messages r s : messages (metricEffect random clock r s) = messages s.
Proof. unfold metricEffect; frame. Qed.

Lemma metricEffect_activeModel r s : activeModel (metricEffect random clock r s) = activeModel s.
Proof. unfold metricEffect; frame. Qed.

Lemma metricEffect_shadowTestStatus r s : shadowTestStatus (metricEffect random clock r s) = shadowTestStatus s.
Proof. unfold metricEffect; frame. Qed.

Lemma metricEffect_networkEnabled r s : networkEnabled (metricEffect random clock r s) = networkEnabled s.
Proof. unfold metricEffect; frame. Qed.

Lemma metricEffect_defaultCanaryPercent r s : defaultCanaryPercent (metricEffect random clock r s) = defaultCanaryPercent s.
Proof. unfold metricEffect; frame. Qed.

Lemma metricEffect_canaryPercent r s : canaryPercent (metricEffect random clock r s) = canaryPercent s.
Proof. unfold metricEffect; frame. Qed.

Lemma metricEffect_rolloutDuration r s : rolloutDuration (metricEffect random clock r s) = rolloutDuration s.
Proof. unfold metricEffect; frame. Qed.

Lemma metricEffect_tickIndex r s : tickIndex (metricEffect random clock r s) = tickIndex s.
Proof. unfold metricEffect; frame. Qed.

Lemma metricEffect_showRollbackModal r s : showRollbackModal (metricEffect random clock r s) = showRollbackModal s.
Proof. unfold metricEffect; frame. Qed.

Lemma metricEffect_showReleaseNotes r s : showReleaseNotes (metricEffect random clock r s) = showReleaseNotes s.
Proof. unfold metricEffect; frame. Qed.

Lemma metricEffect_recommendationTimeout r s : recommendationTimeout (metricEffect random clock r s) = recommendationTimeout s.
Proof. unfold metricEffect; frame. Qed.

Lemma metricEffect_simulationInterval r s : simulationInterval (metricEffect random clock r s) = simulationInterval s.
Proof. unfold metricEffect; frame. Qed.

Lemma metricEffect_syncDeps r s : syncDeps (metricEffect random clock r s) = syncDeps s.
Proof. unfold metricEffect; frame. Qed.

Lemma metricEffect_timeoutDeps r s : timeoutDeps (metricEffect random clock r s) = timeoutDeps s.
Proof. unfold metricEffect; frame. Qed.

Lemma metricEffect_timeoutId r s : timeoutId (metricEffect random clock r s) = timeoutId s.
Proof. unfold metricEffect; frame. Qed.

(** What the timeout effect leaves alone. *)

Lemma timeoutEffect_phase r s : phase (timeoutEffect r s) = phase s.
Proof. unfold timeoutEffect; frame. Qed.

Lemma timeoutEffect_metrics r s : metrics (timeoutEffect r s) = metrics s.
Proof. unfold timeoutEffect; frame. Qed.

Lemma timeoutEffect_messages r s : messages (timeoutEffect r s) = messages s.
Proof. unfold timeoutEffect; frame. Qed.

Lemma timeoutEffect_logs r s : logs (timeoutEffect r s) = logs s.
Proof. unfold timeoutEffect; frame. Qed.

Lemma timeoutEffect_activeModel r s : activeModel (timeoutEffect r s) = activeModel s.
Proof. unfold timeoutEffect; frame. Qed.

Lemma timeoutEffect_shadowTestStatus r s : shadowTestStatus (timeoutEffect r s) = shadowTestStatus s.
Proof. unfold timeoutEffect; frame. Qed.

Lemma timeoutEffect_networkEnabled r s : networkEnabled (timeoutEffect r s) = networkEnabled s.
Proof. unfold timeoutEffect; frame. Qed.

Lemma timeoutEffect_defaultCanaryPercent r s : defaultCanaryPercent (timeoutEffect r s) = defaultCanaryPercent s.
Proof. unfold timeoutEffect; frame. Qed.

Lemma timeoutEffect_canaryPercent r s : canaryPercent (timeoutEffect r s) = canaryPercent s.
Proof. unfold timeoutEffect; frame. Qed.

Lemma timeoutEffect_rolloutDuration r s : rolloutDuration (timeoutEffect r s) = rolloutDuration s.
Proof. unfold timeoutEffect; frame. Qed.

Lemma timeoutEffect_tickIndex r s : tickIndex (timeoutEffect r s) = tickIndex s.
Proof. unfold timeoutEffect; frame. Qed.

Lemma timeoutEffect_showRollbackModal r s : showRollbackModal (timeoutEffect r s) = showRollbackModal s.
Proof. unfold timeoutEffect; frame. Qed.

Lemma timeoutEffect_showReleaseNotes r s : showReleaseNotes (timeoutEffect r s) = showReleaseNotes s.
Proof. unfold timeoutEffect; frame. Qed.

Lemma timeoutEffect_agentConfidence r s : agentConfidence (timeoutEffect r s) = agentConfidence s.
Proof. unfold timeoutEffect; frame. Qed.

Lemma timeoutEffect_simulationInterval r s : simulationInterval (timeoutEffect r s) = simulationInterval s.
Proof. unfold timeoutEffect; frame. Qed.

Lemma timeoutEffect_syncDeps r s : syncDeps (timeoutEffect r s) = syncDeps s.
Proof. unfold timeoutEffect; frame. Qed.

Lemma timeoutEffect_metricDeps r s : metricDeps (timeoutEffect r s) = metricDeps s.
Proof. unfold timeoutEffect; frame. Qed.

(** What the metric effect changes. *)

Lemma metricEffect_phase r s :
  phase (metricEffect random clock r s)
  = if raises r s then ANOMALY_DETECTED else phase s.
Proof.
  metric_cases r s; reflexivity.
Qed.

Lemma metricEffect_agentConfidence r s :
  agentConfidence (metricEffect random clock r s)
  = if raises r s then 83 else agentConfidence s.
Proof.
  metric_cases r s; reflexivity.
Qed.

Lemma metricEffect_metrics r s :
  metrics (metricEffect random clock r s)
  = if runs r s then pushMetric (metrics s) (fst (newPoint random clock r s))
    else metrics s.
Proof.
  metric_cases r s; reflexivity.
Qed.

Lemma metricEffect_logs r s :
  logs (metricEffect random clock r s)
  = if raises r s
    then mkLogEntry (random (3 + draws s)) (clock (1 + reads s)) "Anomaly Detected"
           "Latency > threshold (+22%), Drift > threshold (0.18)." LogWarning :: logs s
    else logs s.
Proof.
  metric_cases r s; reflexivity.
Qed.

Lemma metricEffect_timers r s :
  timers (metricEffect random clock r s)
  = if raises r s then timers s ++ advisories (nextTimerId s) else timers s.
Proof.
  metric_cases r s; try reflexivity.
  cbn. rewrite <- !app_assoc. reflexivity.
Qed.

Lemma metricEffect_nextTimerId r s :
  nextTimerId (metricEffect random clock r s)
  = if raises r s then 3 + nextTimerId s else nextTimerId s.
Proof.
  metric_cases r s; reflexivity.
Qed.

Lemma metricEffect_metricDeps r s :
  metricDeps (metricEffect random clock r s) = Some (deps_metric r).
Proof.
  unfold metricEffect.
  destruct (same_metric (metricDeps s) r) eqn:E.
  - now apply same_metric_eq.
  - frame.
Qed.

(** What the other two effects change. *)

Lemma syncEffect_syncDeps r s : syncDeps (syncEffect r s) = Some (deps_sync r).
Proof.
  unfold syncEffect. destruct (same_sync (syncDeps s) r) eqn:E.
  - now apply same_sync_eq.
  - frame.
Qed.

Lemma syncEffect_canaryPercent r s :
  canaryPercent (syncEffect r s)
  = if negb (same_sync (syncDeps s) r) && phase_eqb (phase r) IDLE
    then defaultCanaryPercent r else canaryPercent s.
Proof.
  unfold syncEffect.
  destruct (same_sync (syncDeps s) r), (phase_eqb (phase r) IDLE); reflexivity.
Qed.

Lemma timeoutEffect_timeoutDeps r s :
  timeoutDeps (timeoutEffect r s) = Some (deps_timeout r).
Proof.
  unfold timeoutEffect. destruct (same_timeout (timeoutDeps s) r) eqn:E.
  - now apply same_timeout_eq.
  - frame.
Qed.

Lemma timeoutEffect_recommendationTimeout r s :
  recommendationTimeout (timeoutEffect r s)
  = if same_timeout (timeoutDeps s) r || phase_eqb (phase r) ANOMALY_DETECTED
    then recommendationTimeout s else false.
Proof.
  unfold timeoutEffect.
  destruct (same_timeout (timeoutDeps s) r), (phase_eqb (phase r) ANOMALY_DETECTED),
    (timeoutId s); reflexivity.
Qed.

Lemma timeoutEffect_timers r s :
  timers (timeoutEffect r s)
  = if same_timeout (timeoutDeps s) r then timers s
    else if phase_eqb (phase r) ANOMALY_DETECTED
         then timers (clearTimer (timeoutId s) s)
                ++ [mkTimer (nextTimerId s) 60000 false RecommendationExpired]
         else timers (clearTimer (timeoutId s) s).
Proof.
  unfold timeoutEffect.
  destruct (same_timeout (timeoutDeps s) r), (phase_eqb (phase r) ANOMALY_DETECTED),
    (timeoutId s); reflexivity.
Qed.

Lemma timeoutEffect_nextTimerId r s :
  nextTimerId (timeoutEffect r s)
  = if negb (same_timeout (timeoutDeps s) r) && phase_eqb (phase r) ANOMALY_DETECTED
    then S (nextTimerId s) else nextTimerId s.
Proof.
  unfold timeoutEffect.
  destruct (same_timeout (timeoutDeps s) r), (phase_eqb (phase r) ANOMALY_DETECTED),
    (timeoutId s); reflexivity.
Qed.

Lemma timeoutEffect_timeoutId r s :
  timeoutId (timeoutEffect r s)
  = if same_timeout (timeoutDeps s) r then timeoutId s
    else if phase_eqb (phase r) ANOMALY_DETECTED then Some (nextTimerId s) else None.
Proof.
  unfold timeoutEffect.
  destruct (same_timeout (timeoutDeps s) r), (phase_eqb (phase r) ANOMALY_DETECTED),
    (timeoutId s); reflexivity.
Qed.

End Effects.

#[local] Hint Rewrite syncEffect_phase syncEffect_metrics syncEffect_messages
  syncEffect_logs syncEffect_activeModel syncEffect_shadowTestStatus
  syncEffect_networkEnabled syncEffect_defaultCanaryPercent syncEffect_rolloutDuration
  syncEffect_tickIndex syncEffect_showRollbackModal syncEffect_showReleaseNotes
  syncEffect_recommendationTimeout syncEffect_agentConfidence
  syncEffect_simulationInterval syncEffect_timers syncEffect_nextTimerId
  syncEffect_metricDeps syncEffect_timeoutDeps syncEffect_timeoutId metricEffect_messages
  metricEffect_activeModel metricEffect_shadowTestStatus metricEffect_networkEnabled
  metricEffect_defaultCanaryPercent metricEffect_canaryPercent
  metricEffect_rolloutDuration metricEffect_tickIndex metricEffect_showRollbackModal
  metricEffect_showReleaseNotes metricEffect_recommendationTimeout
  metricEffect_simulationInterval metricEffect_syncDeps metricEffect_timeoutDeps
  metricEffect_timeoutId timeoutEffect_phase timeoutEffect_metrics timeoutEffect_messages
  timeoutEffect_logs timeoutEffect_activeModel timeoutEffect_shadowTestStatus
  timeoutEffect_networkEnabled timeoutEffect_defaultCanaryPercent
  timeoutEffect_canaryPercent timeoutEffect_rolloutDuration timeoutEffect_tickIndex
  timeoutEffect_showRollbackModal timeoutEffect_showReleaseNotes
  timeoutEffect_agentConfidence timeoutEffect_simulationInterval timeoutEffect_syncDeps
  timeoutEffect_metricDeps syncEffect_draws syncEffect_reads : frame.

(** ** One render *)

Section Rendering.

Variable random : nat -> Q.
Variable clock : nat -> Z.

Lemma runs_ext r s s' : metricDeps s' = metricDeps s -> runs r s' = runs r s.
Proof. unfold runs; now intros ->. Qed.

Lemma raises_ext r s s' : metricDeps s' = metricDeps s -> raises r s' = raises r s.
Proof. unfold raises; intros E; now rewrite (runs_ext r s s' E). Qed.

Lemma raises_runs r s : raises r s = true -> runs r s = true.
Proof. unfold raises; intros H; now apply andb_true_iff in H as [H%andb_true_iff _]. Qed.

Lemma newPoint_ext r s s' :
  draws s' = draws s -> reads s' = reads s ->
  fst (newPoint random clock r s') = fst (newPoint random clock r s).
Proof. unfold newPoint; cbn; now intros -> ->. Qed.

Ltac through :=
  unfold commit;
  repeat first
    [ rewrite timeoutEffect_phase | rewrite syncEffect_phase ];
  autorewrite with frame; try reflexivity.

Lemma commit_tickIndex s : tickIndex (commit random clock s) = tickIndex s.
Proof. through. Qed.
Lemma commit_networkEnabled s : networkEnabled (commit random clock s) = networkEnabled s.
Proof. through. Qed.
Lemma commit_defaultCanaryPercent s :
  defaultCanaryPercent (commit random clock s) = defaultCanaryPercent s.
Proof. through. Qed.
Lemma commit_showRollbackModal s :
  showRollbackModal (commit random clock s) = showRollbackModal s.
Proof. through. Qed.
Lemma commit_simulationInterval s :
  simulationInterval (commit random clock s) = simulationInterval s.
Proof. through. Qed.
Lemma commit_shadowTestStatus s :
  shadowTestStatus (commit random clock s) = shadowTestStatus s.
Proof. through. Qed.
Lemma commit_rolloutDuration s : rolloutDuration (commit random clock s) = rolloutDuration s.
Proof. through. Qed.
Lemma commit_messages s : messages (commit random clock s) = messages s.
Proof. through. Qed.
Lemma commit_activeModel s : activeModel (commit random clock s) = activeModel s.
Proof. through. Qed.

Lemma commit_phase s :
  phase (commit random clock s) = if fires s then ANOMALY_DETECTED else phase s.
Proof.
  unfold commit, fires. rewrite timeoutEffect_phase, metricEffect_phase.
  rewrite (raises_ext s s (syncEffect s s)) by apply syncEffect_metricDeps.
  now rewrite syncEffect_phase.
Qed.

Lemma commit_agentConfidence s :
  agentConfidence (commit random clock s) = if fires s then 83 else agentConfidence s.
Proof.
  unfold commit, fires. rewrite timeoutEffect_agentConfidence, metricEffect_agentConfidence.
  rewrite (raises_ext s s (syncEffect s s)) by apply syncEffect_metricDeps.
  now rewrite syncEffect_agentConfidence.
Qed.

Lemma commit_logs s :
  logs (commit random clock s) = if fires s then anomalyEntry random clock s :: logs s else logs s.
Proof.
  unfold commit, fires, anomalyEntry; cbn [plus]. rewrite timeoutEffect_logs, metricEffect_logs.
  rewrite (raises_ext s s (syncEffect s s)) by apply syncEffect_metricDeps.
  now rewrite syncEffect_logs, syncEffect_draws, syncEffect_reads.
Qed.

Lemma commit_metrics s :
  metrics (commit random clock s)
  = if samples s then pushMetric (metrics s) (sample random clock s) else metrics s.
Proof.
  unfold commit, samples, sample. rewrite timeoutEffect_metrics, metricEffect_metrics.
  rewrite (runs_ext s s (syncEffect s s)) by apply syncEffect_metricDeps.
  rewrite syncEffect_metrics.
  now rewrite (newPoint_ext s s (syncEffect s s))
    by (apply syncEffect_draws || apply syncEffect_reads).
Qed.

Lemma commit_canaryPercent s :
  canaryPercent (commit random clock s)
  = if negb (same_sync (syncDeps s) s) && phase_eqb (phase s) IDLE
    then defaultCanaryPercent s else canaryPercent s.
Proof. through. apply syncEffect_canaryPercent. Qed.

Lemma commit_syncDeps s : syncDeps (commit random clock s) = Some (deps_sync s).
Proof. through. apply syncEffect_syncDeps. Qed.

Lemma commit_metricDeps s : metricDeps (commit random clock s) = Some (deps_metric s).
Proof. through. apply metricEffect_metricDeps. Qed.

Lemma commit_timeoutDeps s : timeoutDeps (commit random clock s) = Some (deps_timeout s).
Proof. unfold commit. apply timeoutEffect_timeoutDeps. Qed.

Lemma commit_recommendationTimeout s :
  recommendationTimeout (commit random clock s)
  = if same_timeout (timeoutDeps s) s || phase_eqb (phase s) ANOMALY_DETECTED
    then recommendationTimeout s else false.
Proof.
  unfold commit. rewrite timeoutEffect_recommendationTimeout. now autorewrite with frame.
Qed.

(** *** Quiescence *)

Lemma stable_commit s : stable s -> commit random clock s = s.
Proof.
  intros (H1 & H2 & H3). unfold commit, syncEffect. rewrite H1.
  unfold metricEffect. rewrite H2. unfold timeoutEffect. now rewrite H3.
Qed.

Lemma fires_phase s : fires s = true -> phase s = MONITORING.
Proof.
  unfold fires, raises. intros H. apply andb_true_iff in H as [_ H].
  now apply phase_eqb_eq.
Qed.

Lemma fires_samples s : fires s = true -> samples s = true.
Proof. apply raises_runs. Qed.

Lemma fires_tickIndex s : fires s = true -> tickIndex s = ANOMALY_TICK_INDEX.
Proof.
  unfold fires, raises. intros H. apply andb_true_iff in H as [H _].
  apply andb_true_iff in H as [_ H]. now apply Nat.eqb_eq.
Qed.

Lemma samples_networkEnabled s : samples s = true -> networkEnabled s = true.
Proof. unfold samples, runs. intros H. now apply andb_true_iff in H as [_ H]. Qed.

(** Once rendered, the metric effect samples again exactly when the
    anomaly was raised: the phase it depends on has changed. *)
Lemma samples_commit s : samples (commit random clock s) = fires s.
Proof.
  unfold samples, runs. rewrite commit_metricDeps, commit_phase, commit_networkEnabled.
  unfold same_metric, deps_metric. rewrite commit_tickIndex, commit_phase,
    commit_networkEnabled, Nat.eqb_refl, eqb_reflx.
  destruct (fires s) eqn:F.
  - rewrite (fires_phase s F), (samples_networkEnabled s (fires_samples s F)). reflexivity.
  - now rewrite phase_eqb_refl.
Qed.

Lemma fires_commit s : fires (commit random clock s) = false.
Proof.
  unfold fires, raises. fold (samples (commit random clock s)).
  rewrite samples_commit, commit_phase.
  destruct (fires s); [now rewrite andb_false_r | reflexivity].
Qed.

Lemma stable_commit_iff s : fires s = false -> stable (commit random clock s).
Proof.
  intros F. unfold stable.
  rewrite commit_syncDeps, commit_metricDeps, commit_timeoutDeps.
  unfold same_sync, same_metric, same_timeout, deps_sync, deps_metric, deps_timeout.
  rewrite commit_defaultCanaryPercent, commit_tickIndex, commit_networkEnabled,
    commit_phase, F, !Nat.eqb_refl, phase_eqb_refl, eqb_reflx.
  auto.
Qed.

Lemma stable_settle s : stable (settle random clock s).
Proof. unfold settle. apply stable_commit_iff, fires_commit. Qed.

Lemma settle_commit s : commit random clock (settle random clock s) = settle random clock s.
Proof. apply stable_commit, stable_settle. Qed.

Lemma settle_stable s : stable s -> settle random clock s = s.
Proof. intros H. unfold settle. now rewrite (stable_commit s H), (stable_commit s H). Qed.

(** *** Rendering to quiescence, field by field *)

Lemma settle_phase s :
  phase (settle random clock s) = if fires s then ANOMALY_DETECTED else phase s.
Proof. unfold settle. now rewrite commit_phase, fires_commit, commit_phase. Qed.

Lemma settle_logs s :
  logs (settle random clock s)
  = if fires s then anomalyEntry random clock s :: logs s else logs s.
Proof. unfold settle. now rewrite commit_logs, fires_commit, commit_logs. Qed.

Lemma settle_agentConfidence s :
  agentConfidence (settle random clock s) = if fires s then 83 else agentConfidence s.
Proof.
  unfold settle. now rewrite commit_agentConfidence, fires_commit, commit_agentConfidence.
Qed.

Lemma settle_metrics s :
  metrics (settle random clock s)
  = if fires s
    then pushMetric (pushMetric (metrics s) (sample random clock s))
           (sample random clock (commit random clock s))
    else if samples s then pushMetric (metrics s) (sample random clock s)
         else metrics s.
Proof.
  unfold settle. rewrite commit_metrics, samples_commit, commit_metrics.
  destruct (fires s) eqn:F; [now rewrite (fires_samples s F) | reflexivity].
Qed.

Lemma settle_tickIndex s : tickIndex (settle random clock s) = tickIndex s.
Proof. unfold settle. now rewrite !commit_tickIndex. Qed.

Lemma settle_networkEnabled s : networkEnabled (settle random clock s) = networkEnabled s.
Proof. unfold settle. now rewrite !commit_networkEnabled. Qed.

Lemma settle_defaultCanaryPercent s :
  defaultCanaryPercent (settle random clock s) = defaultCanaryPercent s.
Proof. unfold settle. now rewrite !commit_defaultCanaryPercent. Qed.

Lemma settle_showRollbackModal s :
  showRollbackModal (settle random clock s) = showRollbackModal s.
Proof. unfold settle. now rewrite !commit_showRollbackModal. Qed.

Lemma settle_simulationInterval s :
  simulationInterval (settle random clock s) = simulationInterval s.
Proof. unfold settle. now rewrite !commit_simulationInterval. Qed.

Lemma settle_shadowTestStatus s :
  shadowTestStatus (settle random clock s) = shadowTestStatus s.
Proof. unfold settle. now rewrite !commit_shadowTestStatus. Qed.

Lemma settle_rolloutDuration s :
  rolloutDuration (settle random clock s) = rolloutDuration s.
Proof. unfold settle. now rewrite !commit_rolloutDuration. Qed.

Lemma settle_messages s : messages (settle random clock s) = messages s.
Proof. unfold settle. now rewrite !commit_messages. Qed.

(** The timeout flag is decided by the first render: the second one
    either sees the same phase or sees [ANOMALY_DETECTED]. *)
Lemma settle_recommendationTimeout s :
  recommendationTimeout (settle random clock s)
  = if same_timeout (timeoutDeps s) s || phase_eqb (phase s) ANOMALY_DETECTED
    then recommendationTimeout s else false.
Proof.
  unfold settle. rewrite (commit_recommendationTimeout (commit random clock s)).
  rewrite commit_timeoutDeps. unfold same_timeout at 1, deps_timeout.
  rewrite !commit_phase.
  destruct (fires s).
  - cbn [phase_eqb]. rewrite orb_true_r. apply commit_recommendationTimeout.
  - rewrite phase_eqb_refl. apply commit_recommendationTimeout.
Qed.

Lemma settle_canaryPercent s :
  canaryPercent (settle random clock s)
  = if negb (same_sync (syncDeps s) s) && phase_eqb (phase s) IDLE
    then defaultCanaryPercent s else canaryPercent s.
Proof.
  unfold settle. rewrite (commit_canaryPercent (commit random clock s)).
  rewrite commit_syncDeps. unfold same_sync at 1, deps_sync.
  rewrite commit_defaultCanaryPercent, !commit_phase, Nat.eqb_refl.
  destruct (fires s) eqn:F.
  - cbn [phase_eqb andb negb]. rewrite andb_false_r. apply commit_canaryPercent.
  - rewrite phase_eqb_refl. apply commit_canaryPercent.
Qed.

End Rendering.

(** ** Handlers *)

(** Case analysis on an action and on what its handler branches on: the
    pending timer for [TimerFires], the network flag for [ToggleNetwork],
    the interval handle where the simulation is restarted or stopped. *)
Ltac handler_unfold :=
  unfold handle, fire, toggleNetwork, handleStartCanary, replayTimeline,
    confirmRollback, startSimulation;
  cbv zeta;
  repeat match goal with
    | |- context [clearTimer ?h _] =>
        let h' := eval cbn in h in progress change h with h'
    end.

Ltac handler_cases a s :=
  destruct a as [| |pct|parsed| | | |value| | | | | |val|id];
  handler_unfold;
  [ | | | | destruct (simulationInterval s) as [iv|] eqn:Hinterval
    | | | | destruct (simulationInterval s) as [iv|] eqn:Hinterval
    | | | destruct (simulationInterval s) as [iv|] eqn:Hinterval
    | destruct (networkEnabled s) eqn:Hnet
    | | destruct (pending id s) as [[tid ms [|] [| |body kind meta|]]|] eqn:Hpending ];
  cbn [callback repeats runCallback negb].

Section Handlers.

Variable random : nat -> Q.
Variable clock : nat -> Z.

(** The memo of the effects belongs to React: no handler touches it. *)

Lemma handle_syncDeps a s : syncDeps (handle random clock a s) = syncDeps s.
Proof. handler_cases a s; reflexivity. Qed.

Lemma handle_metricDeps a s : metricDeps (handle random clock a s) = metricDeps s.
Proof. handler_cases a s; reflexivity. Qed.

Lemma handle_timeoutDeps a s : timeoutDeps (handle random clock a s) = timeoutDeps s.
Proof. handler_cases a s; reflexivity. Qed.

Lemma handle_timeoutId a s : timeoutId (handle random clock a s) = timeoutId s.
Proof. handler_cases a s; reflexivity. Qed.

(** The phase that each handler sets, from whatever phase it is called. *)
Lemma handle_phase a s :
  phase (handle random clock a s)
  = match a with
    | StartGuidedRelease => SHADOW_TEST
    | ContinueToSetup => CANARY_SETUP
    | StartCanary => MONITORING
    | ConfirmRollback => ROLLED_BACK
    | _ => phase s
    end.
Proof. handler_cases a s; reflexivity. Qed.

Lemma handle_networkEnabled a s :
  networkEnabled (handle random clock a s)
  = match a with
    | ToggleNetwork => negb (networkEnabled s)
    | _ => networkEnabled s
    end.
Proof. handler_cases a s; try rewrite Hnet; reflexivity. Qed.

Lemma handle_tickIndex a s :
  tickIndex (handle random clock a s)
  = match a with
    | StartCanary | Replay => 0
    | TimerFires id =>
        match pending id s with
        | Some t => match callback t with
                    | TickInterval => tickIndex s + 1
                    | _ => tickIndex s
                    end
        | None => tickIndex s
        end
    | _ => tickIndex s
    end.
Proof. handler_cases a s; try rewrite Hpending; reflexivity. Qed.

Lemma handle_defaultCanaryPercent a s :
  defaultCanaryPercent (handle random clock a s)
  = match a with
    | SelectDefaultCanaryPercent val => val
    | _ => defaultCanaryPercent s
    end.
Proof. handler_cases a s; reflexivity. Qed.

Lemma handle_canaryPercent a s :
  canaryPercent (handle random clock a s)
  = match a with
    | SelectCanaryPercent pct => pct
    | _ => canaryPercent s
    end.
Proof. handler_cases a s; reflexivity. Qed.

Lemma handle_metrics a s :
  restarts a = false -> metrics (handle random clock a s) = metrics s.
Proof. intros R. handler_cases a s; try discriminate R; reflexivity. Qed.

Lemma handle_metrics_restart a s :
  restarts a = true -> length (metrics (handle random clock a s)) = 10.
Proof. intros R. handler_cases a s; try discriminate R; reflexivity. Qed.

Lemma handle_showRollbackModal a s :
  showRollbackModal (handle random clock a s)
  = match a with
    | RequestRollback => true
    | ConfirmRollback | CancelRollback => false
    | _ => showRollbackModal s
    end.
Proof. handler_cases a s; reflexivity. Qed.

Lemma handle_anomalies a s : anomalies (handle random clock a s) = anomalies s.
Proof. unfold anomalies. handler_cases a s; reflexivity. Qed.

Lemma handle_rolloutDuration a s :
  rolloutDuration (handle random clock a s)
  = match a with
    | EditRolloutDuration parsed => parsed
    | _ => rolloutDuration s
    end.
Proof. handler_cases a s; reflexivity. Qed.

Lemma handle_recommendationTimeout a s :
  recommendationTimeout (handle random clock a s)
  = match a with
    | ContinueRollout | ConfirmRollback => false
    | TimerFires id =>
        match pending id s with
        | Some t => match callback t with
                    | RecommendationExpired => true
                    | _ => recommendationTimeout s
                    end
        | None => recommendationTimeout s
        end
    | _ => recommendationTimeout s
    end.
Proof. handler_cases a s; try rewrite Hpending; reflexivity. Qed.

(** The audit entries of the canary start and of the rollback. *)
Lemma handleStartCanary_logs s :
  logs (handle random clock StartCanary s)
  = mkLogEntry (random (draws s)) (clock (reads s)) "Canary Rollout Started"
      "Traffic split: 95/5. Monitoring started." LogInfo :: logs s.
Proof. handler_unfold. destruct (simulationInterval s); reflexivity. Qed.

Lemma confirmRollback_logs s :
  logs (handle random clock ConfirmRollback s)
  = mkLogEntry (random (draws s)) (clock (reads s)) "Rollback Executed"
      ("Reverted to v2.1. Reason: Terra Anomaly Detection. Adjusted Confidence: "
         ++ decimal (agentConfidence s) ++ "%.")%string
      LogError :: logs s.
Proof. handler_unfold. destruct (simulationInterval s); reflexivity. Qed.

Lemma replayTimeline_logs s :
  logs (handle random clock Replay s)
  = mkLogEntry (random (30 + draws s)) (clock (10 + reads s)) "Replay"
      "Replaying last session data." LogInfo :: logs s.
Proof. handler_unfold. destruct (simulationInterval s); reflexivity. Qed.

Lemma confirmRollback_timers s :
  timers (handle random clock ConfirmRollback s)
  = match simulationInterval s with
    | Some id => cancel id (timers s)
    | None => timers s
    end.
Proof. handler_unfold. destruct (simulationInterval s); reflexivity. Qed.

(** A handler other than a restart adds no interval. *)
Lemma handle_no_interval a s :
  restarts a = false ->
  (forall t, In t (timers s) -> callback t <> TickInterval) ->
  forall t, In t (timers (handle random clock a s)) -> callback t <> TickInterval.
Proof.
  intros R H. handler_cases a s; try discriminate R; try exact H;
    cbn; intros t Ht.
  - apply in_app_iff in Ht as [Ht|[<-|[]]]; [now apply H | discriminate].
  - apply filter_In in Ht as [Ht _]. now apply H.
  - apply filter_In in Ht as [Ht _]. now apply H.
  - apply filter_In in Ht as [Ht _]. now apply H.
  - apply filter_In in Ht as [Ht _]. now apply H.
  - apply filter_In in Ht as [Ht _]. now apply H.
Qed.

End Handlers.

(** ** Timer discipline *)

Lemma In_cancel id q t : In t (cancel id q) <-> In t q /\ timer_id t <> id.
Proof.
  unfold cancel. rewrite filter_In, negb_true_iff, Nat.eqb_neq. reflexivity.
Qed.

Lemma cancel_absent id q : (forall t, In t q -> timer_id t <> id) -> cancel id q = q.
Proof.
  intros H. unfold cancel. induction q as [|t q IH]; [reflexivity|].
  cbn. destruct (timer_id t =? id) eqn:E.
  - apply Nat.eqb_eq in E. exfalso. apply (H t); [now left | exact E].
  - cbn. f_equal. apply IH. intros t' Ht'. apply H. now right.
Qed.

Lemma cancel_app id q l : cancel id (q ++ l) = cancel id q ++ cancel id l.
Proof. apply filter_app. Qed.

Lemma NoDup_cancel id q : NoDup (map timer_id q) -> NoDup (map timer_id (cancel id q)).
Proof.
  unfold cancel. induction q as [|t q IH]; cbn; intros H; [constructor|].
  inversion H as [|? ? Hn Hq]; subst.
  destruct (negb (timer_id t =? id)); cbn; auto.
  constructor; auto. intros Hin. apply Hn.
  apply in_map_iff in Hin as (t' & E & Ht'). apply filter_In in Ht' as [Ht' _].
  apply in_map_iff. now exists t'.
Qed.

Lemma In_cleared h q t : In t (cleared h q) -> In t q.
Proof. destruct h; cbn; [rewrite In_cancel; tauto | auto]. Qed.

Lemma timers_clearTimer h s : timers (clearTimer h s) = cleared h (timers s).
Proof. now destruct h. Qed.

(** A timer is found under its handle when handles are distinct. *)
Lemma find_unique q t :
  NoDup (map timer_id q) -> In t q ->
  find (fun x => timer_id x =? timer_id t) q = Some t.
Proof.
  induction q as [|x q IH]; cbn; intros Hn Hin; [contradiction|].
  inversion Hn as [|? ? Hx Hq]; subst.
  destruct Hin as [->|Hin]; [now rewrite Nat.eqb_refl|].
  destruct (timer_id x =? timer_id t) eqn:E; [|auto].
  apply Nat.eqb_eq in E. exfalso. apply Hx. rewrite E. now apply in_map.
Qed.

Lemma find_handle q id t :
  find (fun x => timer_id x =? id) q = Some t -> In t q /\ timer_id t = id.
Proof. intros H. apply find_some in H as [H E]. now apply Nat.eqb_eq in E. Qed.

Lemma below_S h n : below h n -> below h (S n).
Proof. destruct h; cbn; lia. Qed.

Section Discipline.

Variables (q : list Timer) (next : nat) (interval timeout : option nat).
Hypothesis W : wfT q next interval timeout.

Lemma fresh_handle t : In t q -> timer_id t <> next.
Proof. intros H. apply (wf_fresh W) in H. lia. Qed.

Lemma interval_fresh : interval <> Some next.
Proof. intros E. pose proof (wf_interval_handle W) as H. rewrite E in H. cbn in H. lia. Qed.

Lemma timeout_fresh : timeout <> Some next.
Proof. intros E. pose proof (wf_timeout_handle W) as H. rewrite E in H. cbn in H. lia. Qed.

(** [setTimeout] or [setInterval] for anything but the two owned timers. *)
Lemma wfT_schedule ms periodic cb :
  cb <> TickInterval -> cb <> RecommendationExpired ->
  wfT (q ++ [mkTimer next ms periodic cb]) (S next) interval timeout.
Proof.
  intros H1 H2. split.
  - intros t [H|[<-|[]]]%in_app_iff; cbn; [apply (wf_fresh W) in H|]; lia.
  - rewrite map_app. cbn. apply NoDup_app; [apply (wf_nodup W) | repeat constructor; auto |].
    intros x Hx [<-|[]]. apply in_map_iff in Hx as (t & E & Ht).
    apply (fresh_handle t Ht E).
  - intros t [H|[<-|[]]]%in_app_iff; [now apply (wf_interval W)|]. cbn.
    split; [contradiction | intros E; now apply interval_fresh in E].
  - intros t [H|[<-|[]]]%in_app_iff; [now apply (wf_periodic W)|]. cbn. contradiction.
  - intros t [H|[<-|[]]]%in_app_iff; [now apply (wf_timeout W)|]. cbn.
    split; [contradiction | intros E; now apply timeout_fresh in E].
  - apply below_S, (wf_interval_handle W).
  - apply below_S, (wf_timeout_handle W).
Qed.

(** [clearTimeout] or [clearInterval] of any handle. *)
Lemma wfT_cleared h : wfT (cleared h q) next interval timeout.
Proof.
  destruct h as [id|]; [|exact W]. cbn. split.
  - intros t [H _]%In_cancel. now apply (wf_fresh W).
  - apply NoDup_cancel, (wf_nodup W).
  - intros t [H _]%In_cancel. now apply (wf_interval W).
  - intros t [H _]%In_cancel. now apply (wf_periodic W).
  - intros t [H _]%In_cancel. now apply (wf_timeout W).
  - apply (wf_interval_handle W).
  - apply (wf_timeout_handle W).
Qed.

(** Once the interval handle is cleared no interval is pending. *)
Lemma cleared_interval t : In t (cleared interval q) -> callback t <> TickInterval.
Proof.
  intros H E. destruct interval as [id|] eqn:I; cbn in H.
  - apply In_cancel in H as [H N]. apply (wf_interval W) in E; [|exact H].
    injection E as E. auto.
  - apply (wf_interval W) in E; [discriminate | exact H].
Qed.

(** Once the timeout handle is cleared no decision timeout is pending. *)
Lemma cleared_timeout t : In t (cleared timeout q) -> callback t <> RecommendationExpired.
Proof.
  intros H E. destruct timeout as [id|] eqn:I; cbn in H.
  - apply In_cancel in H as [H N]. apply (wf_timeout W) in E; [|exact H].
    injection E as E. auto.
  - apply (wf_timeout W) in E; [discriminate | exact H].
Qed.

(** [startSimulation]: the old interval is cleared, a new one is set. *)
Lemma wfT_restart :
  wfT (cleared interval q ++ [mkTimer next 1000 true TickInterval]) (S next)
    (Some next) timeout.
Proof.
  pose proof (wfT_cleared interval) as C. split.
  - intros t [H|[<-|[]]]%in_app_iff; cbn; [apply (wf_fresh C) in H|]; lia.
  - rewrite map_app. cbn. apply NoDup_app; [apply (wf_nodup C) | repeat constructor; auto |].
    intros x Hx [<-|[]]. apply in_map_iff in Hx as (t & E & Ht).
    apply (wf_fresh C) in Ht. lia.
  - intros t [H|[<-|[]]]%in_app_iff; cbn; [|tauto].
    split; [intros E; now apply cleared_interval in H|].
    intros [= E]. apply (wf_fresh C) in H. lia.
  - intros t [H|[<-|[]]]%in_app_iff; [now apply (wf_periodic C)|]. reflexivity.
  - intros t [H|[<-|[]]]%in_app_iff; [now apply (wf_timeout C)|]. cbn.
    split; [discriminate | intros E; now apply timeout_fresh in E].
  - cbn. lia.
  - apply below_S, (wf_timeout_handle W).
Qed.

(** The timeout effect entering [ANOMALY_DETECTED]. *)
Lemma wfT_arm :
  wfT (cleared timeout q ++ [mkTimer next 60000 false RecommendationExpired]) (S next)
    interval (Some next).
Proof.
  pose proof (wfT_cleared timeout) as C. split.
  - intros t [H|[<-|[]]]%in_app_iff; cbn; [apply (wf_fresh C) in H|]; lia.
  - rewrite map_app. cbn. apply NoDup_app; [apply (wf_nodup C) | repeat constructor; auto |].
    intros x Hx [<-|[]]. apply in_map_iff in Hx as (t & E & Ht).
    apply (wf_fresh C) in Ht. lia.
  - intros t [H|[<-|[]]]%in_app_iff; [now apply (wf_interval C)|]. cbn.
    split; [discriminate | intros E; now apply interval_fresh in E].
  - intros t [H|[<-|[]]]%in_app_iff; [now apply (wf_periodic C)|]. discriminate.
  - intros t [H|[<-|[]]]%in_app_iff; cbn; [|tauto].
    split; [intros E; now apply cleared_timeout in H|].
    intros [= E]. apply (wf_fresh C) in H. lia.
  - apply below_S, (wf_interval_handle W).
  - cbn. lia.
Qed.

(** The timeout effect in any other phase. *)
Lemma wfT_disarm : wfT (cleared timeout q) next interval None.
Proof.
  pose proof (wfT_cleared timeout) as C. split; try apply C.
  - intros t H. split; [intros E; now apply cleared_timeout in H | discriminate].
  - exact I.
Qed.

End Discipline.

Section DisciplineKept.

Variable random : nat -> Q.
Variable clock : nat -> Z.

Lemma wf_same s s' :
  timers s' = timers s -> nextTimerId s' = nextTimerId s ->
  simulationInterval s' = simulationInterval s -> timeoutId s' = timeoutId s ->
  wf s -> wf s'.
Proof. unfold wf. now intros -> -> -> ->. Qed.

Lemma clearTimer_nextTimerId h s : nextTimerId (clearTimer h s) = nextTimerId s.
Proof. now destruct h. Qed.

Lemma clearTimer_simulationInterval h s :
  simulationInterval (clearTimer h s) = simulationInterval s.
Proof. now destruct h. Qed.

Lemma clearTimer_timeoutId h s : timeoutId (clearTimer h s) = timeoutId s.
Proof. now destruct h. Qed.

(** The four timer fields after [startSimulation]. *)
Lemma startSimulation_timers s :
  timers (startSimulation random clock s)
  = cleared (simulationInterval s) (timers s)
      ++ [mkTimer (nextTimerId s) 1000 true TickInterval]
  /\ nextTimerId (startSimulation random clock s) = S (nextTimerId s)
  /\ simulationInterval (startSimulation random clock s) = Some (nextTimerId s)
  /\ timeoutId (startSimulation random clock s) = timeoutId s.
Proof. unfold startSimulation. destruct (simulationInterval s); repeat split. Qed.

Lemma wf_startSimulation s : wf s -> wf (startSimulation random clock s).
Proof.
  intros W. unfold wf.
  destruct (startSimulation_timers s) as (-> & -> & -> & ->).
  now apply wfT_restart.
Qed.

Lemma wf_addLog ev dt ty s : wf s -> wf (addLog random clock ev dt ty s).
Proof. apply wf_same; reflexivity. Qed.

Lemma ticking_startSimulation s : ticking (startSimulation random clock s).
Proof.
  destruct (startSimulation_timers s) as (E1 & _ & E2 & _).
  exists (nextTimerId s). rewrite E1, E2. split; [reflexivity|].
  apply in_app_iff. right. now left.
Qed.

Lemma ticking_addLog ev dt ty s : ticking s -> ticking (addLog random clock ev dt ty s).
Proof. intros T. exact T. Qed.

Lemma wf_handle a s : wf s -> wf (handle random clock a s).
Proof.
  intros W. destruct a; cbn [handle];
    try (revert W; apply wf_same; reflexivity).
  - (* handleStartGuided *)
    unfold handleStartGuided.
    match goal with |- wf (setTimeout ?cb ?ms ?s') =>
      assert (wf s') as W' by (revert W; apply wf_same; reflexivity);
      generalize dependent s'
    end.
    intros s' W'. unfold wf. cbn. apply wfT_schedule; [exact W' | discriminate..].
  - (* handleStartCanary *)
    unfold handleStartCanary. apply wf_startSimulation.
    revert W; apply wf_same; reflexivity.
  - (* confirmRollback *)
    unfold confirmRollback.
    assert (wf (clearTimer (simulationInterval s) s)) as W'; [|
      revert W'; generalize (clearTimer (simulationInterval s) s); intros s';
      apply wf_same; reflexivity ].
    unfold wf.
    rewrite timers_clearTimer, clearTimer_nextTimerId, clearTimer_simulationInterval,
      clearTimer_timeoutId.
    now apply wfT_cleared.
  - (* replayTimeline *)
    unfold replayTimeline. apply wf_addLog, wf_startSimulation.
    revert W; apply wf_same; reflexivity.
  - (* toggleNetwork *)
    unfold toggleNetwork. destruct (networkEnabled s); revert W; apply wf_same; reflexivity.
  - (* fire *)
    unfold fire. destruct (pending id s) as [[tid ms rp cb]|]; [|exact W].
    cbn [callback repeats].
    assert (wf (if rp then s else clearTimer (Some id) s)) as W'.
    { destruct rp; [exact W|]. unfold wf.
      rewrite timers_clearTimer, clearTimer_nextTimerId, clearTimer_simulationInterval,
        clearTimer_timeoutId.
      now apply wfT_cleared. }
    revert W'. generalize (if rp then s else clearTimer (Some id) s). intros s' W'.
    destruct cb; revert W'; apply wf_same; reflexivity.
Qed.

Lemma wf_syncEffect r s : wf s -> wf (syncEffect r s).
Proof. apply wf_same; now autorewrite with frame. Qed.

Lemma wf_metricEffect r s : wf s -> wf (metricEffect random clock r s).
Proof.
  intros W. unfold wf.
  rewrite metricEffect_timers, metricEffect_nextTimerId,
    metricEffect_simulationInterval, metricEffect_timeoutId.
  destruct (raises r s); [|exact W].
  unfold advisories.
  change (timers s ++ [?a; ?b; ?c]) with (timers s ++ [a] ++ [b] ++ [c]).
  rewrite !app_assoc.
  repeat (apply wfT_schedule; [|discriminate..]). exact W.
Qed.

Lemma wf_timeoutEffect r s : wf s -> wf (timeoutEffect r s).
Proof.
  intros W. unfold wf.
  rewrite timeoutEffect_timers, timeoutEffect_nextTimerId, timeoutEffect_timeoutId,
    timeoutEffect_simulationInterval, timers_clearTimer.
  destruct (same_timeout (timeoutDeps s) r); [exact W|]. cbn [negb andb].
  destruct (phase_eqb (phase r) ANOMALY_DETECTED).
  - now apply wfT_arm.
  - now apply wfT_disarm.
Qed.

Lemma wf_commit s : wf s -> wf (commit random clock s).
Proof.
  intros W. unfold commit. now apply wf_timeoutEffect, wf_metricEffect, wf_syncEffect.
Qed.

Lemma wf_settle s : wf s -> wf (settle random clock s).
Proof. intros W. unfold settle. now apply wf_commit, wf_commit. Qed.

Lemma wf_step a s : wf s -> wf (step random clock a s).
Proof. intros W. unfold step. now apply wf_settle, wf_handle. Qed.

Lemma wf_initialState sn sc : wf (initialState sn sc).
Proof.
  split; cbn; try contradiction; try constructor; auto.
Qed.

Lemma wf_mount sn sc : wf (mount random clock sn sc).
Proof. apply wf_settle, wf_initialState. Qed.

Lemma wf_run l s : wf s -> wf (run random clock l s).
Proof.
  revert s. induction l as [|a l IH]; intros s W; [exact W|].
  cbn. apply IH. now apply wf_step.
Qed.

Lemma stable_step a s : stable (step random clock a s).
Proof. apply stable_settle. Qed.

Lemma stable_mount sn sc : stable (mount random clock sn sc).
Proof. apply stable_settle. Qed.

Lemma reachable_stable sn sc s :
  reachable random clock (mount random clock sn sc) s -> stable s.
Proof. intros R. destruct R; [apply stable_mount | apply stable_step]. Qed.

Lemma reachable_wf sn sc s :
  reachable random clock (mount random clock sn sc) s -> wf s.
Proof. intros R. induction R; [apply wf_mount | now apply wf_step]. Qed.

(** The timer fields after one render. *)

Lemma commit_timers s :
  timers (commit random clock s)
  = let q := if fires s then timers s ++ advisories (nextTimerId s) else timers s in
    let n := if fires s then 3 + nextTimerId s else nextTimerId s in
    if same_timeout (timeoutDeps s) s then q
    else if phase_eqb (phase s) ANOMALY_DETECTED
         then cleared (timeoutId s) q ++ [mkTimer n 60000 false RecommendationExpired]
         else cleared (timeoutId s) q.
Proof.
  unfold commit, fires.
  rewrite timeoutEffect_timers, timers_clearTimer.
  rewrite metricEffect_timeoutDeps, metricEffect_timeoutId, metricEffect_timers,
    metricEffect_nextTimerId.
  rewrite (raises_ext s s (syncEffect s s)) by apply syncEffect_metricDeps.
  now autorewrite with frame.
Qed.

Lemma commit_timeoutId s :
  timeoutId (commit random clock s)
  = if same_timeout (timeoutDeps s) s then timeoutId s
    else if phase_eqb (phase s) ANOMALY_DETECTED
         then Some (if fires s then 3 + nextTimerId s else nextTimerId s)
         else None.
Proof.
  unfold commit, fires.
  rewrite timeoutEffect_timeoutId.
  rewrite metricEffect_timeoutDeps, metricEffect_timeoutId, metricEffect_nextTimerId.
  rewrite (raises_ext s s (syncEffect s s)) by apply syncEffect_metricDeps.
  now autorewrite with frame.
Qed.

Lemma commit_nextTimerId s :
  nextTimerId (commit random clock s)
  = let n := if fires s then 3 + nextTimerId s else nextTimerId s in
    if negb (same_timeout (timeoutDeps s) s) && phase_eqb (phase s) ANOMALY_DETECTED
    then S n else n.
Proof.
  unfold commit, fires.
  rewrite timeoutEffect_nextTimerId.
  rewrite metricEffect_timeoutDeps, metricEffect_nextTimerId.
  rewrite (raises_ext s s (syncEffect s s)) by apply syncEffect_metricDeps.
  now autorewrite with frame.
Qed.

(** A render sets no interval. *)
Lemma commit_no_interval s :
  (forall t, In t (timers s) -> callback t <> TickInterval) ->
  forall t, In t (timers (commit random clock s)) -> callback t <> TickInterval.
Proof.
  intros H t. rewrite commit_timers. cbv zeta.
  assert (forall x, In x (if fires s then timers s ++ advisories (nextTimerId s)
                          else timers s) -> callback x <> TickInterval) as Q.
  { intros x Hx. destruct (fires s); [|now apply H].
    apply in_app_iff in Hx as [Hx|Hx]; [now apply H|].
    destruct Hx as [<-|[<-|[<-|[]]]]; discriminate. }
  destruct (same_timeout (timeoutDeps s) s); [apply Q|].
  destruct (phase_eqb (phase s) ANOMALY_DETECTED).
  - intros [Ht|[<-|[]]]%in_app_iff; [|discriminate].
    now apply Q, (In_cleared (timeoutId s)).
  - intros Ht. now apply Q, (In_cleared (timeoutId s)).
Qed.

End DisciplineKept.

(** The renders and the handlers are reasoned about through the lemmas
    above from here on. *)

Lemma commit_eq random clock s :
  commit random clock s
  = timeoutEffect s (metricEffect random clock s (syncEffect s s)).
Proof. reflexivity. Qed.

Lemma handle_TimerFires random clock id s :
  handle random clock (TimerFires id) s = fire random clock id s.
Proof. reflexivity. Qed.

Lemma handle_StartCanary random clock s :
  handle random clock StartCanary s = handleStartCanary random clock s.
Proof. reflexivity. Qed.

Lemma handle_Replay random clock s :
  handle random clock Replay s = replayTimeline random clock s.
Proof. reflexivity. Qed.

Lemma handle_ConfirmRollback random clock s :
  handle random clock ConfirmRollback s = confirmRollback random clock s.
Proof. reflexivity. Qed.

Lemma handle_ContinueRollout random clock s :
  handle random clock ContinueRollout s = handleContinueRollout random clock s.
Proof. reflexivity. Qed.

Lemma handle_ToggleNetwork random clock s :
  handle random clock ToggleNetwork s = toggleNetwork random clock s.
Proof. reflexivity. Qed.

#[global] Opaque commit handle.

(** ** Events *)

Section Events.

Variable random : nat -> Q.
Variable clock : nat -> Z.

Lemma stable_metricDeps s : stable s -> metricDeps s = Some (deps_metric s).
Proof. intros (_ & H & _). now apply same_metric_eq. Qed.

Lemma stable_timeoutDeps s : stable s -> timeoutDeps s = Some (deps_timeout s).
Proof. intros (_ & _ & H). now apply same_timeout_eq. Qed.

Lemma stable_syncDeps s : stable s -> syncDeps s = Some (deps_sync s).
Proof. intros (H & _ & _). now apply same_sync_eq. Qed.

Lemma run_cons a l s :
  run random clock (a :: l) s = run random clock l (step random clock a s).
Proof. reflexivity. Qed.

Lemma stable_run l s : stable s -> stable (run random clock l s).
Proof.
  revert s. induction l as [|a l IH]; intros s H; [exact H|].
  cbn. apply IH, stable_step.
Qed.

(** Whether the metric effect samples and whether it raises the anomaly
    in the render that follows a handler, from a quiescent state. *)
Lemma samples_handle a s :
  stable s ->
  samples (handle random clock a s)
  = negb ((tickIndex s =? tickIndex (handle random clock a s))
          && phase_eqb (phase s) (phase (handle random clock a s))
          && Bool.eqb (networkEnabled s) (networkEnabled (handle random clock a s)))
    && sampling (phase (handle random clock a s))
    && networkEnabled (handle random clock a s).
Proof.
  intros H. unfold samples, runs.
  now rewrite handle_metricDeps, (stable_metricDeps s H).
Qed.

Lemma same_deps_no_sample a s :
  stable s ->
  tickIndex (handle random clock a s) = tickIndex s ->
  phase (handle random clock a s) = phase s ->
  networkEnabled (handle random clock a s) = networkEnabled s ->
  samples (handle random clock a s) = false.
Proof.
  intros H Et Ep En. rewrite (samples_handle a s H), Et, Ep, En.
  now rewrite Nat.eqb_refl, phase_eqb_refl, eqb_reflx.
Qed.

Lemma fires_false_of_samples s : samples s = false -> fires s = false.
Proof. unfold fires, raises, samples. now intros ->. Qed.

(** Only a timer or the network switch lets the anomaly through, and only
    during monitoring. *)
Lemma fires_handle a s :
  stable s -> fires (handle random clock a s) = true ->
  phase s = MONITORING
  /\ tickIndex (handle random clock a s) = ANOMALY_TICK_INDEX
  /\ networkEnabled (handle random clock a s) = true
  /\ match a with ToggleNetwork | TimerFires _ => True | _ => False end.
Proof.
  intros H F.
  pose proof (fires_phase _ F) as Hp.
  pose proof (fires_tickIndex _ F) as Ht.
  pose proof (samples_networkEnabled _ (fires_samples _ F)) as Hn.
  assert (samples (handle random clock a s) = true) as S by now apply fires_samples.
  rewrite handle_phase in Hp. rewrite handle_tickIndex in Ht.
  destruct a; try discriminate Hp; try discriminate Ht;
    try (rewrite same_deps_no_sample in S;
         [discriminate S | exact H
         | now rewrite handle_tickIndex | now rewrite handle_phase
         | now rewrite handle_networkEnabled]).
  - repeat split; auto. now rewrite handle_tickIndex.
  - repeat split; auto. now rewrite handle_tickIndex.
Qed.

Lemma anomalies_settle s :
  anomalies (settle random clock s) = if fires s then S (anomalies s) else anomalies s.
Proof. unfold anomalies. rewrite settle_logs. now destruct (fires s). Qed.

Lemma step_phase a s :
  phase (step random clock a s)
  = if fires (handle random clock a s) then ANOMALY_DETECTED
    else phase (handle random clock a s).
Proof. apply settle_phase. Qed.

Lemma step_anomalies a s :
  anomalies (step random clock a s)
  = if fires (handle random clock a s) then S (anomalies s) else anomalies s.
Proof. unfold step. now rewrite anomalies_settle, handle_anomalies. Qed.

Lemma step_tickIndex a s :
  tickIndex (step random clock a s) = tickIndex (handle random clock a s).
Proof. apply settle_tickIndex. Qed.

Lemma step_networkEnabled a s :
  networkEnabled (step random clock a s) = networkEnabled (handle random clock a s).
Proof. apply settle_networkEnabled. Qed.

(** A handler that does not leave the phase in [MONITORING] cannot be
    followed by the anomaly. *)
Lemma fires_needs_monitoring s : phase s <> MONITORING -> fires s = false.
Proof.
  intros N. destruct (fires s) eqn:F; [|reflexivity].
  now apply fires_phase in F.
Qed.

Lemma fires_needs_threshold s : tickIndex s <> ANOMALY_TICK_INDEX -> fires s = false.
Proof.
  intros N. destruct (fires s) eqn:F; [|reflexivity].
  now apply fires_tickIndex in F.
Qed.

Lemma samples_needs_sampling s : sampling (phase s) = false -> samples s = false.
Proof. unfold samples, runs. intros ->. now rewrite andb_false_r. Qed.

Lemma samples_needs_network s : networkEnabled s = false -> samples s = false.
Proof. unfold samples, runs. intros ->. now rewrite andb_false_r. Qed.

Lemma step_metrics_idle a s :
  samples (handle random clock a s) = false ->
  metrics (step random clock a s) = metrics (handle random clock a s).
Proof.
  intros S. unfold step. rewrite settle_metrics, S.
  now rewrite (fires_false_of_samples _ S).
Qed.

End Events.

(** ** The bounded history *)

Lemma pushMetric_room prev p : length prev < 30 -> pushMetric prev p = prev ++ [p].
Proof.
  intros H. unfold pushMetric. rewrite length_app. cbn [length].
  destruct (Nat.ltb_spec 30 (length prev + 1)); [lia | reflexivity].
Qed.

Lemma pushMetric_full prev p : 30 <= length prev -> pushMetric prev p = tl prev ++ [p].
Proof.
  intros H. unfold pushMetric. rewrite length_app. cbn [length].
  destruct (Nat.ltb_spec 30 (length prev + 1)); [|lia].
  destruct prev; [cbn in H; lia | reflexivity].
Qed.

Lemma pushMetric_length prev p :
  length prev <= 30 -> length (pushMetric prev p) = Nat.min 30 (S (length prev)).
Proof.
  intros H. destruct (Nat.eq_dec (length prev) 30) as [E|N].
  - rewrite pushMetric_full by lia.
    destruct prev as [|x prev]; [discriminate E|].
    cbn [tl length] in *. rewrite length_app. cbn [length]. lia.
  - rewrite pushMetric_room by lia. rewrite length_app. cbn [length]. lia.
Qed.

Lemma pushMetric_bounded prev p : length prev <= 30 -> length (pushMetric prev p) <= 30.
Proof. intros H. rewrite pushMetric_length by exact H. lia. Qed.

(** Appending a run of samples keeps the last thirty, in insertion order. *)
Lemma pushMetric_window ps : forall prev,
  length prev <= 30 ->
  fold_left pushMetric ps prev = skipn (length prev + length ps - 30) (prev ++ ps).
Proof.
  induction ps as [|p ps IH]; intros prev H; cbn [fold_left length].
  - replace (length prev + 0 - 30) with 0 by lia. now rewrite app_nil_r.
  - rewrite IH by now apply pushMetric_bounded.
    destruct (Nat.eq_dec (length prev) 30) as [E|N].
    + rewrite pushMetric_full by lia.
      destruct prev as [|x prev]; [discriminate E|]. cbn [tl length] in *.
      rewrite length_app, <- app_assoc. cbn [length app].
      replace (length prev + 1 + length ps - 30) with (length ps) by lia.
      replace (S (length prev) + S (length ps) - 30) with (S (length ps)) by lia.
      reflexivity.
    + rewrite pushMetric_room by lia.
      rewrite length_app, <- app_assoc. cbn [length app].
      f_equal. lia.
Qed.

Section History.

Variable random : nat -> Q.
Variable clock : nat -> Z.

Lemma settle_metrics_bounded s :
  length (metrics s) <= 30 -> length (metrics (settle random clock s)) <= 30.
Proof.
  intros H. rewrite settle_metrics.
  destruct (fires s); [now apply pushMetric_bounded, pushMetric_bounded|].
  destruct (samples s); [now apply pushMetric_bounded | exact H].
Qed.

Lemma handle_metrics_bounded a s :
  length (metrics s) <= 30 -> length (metrics (handle random clock a s)) <= 30.
Proof.
  intros H. destruct (restarts a) eqn:R.
  - rewrite handle_metrics_restart by exact R. lia.
  - now rewrite handle_metrics.
Qed.

Lemma reachable_bounded sn sc s :
  reachable random clock (mount random clock sn sc) s -> length (metrics s) <= 30.
Proof.
  intros R. induction R.
  - apply settle_metrics_bounded. cbn. lia.
  - now apply settle_metrics_bounded, handle_metrics_bounded.
Qed.

End History.

(** ** The phase machine *)

Section PhaseMachine.

Variable random : nat -> Q.
Variable clock : nat -> Z.

Lemma step_showRollbackModal a s :
  showRollbackModal (step random clock a s)
  = showRollbackModal (handle random clock a s).
Proof. apply settle_showRollbackModal. Qed.

Lemma mount_phase sn sc : phase (mount random clock sn sc) = IDLE.
Proof. unfold mount. rewrite settle_phase, fires_needs_monitoring; [reflexivity|]. discriminate. Qed.

(** What the view requires of the phase before it offers an action. *)
Lemma offered_phase a s :
  offered a s = true ->
  match a with
  | StartGuidedRelease => phase s = IDLE
  | ContinueToSetup => phase s = SHADOW_TEST /\ shadowTestStatus s <> ShadowRunning
  | SelectCanaryPercent pct => phase s = CANARY_SETUP /\ canary_choice pct = true
  | EditRolloutDuration _ | StartCanary => phase s = CANARY_SETUP
  | RequestRollback | ContinueRollout => phase s = ANOMALY_DETECTED
  | AdjustConfidence value => phase s = ANOMALY_DETECTED /\ value <= 100
  | ConfirmRollback | CancelRollback => showRollbackModal s = true
  | GenerateNotes => phase s = ROLLED_BACK
  | Replay => phase s = ROLLED_BACK \/ phase s = ANOMALY_DETECTED
  | ToggleNetwork => True
  | SelectDefaultCanaryPercent val => canary_choice val = true
  | TimerFires id => exists t, pending id s = Some t
  end.
Proof.
  destruct a; cbn [offered]; intros H;
    repeat match goal with
      | H : _ && _ = true |- _ => apply andb_true_iff in H as [? ?]
      | H : _ || _ = true |- _ => apply orb_true_iff in H as [?|?]
      | H : phase_eqb _ _ = true |- _ => apply phase_eqb_eq in H
      | H : (_ <=? _) = true |- _ => apply Nat.leb_le in H
      end; auto.
  - split; [assumption|]. destruct (shadowTestStatus s); congruence.
  - destruct (pending id s) as [t|]; [now exists t | discriminate].
Qed.

(** The confirmation modal is only ever open over [ANOMALY_DETECTED]. *)
Lemma reachable_modal sn sc s :
  reachable random clock (mount random clock sn sc) s ->
  showRollbackModal s = true -> phase s = ANOMALY_DETECTED.
Proof.
  intros R. induction R as [|s a R IH O].
  - unfold mount. rewrite settle_showRollbackModal. discriminate.
  - rewrite step_showRollbackModal, handle_showRollbackModal, step_phase.
    pose proof (reachable_stable random clock sn sc s R) as St.
    pose proof (offered_phase a s O) as P.
    intros M.
    destruct (fires (handle random clock a s)) eqn:F; [reflexivity|].
    rewrite handle_phase.
    destruct a; try discriminate M; try (now apply IH);
      try (specialize (IH M); destruct P; congruence);
      try (specialize (IH M); congruence).
    exact P.
Qed.

(** [ROLLBACK_CONFIRM] is never entered. *)
Lemma reachable_not_confirm sn sc s :
  reachable random clock (mount random clock sn sc) s -> phase s <> ROLLBACK_CONFIRM.
Proof.
  intros R. induction R as [|s a R IH O].
  - now rewrite mount_phase.
  - rewrite step_phase. destruct (fires _); [discriminate|].
    rewrite handle_phase. destruct a; try discriminate; exact IH.
Qed.

Lemma step_phase_set a s :
  match a with
  | StartGuidedRelease | ContinueToSetup | StartCanary | ConfirmRollback => True
  | _ => False
  end ->
  phase (step random clock a s) = phase (handle random clock a s).
Proof.
  intros H. rewrite step_phase.
  destruct a; try contradiction.
  1,2,4: rewrite fires_needs_monitoring; [reflexivity | rewrite handle_phase; discriminate].
  rewrite fires_needs_threshold; [reflexivity | rewrite handle_tickIndex; discriminate].
Qed.

Lemma step_phase_kept a s :
  stable s ->
  match a with ToggleNetwork | TimerFires _ => False | _ => True end ->
  phase (step random clock a s) = phase (handle random clock a s).
Proof.
  intros St H. rewrite step_phase.
  destruct (fires (handle random clock a s)) eqn:F; [|reflexivity].
  apply (fires_handle random clock a s St) in F as (_ & _ & _ & F).
  destruct a; contradiction.
Qed.

(** C1 (amended). No handler checks the phase and none reports an error:
    in every reachable state, guided start, continue to setup, canary
    start and rollback confirmation set their target phase whatever the
    current one, while rollback request, cancellation and continuation
    keep the phase and only move the modal flag; [ROLLBACK_CONFIRM] is
    never the phase.  The view is what excludes the other transitions: an
    action that it offers moves the phase as [follows_table] says. *)
Theorem C1_unguarded_handlers_gated_view sn sc s :
  reachable random clock (mount random clock sn sc) s ->
  phase (step random clock StartGuidedRelease s) = SHADOW_TEST
  /\ phase (step random clock ContinueToSetup s) = CANARY_SETUP
  /\ phase (step random clock StartCanary s) = MONITORING
  /\ phase (step random clock ConfirmRollback s) = ROLLED_BACK
  /\ (phase (step random clock RequestRollback s) = phase s
      /\ showRollbackModal (step random clock RequestRollback s) = true)
  /\ (phase (step random clock CancelRollback s) = phase s
      /\ showRollbackModal (step random clock CancelRollback s) = false)
  /\ phase (step random clock ContinueRollout s) = phase s
  /\ phase s <> ROLLBACK_CONFIRM
  /\ forall a, offered a s = true ->
       follows_table (phase s) a (phase (step random clock a s)).
Proof.
  intros R. pose proof (reachable_stable random clock sn sc s R) as St.
  repeat split.
  1-4: now rewrite step_phase_set, handle_phase.
  1,3,5: now rewrite step_phase_kept, handle_phase.
  1,2: now rewrite step_showRollbackModal, handle_showRollbackModal.
  - now apply (reachable_not_confirm sn sc).
  - intros a O. pose proof (offered_phase a s O) as P.
    rewrite step_phase.
    destruct (fires (handle random clock a s)) eqn:F.
    + apply (fires_handle random clock a s St) in F as (M & _ & _ & F).
      destruct a; try contradiction; right; auto.
    + rewrite handle_phase.
      destruct a; cbn [follows_table]; auto; try tauto.
      * split; [|reflexivity]. now apply (reachable_modal sn sc).
      * pose proof (reachable_modal sn sc s R P) as E. now rewrite E.
Qed.

End PhaseMachine.

(** ** The interval of the simulation *)

Section Interval.

Variable random : nat -> Q.
Variable clock : nat -> Z.

Lemma In_cleared_other h q t :
  In t q -> h <> Some (timer_id t) -> In t (cleared h q).
Proof.
  intros H N. destruct h as [id|]; [|exact H]. cbn. apply In_cancel.
  split; [exact H|]. intros E. apply N. now rewrite E.
Qed.

(** A pending timer other than the decision timeout survives a render. *)
Lemma In_commit s t :
  wf s -> In t (timers s) -> callback t <> RecommendationExpired ->
  In t (timers (commit random clock s)).
Proof.
  intros W H N. rewrite commit_eq.
  pose proof (wf_metricEffect random clock s (syncEffect s s) (wf_syncEffect s s W)) as W'.
  assert (In t (timers (metricEffect random clock s (syncEffect s s)))) as H'.
  { rewrite metricEffect_timers, syncEffect_timers, syncEffect_nextTimerId.
    destruct (raises s (syncEffect s s)); [apply in_app_iff; now left | exact H]. }
  revert W' H'. generalize (metricEffect random clock s (syncEffect s s)). intros x W' H'.
  rewrite timeoutEffect_timers, timers_clearTimer.
  assert (In t (cleared (timeoutId x) (timers x))) as C.
  { apply In_cleared_other; [exact H'|]. intros E. apply N.
    now apply (wf_timeout W' t H'). }
  destruct (same_timeout (timeoutDeps x) s); [exact H'|].
  destruct (phase_eqb (phase s) ANOMALY_DETECTED); [apply in_app_iff; now left | exact C].
Qed.

Lemma In_settle s t :
  wf s -> In t (timers s) -> callback t <> RecommendationExpired ->
  In t (timers (settle random clock s)).
Proof.
  intros W H N. unfold settle.
  apply In_commit; [now apply wf_commit | now apply In_commit | exact N].
Qed.

Lemma ticking_pending s :
  wf s -> ticking s ->
  exists id, simulationInterval s = Some id
             /\ pending id s = Some (mkTimer id 1000 true TickInterval).
Proof.
  intros W (id & E & H). exists id. split; [exact E|].
  unfold pending. now apply (find_unique (timers s) _ (wf_nodup W) H).
Qed.

Lemma ticking_settle s : wf s -> ticking s -> ticking (settle random clock s).
Proof.
  intros W (id & E & H). exists id. rewrite settle_simulationInterval.
  split; [exact E|]. apply In_settle; [exact W | exact H | discriminate].
Qed.

(** What one interval tick does to a quiescent state of a running
    simulation. *)
Lemma tick_step s :
  wf s -> ticking s ->
  exists id, tick random clock s = step random clock (TimerFires id) s
             /\ handle random clock (TimerFires id) s
                = set_tickIndex (tickIndex s + 1) s.
Proof.
  intros W T. destruct (ticking_pending s W T) as (id & E & P).
  exists id. unfold tick. rewrite E. split; [reflexivity|].
  rewrite handle_TimerFires. unfold fire. now rewrite P.
Qed.

Lemma tick_tickIndex s : wf s -> ticking s -> tickIndex (tick random clock s) = S (tickIndex s).
Proof.
  intros W T. destruct (tick_step s W T) as (id & -> & E).
  rewrite step_tickIndex, E. cbn. lia.
Qed.

Lemma tick_networkEnabled s :
  wf s -> ticking s -> networkEnabled (tick random clock s) = networkEnabled s.
Proof.
  intros W T. destruct (tick_step s W T) as (id & -> & E).
  now rewrite step_networkEnabled, E.
Qed.

Lemma tick_fires s :
  stable s -> wf s -> ticking s ->
  exists id, tick random clock s = step random clock (TimerFires id) s
    /\ fires (handle random clock (TimerFires id) s)
       = networkEnabled s && (tickIndex s + 1 =? ANOMALY_TICK_INDEX)
         && phase_eqb (phase s) MONITORING
    /\ samples (handle random clock (TimerFires id) s)
       = sampling (phase s) && networkEnabled s
    /\ metrics (handle random clock (TimerFires id) s) = metrics s.
Proof.
  intros St W T. destruct (tick_step s W T) as (id & E1 & E2). exists id.
  split; [exact E1|].
  assert (samples (handle random clock (TimerFires id) s)
          = sampling (phase s) && networkEnabled s) as S.
  { rewrite (samples_handle random clock _ s St), E2. cbn.
    replace (tickIndex s =? tickIndex s + 1) with false
      by (symmetry; apply Nat.eqb_neq; lia).
    reflexivity. }
  repeat split.
  - unfold fires, raises. fold (samples (handle random clock (TimerFires id) s)).
    rewrite S, E2. cbn. unfold sampling.
    destruct (phase s), (networkEnabled s), (tickIndex s + 1 =? ANOMALY_TICK_INDEX);
      reflexivity.
  - exact S.
  - now rewrite E2.
Qed.

Lemma tick_wf s : wf s -> wf (tick random clock s).
Proof.
  intros W. unfold tick. destruct (simulationInterval s); [now apply wf_step | exact W].
Qed.

Lemma tick_stable s : stable s -> stable (tick random clock s).
Proof.
  intros St. unfold tick. destruct (simulationInterval s); [apply stable_step | exact St].
Qed.

Lemma tick_ticking s : wf s -> ticking s -> ticking (tick random clock s).
Proof.
  intros W T. destruct (tick_step s W T) as (id & -> & E).
  unfold step. apply ticking_settle; [now apply wf_handle|].
  rewrite E. exact T.
Qed.

(** Starting the canary leaves a running simulation at tick 0. *)
Lemma start_ticking s : wf s -> ticking (step random clock StartCanary s).
Proof.
  intros W. unfold step. apply ticking_settle; [now apply wf_handle|].
  rewrite handle_StartCanary. unfold handleStartCanary.
  apply ticking_startSimulation.
Qed.

Lemma start_state s :
  phase (step random clock StartCanary s) = MONITORING
  /\ tickIndex (step random clock StartCanary s) = 0
  /\ anomalies (step random clock StartCanary s) = anomalies s
  /\ networkEnabled (step random clock StartCanary s) = networkEnabled s.
Proof.
  assert (fires (handle random clock StartCanary s) = false) as F
    by (apply fires_needs_threshold; rewrite handle_tickIndex; discriminate).
  rewrite step_phase, step_tickIndex, step_anomalies, step_networkEnabled, F.
  rewrite handle_phase, handle_tickIndex, handle_networkEnabled.
  clear F. repeat split.
Qed.

End Interval.

(** ** The history under the ticks of the interval *)

Section Window.

Variable random : nat -> Q.
Variable clock : nat -> Z.

(** Past the threshold a tick of the interval is followed by one render
    of the metric effect, which appends its sample through [pushMetric]. *)
Lemma tick_appends s :
  stable s -> wf s -> ticking s ->
  sampling (phase s) = true -> networkEnabled s = true ->
  (phase s = MONITORING -> tickIndex s + 1 <> ANOMALY_TICK_INDEX) ->
  metrics (tick random clock s)
  = pushMetric (metrics s) (sample random clock (runCallback random clock TickInterval s))
  /\ phase (tick random clock s) = phase s.
Proof.
  intros St W T Sa N P.
  destruct (tick_step random clock s W T) as (id & E1 & E2).
  change (runCallback random clock TickInterval s) with (set_tickIndex (tickIndex s + 1) s).
  assert (samples (handle random clock (TimerFires id) s) = true) as S.
  { rewrite (samples_handle random clock _ s St), E2. cbn.
    replace (tickIndex s =? tickIndex s + 1) with false
      by (symmetry; apply Nat.eqb_neq; lia).
    cbn. rewrite Sa, N. reflexivity. }
  assert (fires (handle random clock (TimerFires id) s) = false) as F.
  { destruct (phase_eqb (phase s) MONITORING) eqn:M.
    - apply phase_eqb_eq in M. apply fires_needs_threshold. rewrite E2. cbn. now apply P.
    - apply fires_needs_monitoring. rewrite E2. cbn. intros E. rewrite E in M.
      discriminate M. }
  rewrite E1. split.
  - unfold step. rewrite settle_metrics, F, S, E2. reflexivity.
  - rewrite step_phase, F, E2. reflexivity.
Qed.

(** The samples that the first [n] ticks from [s] append, oldest first. *)
Lemma ticks_appended n : forall s,
  stable s -> wf s -> ticking s ->
  sampling (phase s) = true -> networkEnabled s = true ->
  (phase s = MONITORING -> ANOMALY_TICK_INDEX <= tickIndex s) ->
  let s' := Nat.iter n (tick random clock) s in
  (stable s' /\ wf s' /\ ticking s' /\ phase s' = phase s
   /\ networkEnabled s' = true /\ tickIndex s' = tickIndex s + n)
  /\ metrics s'
     = fold_left pushMetric
         (map (fun k => sample random clock
                          (runCallback random clock TickInterval (Nat.iter k (tick random clock) s)))
              (seq 0 n))
         (metrics s).
Proof.
  induction n as [|n IH]; intros s St W T Sa N P; cbv zeta.
  - change (Nat.iter 0 (tick random clock) s) with s.
    cbn [seq map fold_left]. split; [|reflexivity].
    split; [exact St|]. split; [exact W|]. split; [exact T|]. split; [reflexivity|].
    split; [exact N | lia].
  - destruct (IH s St W T Sa N P) as ((St' & W' & T' & P' & N' & I') & M').
    cbv zeta in *. rewrite Nat.iter_succ.
    set (x := Nat.iter n (tick random clock) s) in *.
    assert (sampling (phase x) = true) as Sa' by now rewrite P'.
    assert (phase x = MONITORING -> tickIndex x + 1 <> ANOMALY_TICK_INDEX) as Q.
    { intros E. rewrite P' in E. apply P in E. rewrite I'. lia. }
    destruct (tick_appends x St' W' T' Sa' N' Q) as (M & Ph).
    split.
    + split; [now apply tick_stable|]. split; [now apply tick_wf|].
      split; [now apply tick_ticking|]. split; [now rewrite Ph|].
      split; [now rewrite tick_networkEnabled|].
      rewrite tick_tickIndex by assumption. rewrite I'. lia.
    + rewrite seq_S, map_app, fold_left_app, <- M'. exact M.
Qed.

(** C4. In every reachable state the metric history holds at most thirty
    samples.  While the simulation samples past the threshold, the render
    after a tick of the interval appends its sample through [pushMetric];
    on a full history this drops the oldest sample and puts the new one
    last; and after [n] ticks the history is the last thirty of the old
    samples followed by the [n] new ones, in insertion order. *)
Theorem C4_history_bounded_fifo sn sc s n :
  reachable random clock (mount random clock sn sc) s ->
  length (metrics s) <= 30
  /\ (ticking s -> sampling (phase s) = true -> networkEnabled s = true ->
      (phase s = MONITORING -> ANOMALY_TICK_INDEX <= tickIndex s) ->
      let p := sample random clock (runCallback random clock TickInterval s) in
      let ps := map (fun k => sample random clock
                                (runCallback random clock TickInterval
                                   (Nat.iter k (tick random clock) s)))
                    (seq 0 n) in
      metrics (tick random clock s) = pushMetric (metrics s) p
      /\ (length (metrics s) = 30 ->
          metrics (tick random clock s) = tl (metrics s) ++ [p])
      /\ metrics (Nat.iter n (tick random clock) s)
         = skipn (length (metrics s) + n - 30) (metrics s ++ ps)
      /\ length (metrics (Nat.iter n (tick random clock) s))
         = Nat.min 30 (length (metrics s) + n)).
Proof.
  intros R. pose proof (reachable_bounded random clock sn sc s R) as B.
  pose proof (reachable_stable random clock sn sc s R) as St.
  pose proof (reachable_wf random clock sn sc s R) as W.
  split; [exact B|]. intros T Sa N P p ps.
  assert (phase s = MONITORING -> tickIndex s + 1 <> ANOMALY_TICK_INDEX) as Q.
  { intros E. apply P in E. lia. }
  destruct (tick_appends s St W T Sa N Q) as (M & _).
  destruct (ticks_appended n s St W T Sa N P) as (_ & Mn). cbv zeta in Mn.
  fold ps in Mn. rewrite (pushMetric_window ps (metrics s) B) in Mn.
  assert (length ps = n) as L by (unfold ps; now rewrite length_map, length_seq).
  rewrite L in Mn.
  split; [exact M|]. split; [|split].
  - intros E. rewrite M. apply pushMetric_full. lia.
  - exact Mn.
  - rewrite Mn, length_skipn, length_app, L. lia.
Qed.

End Window.

(** ** The anomaly *)

Ltac conj := repeat match goal with |- _ /\ _ => split end.
Ltac distinct := let E := fresh "E" in intros E; discriminate E.

Section Anomaly.

Variable random : nat -> Q.
Variable clock : nat -> Z.

(** An event raises the anomaly at most once, and only on the threshold
    tick of a monitoring phase with the network enabled. *)
Lemma step_anomaly_edge a s :
  stable s ->
  (anomalies (step random clock a s) = anomalies s
   /\ (phase s <> MONITORING -> phase (handle random clock a s) <> MONITORING ->
       phase (step random clock a s) <> MONITORING))
  \/ (anomalies (step random clock a s) = S (anomalies s)
      /\ phase s = MONITORING
      /\ phase (step random clock a s) = ANOMALY_DETECTED
      /\ tickIndex (step random clock a s) = ANOMALY_TICK_INDEX
      /\ networkEnabled (step random clock a s) = true).
Proof.
  intros St. rewrite step_anomalies, step_phase, step_tickIndex, step_networkEnabled.
  destruct (fires (handle random clock a s)) eqn:F.
  - right. apply (fires_handle random clock a s St) in F as (M & T & N & _). auto.
  - left. auto.
Qed.

(** Within a session the anomaly is recorded at most once. *)
Lemma session_once l : forall s c,
  stable s ->
  Forall (fun a => a <> StartCanary) l ->
  anomalies s <= S c ->
  (phase s = MONITORING -> anomalies s = c) ->
  anomalies (run random clock l s) <= S c.
Proof.
  induction l as [|a l IH]; intros s c St Fa B M; [exact B|].
  inversion Fa as [|? ? Na Fl]; subst. rewrite run_cons.
  apply IH; [apply stable_step | exact Fl | |].
  - rewrite step_anomalies. destruct (fires (handle random clock a s)) eqn:F; [|exact B].
    apply (fires_handle random clock a s St) in F as (P & _). rewrite (M P). lia.
  - rewrite step_phase, step_anomalies.
    destruct (fires (handle random clock a s)); [intros E; discriminate E|].
    rewrite handle_phase.
    destruct a; try (intros E; discriminate E); try exact M.
    exfalso. exact (Na eq_refl).
Qed.

(** With the network enabled the anomaly comes with the third tick. *)
Lemma ticks_with_network n : forall s,
  stable s -> wf s -> ticking s -> networkEnabled s = true ->
  phase s = MONITORING -> tickIndex s = 0 ->
  let s' := Nat.iter n (tick random clock) s in
  stable s' /\ wf s' /\ ticking s' /\ networkEnabled s' = true
  /\ tickIndex s' = n
  /\ phase s' = (if 3 <=? n then ANOMALY_DETECTED else MONITORING)
  /\ anomalies s' = anomalies s + (if 3 <=? n then 1 else 0).
Proof.
  induction n as [|n IH]; intros s St W T N P I; cbv zeta; [|rewrite Nat.iter_succ].
  - cbn. conj; auto.
  - destruct (IH s St W T N P I) as (St' & W' & T' & N' & I' & P' & A'); cbv zeta in *.
    set (x := Nat.iter n (tick random clock) s) in *.
    destruct (tick_fires random clock x St' W' T') as (id & E & F & _).
    conj.
    + now apply tick_stable.
    + now apply tick_wf.
    + now apply tick_ticking.
    + now rewrite tick_networkEnabled.
    + now rewrite tick_tickIndex, I'.
    + rewrite E, step_phase, F, handle_phase, N', I', P'.
      destruct n as [|[|[|n]]]; cbn; rewrite ?andb_false_r; reflexivity.
    + rewrite E, step_anomalies, F, N', I', P', A'.
      destruct n as [|[|[|n]]]; cbn; rewrite ?andb_false_r; lia.
Qed.

(** C2 (amended). Every event leaves the count of recorded anomalies or
    adds one, and it adds one only when the phase was [MONITORING], the
    tick index is the threshold 3 and the network is enabled, the phase
    then being [ANOMALY_DETECTED]; a session (a canary start followed by
    events other than another start) records at most one anomaly; and
    when the network is enabled, after [n] ticks of a fresh session the
    anomaly has been recorded exactly when [3 <= n]: once, on the third
    tick, not before and not again. *)
Theorem C2_anomaly_once_at_threshold s a l n :
  stable s -> wf s ->
  Forall (fun a => a <> StartCanary) l ->
  (anomalies (step random clock a s) = anomalies s
   \/ (anomalies (step random clock a s) = S (anomalies s)
       /\ phase s = MONITORING
       /\ phase (step random clock a s) = ANOMALY_DETECTED
       /\ tickIndex (step random clock a s) = ANOMALY_TICK_INDEX
       /\ networkEnabled (step random clock a s) = true))
  /\ anomalies (run random clock l (step random clock StartCanary s)) <= S (anomalies s)
  /\ (networkEnabled s = true ->
      let s' := Nat.iter n (tick random clock) (step random clock StartCanary s) in
      anomalies s' = anomalies s + (if 3 <=? n then 1 else 0)
      /\ phase s' = (if 3 <=? n then ANOMALY_DETECTED else MONITORING)
      /\ tickIndex s' = n).
Proof.
  intros St W Fl.
  destruct (start_state random clock s) as (P0 & I0 & A0 & N0).
  repeat split.
  - destruct (step_anomaly_edge a s St) as [[E _]|E]; [now left | now right].
  - apply session_once; [apply stable_step | exact Fl | rewrite A0; lia | now rewrite A0].
  - destruct (ticks_with_network n (step random clock StartCanary s))
      as (_ & _ & _ & _ & I & P & A); auto.
    + apply stable_step.
    + now apply wf_step.
    + now apply start_ticking.
    + now rewrite N0.
    + now rewrite <- A0.
  - destruct (ticks_with_network n (step random clock StartCanary s))
      as (_ & _ & _ & _ & I & P & A); auto.
    + apply stable_step.
    + now apply wf_step.
    + now apply start_ticking.
    + now rewrite N0.
  - destruct (ticks_with_network n (step random clock StartCanary s))
      as (_ & _ & _ & _ & I & P & A); auto.
    + apply stable_step.
    + now apply wf_step.
    + now apply start_ticking.
    + now rewrite N0.
Qed.

(** Past the threshold the anomaly cannot be raised until the simulation
    is started afresh. *)
Lemma past_threshold l : forall s,
  stable s ->
  Forall (fun a => restarts a = false) l ->
  phase s <> ANOMALY_DETECTED ->
  (phase s = MONITORING -> ANOMALY_TICK_INDEX < tickIndex s) ->
  anomalies (run random clock l s) = anomalies s
  /\ phase (run random clock l s) <> ANOMALY_DETECTED.
Proof.
  induction l as [|a l IH]; intros s St Fa NA M; [split; auto|].
  inversion Fa as [|? ? Ra Fl]; subst. rewrite run_cons.
  assert (fires (handle random clock a s) = false) as F.
  { destruct (fires (handle random clock a s)) eqn:F; [|reflexivity].
    apply (fires_handle random clock a s St) in F as (P & T & _).
    specialize (M P). rewrite handle_tickIndex in T.
    destruct a; try discriminate Ra; try lia.
    destruct (pending id s) as [t|]; [destruct (callback t)|]; lia. }
  destruct (IH (step random clock a s)) as (A & P).
  - apply stable_step.
  - exact Fl.
  - rewrite step_phase, F, handle_phase. destruct a; try distinct; exact NA.
  - rewrite step_phase, F, handle_phase, step_tickIndex, handle_tickIndex.
    destruct a; try distinct; try discriminate Ra; try exact M.
    intros P. specialize (M P).
    destruct (pending id s) as [t|]; [destruct (callback t)|]; lia.
  - split; [|exact P]. rewrite A, step_anomalies, F. reflexivity.
Qed.

(** C10 (amended). When the tick index is at the threshold 3 during
    monitoring with the network disabled, the anomaly is missed only if
    the network stays disabled until the next tick: that tick advances the
    counter to 4 while the history stays as it is, and from then on no
    event short of a restart of the simulation records the anomaly or
    brings the phase to [ANOMALY_DETECTED], whether or not the network is
    enabled again.  Enabling the network while the tick index is still 3
    raises the anomaly at once. *)
Theorem C10_missed_threshold_never_fires s l :
  stable s -> wf s -> ticking s ->
  phase s = MONITORING -> tickIndex s = ANOMALY_TICK_INDEX ->
  networkEnabled s = false ->
  Forall (fun a => restarts a = false) l ->
  tickIndex (tick random clock s) = 4
  /\ metrics (tick random clock s) = metrics s
  /\ phase (tick random clock s) = MONITORING
  /\ anomalies (tick random clock s) = anomalies s
  /\ anomalies (run random clock l (tick random clock s)) = anomalies s
  /\ phase (run random clock l (tick random clock s)) <> ANOMALY_DETECTED
  /\ phase (step random clock ToggleNetwork s) = ANOMALY_DETECTED
  /\ anomalies (step random clock ToggleNetwork s) = S (anomalies s).
Proof.
  intros St W T P I N Fl.
  assert (phase (step random clock ToggleNetwork s) = ANOMALY_DETECTED
          /\ anomalies (step random clock ToggleNetwork s) = S (anomalies s)) as Re.
  { assert (fires (handle random clock ToggleNetwork s) = true) as FT.
    { unfold fires, raises. fold (samples (handle random clock ToggleNetwork s)).
      rewrite (samples_handle random clock _ s St).
      rewrite handle_tickIndex, handle_phase, handle_networkEnabled, P, I, N.
      reflexivity. }
    rewrite step_phase, step_anomalies, FT. clear FT. split; reflexivity. }
  destruct (tick_fires random clock s St W T) as (id & E & F & S & M).
  rewrite N in F, S. rewrite andb_false_r in S. cbn in F.
  assert (tickIndex (tick random clock s) = 4) as I' by now rewrite tick_tickIndex, I.
  assert (phase (tick random clock s) = MONITORING) as P'
    by now rewrite E, step_phase, F, handle_phase.
  assert (anomalies (tick random clock s) = anomalies s) as A'
    by now rewrite E, step_anomalies, F.
  destruct (past_threshold l (tick random clock s)) as (A & NA).
  - now apply tick_stable.
  - exact Fl.
  - now rewrite P'.
  - intros _. rewrite I'. unfold ANOMALY_TICK_INDEX. lia.
  - destruct Re as (Re1 & Re2). repeat split; auto.
    + now rewrite E, step_metrics_idle, M.
    + now rewrite A.
Qed.

(** C6 (amended). While the network is disabled the history is frozen:
    an interval tick appends nothing, and neither does any other event
    short of a restart of the simulation or the network switch itself.
    The tick counter is not frozen: every interval tick advances it by
    one.  The render that follows re-enabling the network in a sampling
    phase appends a sample again. *)
Theorem C6_network_off_freezes_history_only s a :
  stable s -> wf s -> ticking s -> networkEnabled s = false ->
  (metrics (tick random clock s) = metrics s
   /\ tickIndex (tick random clock s) = S (tickIndex s)
   /\ networkEnabled (tick random clock s) = false)
  /\ (restarts a = false -> a <> ToggleNetwork ->
      metrics (step random clock a s) = metrics s)
  /\ (sampling (phase s) = true ->
      metrics (commit random clock (handle random clock ToggleNetwork s))
      = pushMetric (metrics s) (sample random clock (handle random clock ToggleNetwork s))).
Proof.
  intros St W T N. repeat split.
  - destruct (tick_fires random clock s St W T) as (id & E & _ & S & M).
    rewrite N, andb_false_r in S. now rewrite E, step_metrics_idle, M.
  - now apply tick_tickIndex.
  - now rewrite tick_networkEnabled.
  - intros R NT. rewrite step_metrics_idle; [now apply handle_metrics|].
    apply samples_needs_network. rewrite handle_networkEnabled.
    destruct a; try exact N. congruence.
  - intros S. rewrite commit_metrics, (samples_handle random clock _ s St).
    rewrite handle_networkEnabled, handle_phase, handle_tickIndex, N, S.
    rewrite handle_metrics by reflexivity.
    now rewrite andb_false_r.
Qed.

End Anomaly.

(** ** Configuration *)

Section Configuration.

Variable random : nat -> Q.
Variable clock : nat -> Z.

Lemma reachable_canary_choice sn sc s :
  saved_choice sc ->
  reachable random clock (mount random clock sn sc) s ->
  canary_choice (canaryPercent s) = true /\ canary_choice (defaultCanaryPercent s) = true.
Proof.
  intros V R. induction R as [|s a R IH O].
  - unfold mount. rewrite settle_canaryPercent, settle_defaultCanaryPercent.
    destruct sc as [n|]; cbn in *; auto.
  - destruct IH as (C & D). pose proof (offered_phase a s O) as P.
    unfold step. rewrite settle_canaryPercent, settle_defaultCanaryPercent.
    rewrite handle_canaryPercent, handle_defaultCanaryPercent.
    destruct (_ && _); destruct a; auto; tauto.
Qed.

(** C9 (amended). Starting the canary validates nothing: from every
    reachable state it enters [MONITORING], keeps the configured duration
    as it is and logs the fixed 95/5 split; the duration field accepts
    whatever [parseInt] produced, a non-positive number and [NaN]
    included.  Only the canary percentage is constrained, by the view:
    it is always one of 1, 5 and 10 (given that the saved default is). *)
Theorem C9_canary_start_unvalidated sn sc s parsed :
  saved_choice sc ->
  reachable random clock (mount random clock sn sc) s ->
  phase (step random clock StartCanary s) = MONITORING
  /\ rolloutDuration (step random clock (EditRolloutDuration parsed) s) = parsed
  /\ rolloutDuration (step random clock StartCanary s) = rolloutDuration s
  /\ logs (step random clock StartCanary s)
     = mkLogEntry (random (draws s)) (clock (reads s)) "Canary Rollout Started"
         "Traffic split: 95/5. Monitoring started." LogInfo :: logs s
  /\ canary_choice (canaryPercent s) = true.
Proof.
  intros V R.
  assert (fires (handle random clock StartCanary s) = false) as F
    by (apply fires_needs_threshold; rewrite handle_tickIndex; discriminate).
  conj.
  - apply (start_state random clock s).
  - unfold step. now rewrite settle_rolloutDuration, handle_rolloutDuration.
  - unfold step. now rewrite settle_rolloutDuration, handle_rolloutDuration.
  - unfold step. rewrite settle_logs, F. apply handleStartCanary_logs.
  - now apply (reachable_canary_choice sn sc).
Qed.

End Configuration.

(** ** Rollback *)

Section Rollback.

Variable random : nat -> Q.
Variable clock : nat -> Z.

Lemma settle_no_interval s :
  (forall t, In t (timers s) -> callback t <> TickInterval) ->
  forall t, In t (timers (settle random clock s)) -> callback t <> TickInterval.
Proof. intros H. unfold settle. now apply commit_no_interval, commit_no_interval. Qed.

(** Outside the sampling phases and without a pending interval nothing
    moves the history or the tick counter, short of a restart. *)
Lemma stopped l : forall s,
  sampling (phase s) = false ->
  (forall t, In t (timers s) -> callback t <> TickInterval) ->
  Forall (fun a => restarts a = false) l ->
  metrics (run random clock l s) = metrics s
  /\ tickIndex (run random clock l s) = tickIndex s.
Proof.
  induction l as [|a l IH]; intros s P H Fa; [split; reflexivity|].
  inversion Fa as [|? ? Ra Fl]; subst. rewrite run_cons.
  assert (sampling (phase (handle random clock a s)) = false) as P'.
  { rewrite handle_phase. destruct a; try reflexivity; try exact P. discriminate Ra. }
  pose proof (samples_needs_sampling _ P') as S.
  pose proof (fires_false_of_samples _ S) as F.
  destruct (IH (step random clock a s)) as (M & T).
  - now rewrite step_phase, F.
  - unfold step. apply settle_no_interval. now apply handle_no_interval.
  - exact Fl.
  - rewrite M, T, step_metrics_idle, step_tickIndex by exact S.
    split; [now apply handle_metrics|].
    rewrite handle_tickIndex. destruct a; try reflexivity; try discriminate Ra.
    destruct (pending id s) as [t|] eqn:E; [|reflexivity].
    apply find_some in E as [E _]. apply H in E.
    destruct (callback t); try reflexivity. contradiction.
Qed.

(** C3. Confirming the rollback puts the phase at [ROLLED_BACK], leaves no
    interval pending, keeps the history as it is and puts at the head of
    the audit log the entry "Rollback Executed" that carries the
    confidence as the operator left it; from then on neither the history
    nor the tick counter moves, short of a restart of the simulation. *)
Theorem C3_rollback_stops_sampling s l :
  wf s ->
  Forall (fun a => restarts a = false) l ->
  let s' := step random clock ConfirmRollback s in
  phase s' = ROLLED_BACK
  /\ (forall t, In t (timers s') -> callback t <> TickInterval)
  /\ metrics s' = metrics s
  /\ logs s'
     = mkLogEntry (random (draws s)) (clock (reads s)) "Rollback Executed"
         ("Reverted to v2.1. Reason: Terra Anomaly Detection. Adjusted Confidence: "
            ++ decimal (agentConfidence s) ++ "%.")%string
         LogError :: logs s
  /\ metrics (run random clock l s') = metrics s
  /\ tickIndex (run random clock l s') = tickIndex s.
Proof.
  intros W Fl s'.
  assert (phase (handle random clock ConfirmRollback s) = ROLLED_BACK) as P0
    by now rewrite handle_phase.
  assert (samples (handle random clock ConfirmRollback s) = false) as S
    by (apply samples_needs_sampling; now rewrite P0).
  pose proof (fires_false_of_samples _ S) as F.
  assert (phase s' = ROLLED_BACK) as P by (unfold s'; now rewrite step_phase, F).
  assert (forall t, In t (timers s') -> callback t <> TickInterval) as H.
  { unfold s', step. apply settle_no_interval. rewrite confirmRollback_timers.
    intros t Ht. apply (cleared_interval (timers s) _ _ _ W t). exact Ht. }
  assert (metrics s' = metrics s) as M
    by (unfold s'; rewrite step_metrics_idle by exact S; now apply handle_metrics).
  destruct (stopped l s') as (M' & T'); [now rewrite P | exact H | exact Fl |].
  conj; auto.
  - unfold s', step. rewrite settle_logs, F. apply confirmRollback_logs.
  - now rewrite M'.
  - rewrite T'. unfold s'. now rewrite step_tickIndex, handle_tickIndex.
Qed.

End Rollback.

(** ** The recommendation and its timeout *)

Lemma cancel_advisories id n : id < n -> cancel id (advisories n) = advisories n.
Proof.
  intros H. apply cancel_absent. intros t [<-|[<-|[<-|[]]]]; cbn; lia.
Qed.

Lemma cleared_advisories h q n :
  below h n -> cleared h (q ++ advisories n) = cleared h q ++ advisories n.
Proof.
  destruct h as [id|]; cbn; intros H; [|reflexivity].
  now rewrite cancel_app, cancel_advisories.
Qed.

Section Recommendation.

Variable random : nat -> Q.
Variable clock : nat -> Z.

(** The decision is resolved: both resolving handlers clear the flag. *)
Lemma resolved_clears a s :
  match a with ContinueRollout | ConfirmRollback => True | _ => False end ->
  recommendationTimeout (step random clock a s) = false.
Proof.
  intros H. unfold step. rewrite settle_recommendationTimeout.
  rewrite handle_recommendationTimeout.
  destruct a; try contradiction; now destruct (_ || _).
Qed.

(** The phase leaves [ANOMALY_DETECTED]: the timeout effect clears the
    flag and its cleanup cancels the pending timeout. *)
Lemma leaving_clears a s :
  stable s -> wf s -> phase s = ANOMALY_DETECTED ->
  phase (step random clock a s) <> ANOMALY_DETECTED ->
  recommendationTimeout (step random clock a s) = false
  /\ forall t, In t (timers (step random clock a s)) ->
               callback t <> RecommendationExpired.
Proof.
  intros St W P N. rewrite step_phase in N.
  destruct (fires (handle random clock a s)) eqn:F; [now contradiction N|].
  assert (same_timeout (timeoutDeps (handle random clock a s)) (handle random clock a s)
          = false) as T.
  { rewrite handle_timeoutDeps, (stable_timeoutDeps s St). unfold deps_timeout.
    rewrite P. cbn. destruct (phase (handle random clock a s)); try reflexivity.
    now contradiction N. }
  assert (phase_eqb (phase (handle random clock a s)) ANOMALY_DETECTED = false) as Q.
  { destruct (phase (handle random clock a s)); try reflexivity. now contradiction N. }
  split.
  - unfold step. now rewrite settle_recommendationTimeout, T, Q.
  - unfold step, settle.
    rewrite (stable_commit random clock (commit random clock (handle random clock a s)))
      by now apply stable_commit_iff.
    rewrite commit_timers, F, T, Q. cbv zeta.
    rewrite handle_timeoutId.
    pose proof (wf_handle random clock a s W) as W0. unfold wf in W0.
    rewrite handle_timeoutId in W0.
    apply (cleared_timeout _ _ _ _ W0).
Qed.

(** C7. When an event takes the phase from [MONITORING] to
    [ANOMALY_DETECTED], the confidence is back at 83, "Anomaly Detected"
    is the newest audit entry, and the timers that the transition adds
    are, in this order, the alert (0.5 s), the quantified detail (1.5 s),
    the recommendation with confidence 83 and risk High (3 s), and the
    60 s decision timeout, whose expiry sets the timeout flag.  In any
    state, continuing the rollout and confirming the rollback clear the
    flag, and an event that takes the phase out of [ANOMALY_DETECTED]
    clears the flag and leaves no decision timeout pending. *)
Theorem C7_anomaly_transition s a :
  stable s -> wf s ->
  phase s = MONITORING ->
  phase (step random clock a s) = ANOMALY_DETECTED ->
  let s0 := handle random clock a s in
  let s' := step random clock a s in
  let n := nextTimerId s0 in
  agentConfidence s' = 83
  /\ logs s' = anomalyEntry random clock s0 :: logs s0
  /\ timers s'
     = cleared (timeoutId s) (timers s0) ++ advisories n
         ++ [mkTimer (3 + n) 60000 false RecommendationExpired]
  /\ timeoutId s' = Some (3 + n)
  /\ recommendationTimeout (step random clock (TimerFires (3 + n)) s') = true
  /\ forall x b,
       recommendationTimeout (step random clock ContinueRollout x) = false
       /\ recommendationTimeout (step random clock ConfirmRollback x) = false
       /\ (stable x -> wf x -> phase x = ANOMALY_DETECTED ->
           phase (step random clock b x) <> ANOMALY_DETECTED ->
           recommendationTimeout (step random clock b x) = false
           /\ forall t, In t (timers (step random clock b x)) ->
                        callback t <> RecommendationExpired).
Proof.
  intros St W P PA s0 s' n.
  assert (fires s0 = true) as F.
  { unfold s0. rewrite step_phase in PA.
    destruct (fires (handle random clock a s)); [reflexivity|].
    rewrite handle_phase, P in PA. destruct a; discriminate PA. }
  pose proof (fires_phase s0 F) as P0.
  pose proof (wf_handle random clock a s W) as W0. fold s0 in W0.
  assert (timeoutDeps s0 = Some MONITORING) as D0.
  { unfold s0. now rewrite handle_timeoutDeps, (stable_timeoutDeps s St), <- P. }
  assert (timeoutId s0 = timeoutId s) as I0 by apply handle_timeoutId.
  set (s1 := commit random clock s0).
  assert (timers s1 = timers s0 ++ advisories n) as Q1.
  { unfold s1. rewrite commit_timers, F, D0. cbn. now rewrite P0. }
  assert (nextTimerId s1 = 3 + n) as N1.
  { unfold s1. rewrite commit_nextTimerId, F, D0. cbn. now rewrite P0. }
  assert (timeoutId s1 = timeoutId s) as I1.
  { unfold s1. rewrite commit_timeoutId, D0. cbn. now rewrite P0. }
  assert (phase s1 = ANOMALY_DETECTED) as P1.
  { unfold s1. now rewrite commit_phase, F. }
  assert (timeoutDeps s1 = Some MONITORING) as D1.
  { unfold s1. rewrite commit_timeoutDeps. unfold deps_timeout. now rewrite P0. }
  assert (fires s1 = false) as F1 by apply fires_commit.
  assert (s' = commit random clock s1) as E' by reflexivity.
  assert (timers s' = cleared (timeoutId s) (timers s0) ++ advisories n
                        ++ [mkTimer (3 + n) 60000 false RecommendationExpired]) as Q'.
  { rewrite E', commit_timers, F1, D1. unfold same_timeout.
    rewrite P1, Q1, N1, I1. cbn -[advisories cleared].
    rewrite cleared_advisories, <- app_assoc; [reflexivity|].
    rewrite <- I0. apply (wf_timeout_handle W0). }
  assert (timeoutId s' = Some (3 + n)) as I'.
  { rewrite E', commit_timeoutId, F1, D1. unfold same_timeout.
    rewrite P1, N1. reflexivity. }
  assert (phase s' = ANOMALY_DETECTED) as P' by exact PA.
  conj.
  - unfold s', step. fold s0. now rewrite settle_agentConfidence, F.
  - unfold s', step. fold s0. now rewrite settle_logs, F.
  - exact Q'.
  - exact I'.
  - pose proof (wf_step random clock a s W) as W'. fold s' in W'.
    assert (pending (3 + n) s'
            = Some (mkTimer (3 + n) 60000 false RecommendationExpired)) as Pe.
    { unfold pending.
      apply (find_unique (timers s')
               (mkTimer (3 + n) 60000 false RecommendationExpired) (wf_nodup W')).
      rewrite Q'. apply in_app_iff. right. apply in_app_iff. right. now left. }
    unfold step. rewrite settle_recommendationTimeout.
    rewrite handle_recommendationTimeout, handle_phase, Pe, P'. cbn.
    now rewrite orb_true_r.
  - intros x b. conj.
    + now apply resolved_clears.
    + now apply resolved_clears.
    + intros Sx Wx Px Nx. now apply leaving_clears.
Qed.

End Recommendation.

(** ** Replay *)

Section ReplayFacts.

Variable random : nat -> Q.
Variable clock : nat -> Z.

Lemma replay_ticking s : wf s -> ticking (step random clock Replay s).
Proof.
  intros W. unfold step. apply ticking_settle; [now apply wf_handle|].
  rewrite handle_Replay. unfold replayTimeline.
  apply ticking_addLog, ticking_startSimulation.
Qed.

(** Outside the sampling phases the restarted interval only counts. *)
Lemma ticks_outside_sampling n : forall s,
  stable s -> wf s -> ticking s -> sampling (phase s) = false ->
  let s' := Nat.iter n (tick random clock) s in
  stable s' /\ wf s' /\ ticking s'
  /\ phase s' = phase s
  /\ tickIndex s' = n + tickIndex s
  /\ metrics s' = metrics s.
Proof.
  induction n as [|n IH]; intros s St W T P; cbv zeta; [|rewrite Nat.iter_succ].
  - cbn. conj; auto.
  - destruct (IH s St W T P) as (St' & W' & T' & P' & I' & M'); cbv zeta in *.
    set (x := Nat.iter n (tick random clock) s) in *.
    destruct (tick_fires random clock x St' W' T') as (id & E & F & S & M).
    rewrite P', P in S. cbn in S.
    pose proof (fires_false_of_samples _ S) as F'.
    conj.
    + now apply tick_stable.
    + now apply tick_wf.
    + now apply tick_ticking.
    + now rewrite E, step_phase, F', handle_phase.
    + rewrite tick_tickIndex, I' by assumption. reflexivity.
    + now rewrite E, step_metrics_idle, M.
Qed.

(** C5 (what the code does). Replaying from [ROLLED_BACK] reseeds the
    history with the ten warm-up samples, resets the tick index to 0,
    restarts the interval and adds the "Replay" entry on top of the audit
    log, whose earlier entries stay; but the phase stays [ROLLED_BACK],
    so the restarted interval only advances the tick index: after [n]
    ticks the history is still the warm-up window. *)
Theorem C5_replay_keeps_rolled_back s n :
  stable s -> wf s -> phase s = ROLLED_BACK ->
  let s' := step random clock Replay s in
  phase s' = ROLLED_BACK
  /\ length (metrics s') = 10
  /\ tickIndex s' = 0
  /\ logs s' = mkLogEntry (random (30 + draws s)) (clock (10 + reads s)) "Replay"
                 "Replaying last session data." LogInfo :: logs s
  /\ ticking s'
  /\ phase (Nat.iter n (tick random clock) s') = ROLLED_BACK
  /\ tickIndex (Nat.iter n (tick random clock) s') = n
  /\ metrics (Nat.iter n (tick random clock) s') = metrics s'.
Proof.
  intros St W P s'.
  assert (phase (handle random clock Replay s) = ROLLED_BACK) as P0
    by now rewrite handle_phase.
  assert (samples (handle random clock Replay s) = false) as S
    by (apply samples_needs_sampling; now rewrite P0).
  pose proof (fires_false_of_samples _ S) as F.
  assert (phase s' = ROLLED_BACK) as P' by (unfold s'; now rewrite step_phase, F).
  assert (tickIndex s' = 0) as I' by (unfold s'; now rewrite step_tickIndex, handle_tickIndex).
  pose proof (replay_ticking s W) as T'. fold s' in T'.
  destruct (ticks_outside_sampling n s') as (_ & _ & _ & Pn & In & Mn).
  { apply stable_step. } { now apply wf_step. } { exact T'. } { now rewrite P'. }
  cbv zeta in *. conj; auto.
  - unfold s'. rewrite step_metrics_idle by exact S. now apply handle_metrics_restart.
  - unfold s', step. rewrite settle_logs, F. apply replayTimeline_logs.
  - now rewrite Pn.
  - rewrite In, I'. lia.
Qed.

(** C8 (what the code does). In the guided scenario the history holds 11
    samples once the canary is started (the warm-up window and the sample
    of tick 0), 13 after two ticks, still in [MONITORING], and 15 after
    the third tick: the anomaly is raised there, and the change of phase
    runs the metric effect once more for the same tick.  After the fourth
    tick it holds 16. *)
Theorem C8_guided_scenario_history :
  let s0 := run random clock guided (mount random clock None None) in
  let after n := Nat.iter n (tick random clock) s0 in
  (phase s0 = MONITORING /\ tickIndex s0 = 0 /\ length (metrics s0) = 11)
  /\ (phase (after 2) = MONITORING /\ anomalies (after 2) = 0
      /\ length (metrics (after 2)) = 13)
  /\ (phase (after 3) = ANOMALY_DETECTED /\ tickIndex (after 3) = 3
      /\ anomalies (after 3) = 1 /\ length (metrics (after 3)) = 15)
  /\ (phase (after 4) = ANOMALY_DETECTED /\ tickIndex (after 4) = 4
      /\ anomalies (after 4) = 1 /\ length (metrics (after 4)) = 16).
Proof. vm_compute. repeat split. Qed.

(** A script whose actions are all offered leads to a reachable state. *)
Lemma reachable_run s0 l : forall s,
  reachable random clock s0 s -> playable random clock l s = true ->
  reachable random clock s0 (run random clock l s).
Proof.
  induction l as [|a l IH]; intros s R P; [exact R|].
  cbn [playable] in P. apply andb_true_iff in P as [O P].
  rewrite run_cons. apply IH; [|exact P]. now apply reach_step.
Qed.

End ReplayFacts.

(** * The properties on the guided scenario *)

(** ** The states of the scenario *)

Lemma mount0_reachable s :
  playable random0 clock0 s mount0 = true ->
  reachable random0 clock0 mount0 (run random0 clock0 s mount0).
Proof. apply reachable_run, reach_init. Qed.

Lemma setup0_reachable : reachable random0 clock0 mount0 setup0.
Proof. apply mount0_reachable. vm_compute. reflexivity. Qed.

Lemma monitoring0_reachable : reachable random0 clock0 mount0 monitoring0.
Proof.
  unfold monitoring0. apply reach_step; [exact setup0_reachable | vm_compute; reflexivity].
Qed.

Lemma monitoring0_stable : stable monitoring0.
Proof. unfold monitoring0. apply stable_step. Qed.

Lemma monitoring0_wf : wf monitoring0.
Proof. unfold monitoring0. apply wf_step, wf_run, wf_mount. Qed.

Lemma scenario_stable l : stable (run random0 clock0 l mount0).
Proof. apply stable_run, stable_mount. Qed.

Lemma scenario_wf l : wf (run random0 clock0 l mount0).
Proof. apply wf_run, wf_mount. Qed.

Lemma ticks_stable n s : stable s -> stable (Nat.iter n (tick random0 clock0) s).
Proof. intros H. induction n; [exact H | rewrite Nat.iter_succ; now apply tick_stable]. Qed.

Lemma ticks_wf n s : wf s -> wf (Nat.iter n (tick random0 clock0) s).
Proof. intros H. induction n; [exact H | rewrite Nat.iter_succ; now apply tick_wf]. Qed.

Lemma ticks_ticking n s :
  wf s -> ticking s -> ticking (Nat.iter n (tick random0 clock0) s).
Proof.
  intros W H. induction n; [exact H|]. rewrite Nat.iter_succ.
  apply tick_ticking; [now apply ticks_wf | exact IHn].
Qed.

Lemma monitoring0_ticking : ticking monitoring0.
Proof. unfold monitoring0. apply start_ticking, scenario_wf. Qed.

Lemma offline0_wf : wf offline0.
Proof. unfold offline0. apply wf_step, monitoring0_wf. Qed.

Lemma offline0_ticking : ticking offline0.
Proof.
  unfold offline0, step. apply ticking_settle; [apply wf_handle, monitoring0_wf|].
  exists 2. vm_compute. tauto.
Qed.

(** ** C1 *)

(** The handler behind the guided start, called during monitoring, is not
    refused: it moves the phase to [SHADOW_TEST], where the table of the
    specification has no such row.  And the rollback request, which the view
    offers once the anomaly is raised, leaves the phase at
    [ANOMALY_DETECTED] where the table says [ROLLBACK_CONFIRM]. *)
Lemma C1_counterexample :
  (phase monitoring0 = MONITORING
   /\ spec_table (phase monitoring0) StartGuidedRelease = None
   /\ phase (step random0 clock0 StartGuidedRelease monitoring0) = SHADOW_TEST)
  /\ (offered RequestRollback anomaly0 = true
      /\ spec_table (phase anomaly0) RequestRollback = Some ROLLBACK_CONFIRM
      /\ phase (step random0 clock0 RequestRollback anomaly0) = ANOMALY_DETECTED).
Proof. vm_compute. repeat split. Qed.

Lemma C1_witness :
  reachable random0 clock0 mount0 monitoring0
  /\ phase (step random0 clock0 StartGuidedRelease monitoring0) = SHADOW_TEST
  /\ forall a, offered a monitoring0 = true ->
       follows_table (phase monitoring0) a (phase (step random0 clock0 a monitoring0)).
Proof.
  split; [exact monitoring0_reachable|].
  pose proof (C1_unguarded_handlers_gated_view random0 clock0 None None monitoring0
                monitoring0_reachable) as H.
  split; [apply H | apply H].
Defined.

(** ** C2 *)

(** With the network switched off before the third tick and on again after
    the fourth, the session goes past tick 3 without the anomaly: at tick 3
    and at tick 6 the phase is still [MONITORING] and nothing was recorded. *)
Lemma C2_counterexample :
  playable random0 clock0 missed monitoring0 = true
  /\ (phase offline3 = MONITORING /\ tickIndex offline3 = 3 /\ anomalies offline3 = 0)
  /\ (let s := run random0 clock0 missed monitoring0 in
      phase s = MONITORING /\ tickIndex s = 6 /\ networkEnabled s = true
      /\ anomalies s = 0).
Proof. vm_compute. repeat split. Qed.

Lemma C2_witness :
  let s' := Nat.iter 3 (tick random0 clock0) (step random0 clock0 StartCanary setup0) in
  networkEnabled setup0 = true
  /\ anomalies s' = anomalies setup0 + 1
  /\ phase s' = ANOMALY_DETECTED
  /\ tickIndex s' = 3.
Proof.
  split; [reflexivity|].
  apply (C2_anomaly_once_at_threshold random0 clock0 setup0 StartCanary [TimerFires 2] 3
           (scenario_stable _) (scenario_wf _)).
  - repeat constructor. discriminate.
  - reflexivity.
Defined.

(** ** C3 *)

Lemma C3_witness :
  let s' := step random0 clock0 ConfirmRollback confirming0 in
  phase s' = ROLLED_BACK
  /\ (forall t, In t (timers s') -> callback t <> TickInterval)
  /\ hd_error (map event (logs s')) = Some "Rollback Executed"
  /\ metrics (run random0 clock0 [ToggleNetwork; ToggleNetwork; GenerateNotes] s')
     = metrics confirming0.
Proof.
  assert (wf confirming0) as W
    by (unfold confirming0, anomaly0; apply wf_step, ticks_wf, monitoring0_wf).
  assert (Forall (fun a => restarts a = false) [ToggleNetwork; ToggleNetwork; GenerateNotes])
    as F by (repeat constructor).
  pose proof (C3_rollback_stops_sampling random0 clock0 confirming0 _ W F)
    as (H1 & H2 & _ & H4 & H5 & _).
  intros s'. conj; [exact H1 | exact H2 | unfold s'; rewrite H4; reflexivity | exact H5].
Defined.

(** ** C4 *)

Lemma tick25_reachable : reachable random0 clock0 mount0 tick25.
Proof.
  assert (tick25 = run random0 clock0 ticks25 mount0) as -> by (vm_compute; reflexivity).
  apply mount0_reachable. vm_compute. reflexivity.
Qed.

Lemma C4_witness :
  let p := sample random0 clock0 (runCallback random0 clock0 TickInterval tick25) in
  length (metrics tick25) = 30
  /\ metrics (tick random0 clock0 tick25) = tl (metrics tick25) ++ [p]
  /\ length (metrics (Nat.iter 10 (tick random0 clock0) tick25)) = 30.
Proof.
  intros p.
  assert (length (metrics tick25) = 30) as E by (vm_compute; reflexivity).
  split; [exact E|].
  assert (ticking tick25) as T
    by (unfold tick25; apply ticks_ticking; [exact monitoring0_wf | exact monitoring0_ticking]).
  assert (sampling (phase tick25) = true) as Sa by (vm_compute; reflexivity).
  assert (networkEnabled tick25 = true) as N by (vm_compute; reflexivity).
  assert (phase tick25 = MONITORING -> ANOMALY_TICK_INDEX <= tickIndex tick25) as P
    by (intros _; vm_compute; lia).
  pose proof (C4_history_bounded_fifo random0 clock0 None None tick25 10
                tick25_reachable) as (_ & H).
  destruct (H T Sa N P) as (_ & H2 & _ & H4).
  split; [exact (H2 E)|]. rewrite H4, E. reflexivity.
Defined.

(** ** C5 *)

Lemma C5_witness :
  phase rolledBack0 = ROLLED_BACK
  /\ offered Replay rolledBack0 = true
  /\ phase (step random0 clock0 Replay rolledBack0) = ROLLED_BACK
  /\ length (metrics (step random0 clock0 Replay rolledBack0)) = 10
  /\ tickIndex (Nat.iter 5 (tick random0 clock0) (step random0 clock0 Replay rolledBack0)) = 5
  /\ metrics (Nat.iter 5 (tick random0 clock0) (step random0 clock0 Replay rolledBack0))
     = metrics (step random0 clock0 Replay rolledBack0).
Proof.
  assert (phase rolledBack0 = ROLLED_BACK) as P by (vm_compute; reflexivity).
  split; [exact P|]. split; [vm_compute; reflexivity|].
  assert (stable rolledBack0) as St by (unfold rolledBack0; apply stable_step).
  assert (wf rolledBack0) as W
    by (unfold rolledBack0, confirming0, anomaly0;
        apply wf_step, wf_step, ticks_wf, monitoring0_wf).
  pose proof (C5_replay_keeps_rolled_back random0 clock0 rolledBack0 5 St W P)
    as (H1 & H2 & _ & _ & _ & _ & H7 & H8).
  conj; assumption.
Defined.

(** ** C6 *)

(** With the network off during monitoring a tick of the interval takes
    the tick index from 0 to 1, while the history keeps its 11 samples. *)
Lemma C6_counterexample :
  phase offline0 = MONITORING /\ networkEnabled offline0 = false
  /\ tickIndex offline0 = 0
  /\ tickIndex (tick random0 clock0 offline0) = 1
  /\ length (metrics offline0) = 11
  /\ length (metrics (tick random0 clock0 offline0)) = 11.
Proof. vm_compute. repeat split. Qed.

Lemma C6_witness :
  networkEnabled offline0 = false
  /\ metrics (tick random0 clock0 offline0) = metrics offline0
  /\ tickIndex (tick random0 clock0 offline0) = S (tickIndex offline0)
  /\ metrics (step random0 clock0 (TimerFires 2) offline0) = metrics offline0.
Proof.
  assert (networkEnabled offline0 = false) as N by reflexivity.
  split; [exact N|].
  pose proof (C6_network_off_freezes_history_only random0 clock0 offline0 (TimerFires 2)
                (stable_step random0 clock0 ToggleNetwork monitoring0) offline0_wf
                offline0_ticking N)
    as ((H1 & H2 & _) & H3 & _).
  conj; [exact H1 | exact H2 |].
  apply H3; [reflexivity | discriminate].
Defined.

(** ** C7 *)

Lemma C7_witness :
  phase tick2 = MONITORING
  /\ phase (step random0 clock0 (TimerFires 2) tick2) = ANOMALY_DETECTED
  /\ agentConfidence (step random0 clock0 (TimerFires 2) tick2) = 83
  /\ timeoutId (step random0 clock0 (TimerFires 2) tick2) = Some 6
  /\ recommendationTimeout
       (step random0 clock0 (TimerFires 6) (step random0 clock0 (TimerFires 2) tick2))
     = true.
Proof.
  assert (phase tick2 = MONITORING) as P by reflexivity.
  assert (phase (step random0 clock0 (TimerFires 2) tick2) = ANOMALY_DETECTED) as PA
    by (vm_compute; reflexivity).
  split; [exact P|]. split; [exact PA|].
  pose proof (C7_anomaly_transition random0 clock0 tick2 (TimerFires 2)
                (ticks_stable 2 _ monitoring0_stable) (ticks_wf 2 _ monitoring0_wf) P PA)
    as (H1 & _ & _ & H4 & H5 & _).
  conj; [exact H1 | exact H4 | exact H5].
Defined.

(** ** C9 *)

(** With the duration field at 0 the view still offers the canary start,
    and the start enters [MONITORING]. *)
Lemma C9_counterexample :
  rolloutDuration zeroDuration0 = Some 0%Z
  /\ phase zeroDuration0 = CANARY_SETUP
  /\ offered StartCanary zeroDuration0 = true
  /\ phase (step random0 clock0 StartCanary zeroDuration0) = MONITORING.
Proof. vm_compute. repeat split. Qed.

Lemma C9_witness :
  reachable random0 clock0 mount0 setup0
  /\ phase (step random0 clock0 StartCanary setup0) = MONITORING
  /\ rolloutDuration (step random0 clock0 (EditRolloutDuration (Some (-5)%Z)) setup0)
     = Some (-5)%Z
  /\ canary_choice (canaryPercent setup0) = true.
Proof.
  split; [exact setup0_reachable|].
  pose proof (C9_canary_start_unvalidated random0 clock0 None None setup0 (Some (-5)%Z) I
                setup0_reachable) as (H1 & H2 & _ & _ & H5).
  conj; assumption.
Defined.

(** ** C10 *)

(** With the network switched off before the third tick, the tick that
    brings the index to 3 records nothing; switching the network on again
    before the fourth tick raises the anomaly in the same session. *)
Lemma C10_counterexample :
  playable random0 clock0 reenabled monitoring0 = true
  /\ (networkEnabled (Nat.iter 2 (tick random0 clock0) offline0) = false
      /\ tickIndex (Nat.iter 2 (tick random0 clock0) offline0) = 2)
  /\ (phase offline3 = MONITORING /\ tickIndex offline3 = 3
      /\ networkEnabled offline3 = false /\ anomalies offline3 = 0)
  /\ (let s := run random0 clock0 reenabled monitoring0 in
      s = step random0 clock0 ToggleNetwork offline3
      /\ phase s = ANOMALY_DETECTED /\ tickIndex s = 3 /\ networkEnabled s = true
      /\ anomalies s = 1).
Proof. vm_compute. repeat split. Qed.

Lemma C10_witness :
  (phase offline3 = MONITORING /\ tickIndex offline3 = 3 /\ networkEnabled offline3 = false)
  /\ tickIndex (tick random0 clock0 offline3) = 4
  /\ anomalies (run random0 clock0 [ToggleNetwork; TimerFires 2; TimerFires 2]
                  (tick random0 clock0 offline3))
     = anomalies offline3.
Proof.
  assert (phase offline3 = MONITORING) as P by reflexivity.
  assert (tickIndex offline3 = 3) as T by reflexivity.
  assert (networkEnabled offline3 = false) as N by reflexivity.
  split; [conj; assumption|].
  pose proof offline0_wf as W0.
  assert (Forall (fun a => restarts a = false) [ToggleNetwork; TimerFires 2; TimerFires 2])
    as F by (repeat constructor).
  pose proof (C10_missed_threshold_never_fires random0 clock0 offline3 _
                (ticks_stable 3 _ (stable_step random0 clock0 ToggleNetwork monitoring0))
                (ticks_wf 3 _ W0)
                (ticks_ticking 3 _ W0 offline0_ticking) P T N F)
    as (H1 & _ & _ & _ & H5 & _).
  split; [exact H1 | exact H5].
Defined.

(** * Further properties of the engine *)

(** ** The two logs only grow *)

#[local] Transparent handle.

Section Journals.

Variable random : nat -> Q.
Variable clock : nat -> Z.

Lemma handle_logs_grow a s :
  exists new, logs (handle random clock a s) = new ++ logs s /\ length new <= 1.
Proof.
  handler_cases a s;
    match goal with
    | |- exists new, ?L = _ /\ _ => let L' := eval cbn in L in change L with L'
    end;
    solve [ exists []; split; [reflexivity | cbn; lia]
          | eexists [_]; split; [reflexivity | cbn; lia] ].
Qed.

Lemma handle_messages_grow a s :
  exists new, messages (handle random clock a s) = messages s ++ new /\ length new <= 1.
Proof.
  handler_cases a s;
    match goal with
    | |- exists new, ?L = _ /\ _ => let L' := eval cbn in L in change L with L'
    end;
    solve [ exists []; split; [now rewrite app_nil_r | cbn; lia]
          | eexists [_]; split; [reflexivity | cbn; lia] ].
Qed.

End Journals.

#[global] Opaque handle.

Section JournalsKept.

Variable random : nat -> Q.
Variable clock : nat -> Z.

Lemma step_logs_grow a s :
  exists new, logs (step random clock a s) = new ++ logs s /\ length new <= 2.
Proof.
  destruct (handle_logs_grow random clock a s) as (new & E & L).
  unfold step. rewrite settle_logs, E.
  destruct (fires (handle random clock a s)).
  - exists (anomalyEntry random clock (handle random clock a s) :: new).
    split; [reflexivity | cbn; lia].
  - exists new. split; [reflexivity | lia].
Qed.

(** X1. The audit log is append-only and newest first: an event puts at most
    two entries in front of the log (the one of its handler and the one of
    the anomaly) and keeps every older entry in place; so does any run of
    events. *)
Theorem X1_audit_log_append_only a l s :
  (exists new, logs (step random clock a s) = new ++ logs s /\ length new <= 2)
  /\ (exists new, logs (run random clock l s) = new ++ logs s
                  /\ length new <= 2 * length l).
Proof.
  split; [apply step_logs_grow|].
  revert s. induction l as [|b l IH]; intros s.
  - exists []. split; [reflexivity | cbn; lia].
  - rewrite run_cons. destruct (IH (step random clock b s)) as (n1 & E1 & L1).
    destruct (step_logs_grow b s) as (n2 & E2 & L2).
    exists (n1 ++ n2). rewrite E1, E2, app_assoc, length_app. split; [reflexivity|].
    cbn [length]. lia.
Qed.

(** X2. The agent messages are append-only in creation order: an event adds
    at most one message, behind all earlier ones, and a render adds none. *)
Theorem X2_agent_messages_append_only a l s :
  (exists new, messages (step random clock a s) = messages s ++ new /\ length new <= 1)
  /\ (exists new, messages (run random clock l s) = messages s ++ new
                  /\ length new <= length l).
Proof.
  assert (forall b x, exists new,
            messages (step random clock b x) = messages x ++ new /\ length new <= 1) as H.
  { intros b x. unfold step. rewrite settle_messages. apply handle_messages_grow. }
  split; [apply H|].
  revert s. induction l as [|b l IH]; intros s.
  - exists []. split; [now rewrite app_nil_r | cbn; lia].
  - rewrite run_cons. destruct (IH (step random clock b s)) as (n1 & E1 & L1).
    destruct (H b s) as (n2 & E2 & L2).
    exists (n2 ++ n1). rewrite E1, E2, <- app_assoc, length_app. split; [reflexivity|].
    cbn [length]. lia.
Qed.

End JournalsKept.

(** ** More on the handlers *)

#[local] Transparent handle.

Section HandlerTimers.

Variable random : nat -> Q.
Variable clock : nat -> Z.

Lemma handle_simulationInterval a s :
  simulationInterval (handle random clock a s)
  = match a with
    | StartCanary | Replay => Some (nextTimerId s)
    | _ => simulationInterval s
    end.
Proof. handler_cases a s; cbn; try rewrite Hinterval; reflexivity. Qed.

Lemma handle_shadowTestStatus a s :
  shadowTestStatus (handle random clock a s)
  = match a with
    | StartGuidedRelease => ShadowRunning
    | TimerFires id =>
        match pending id s with
        | Some t => match callback t with
                    | ShadowTestDone => ShadowComplete
                    | _ => shadowTestStatus s
                    end
        | None => shadowTestStatus s
        end
    | _ => shadowTestStatus s
    end.
Proof. handler_cases a s; try rewrite Hpending; reflexivity. Qed.

(** The handlers that neither set nor clear a timer. *)
Lemma handle_timers_same a s :
  match a with
  | StartGuidedRelease | StartCanary | Replay | ConfirmRollback | TimerFires _ => False
  | _ => True
  end ->
  timers (handle random clock a s) = timers s.
Proof. intros H. handler_cases a s; try contradiction; reflexivity. Qed.

Lemma handleStartGuided_timers s :
  timers (handle random clock StartGuidedRelease s)
  = timers s ++ [mkTimer (nextTimerId s) 2000 false ShadowTestDone].
Proof. reflexivity. Qed.

(** No handler cancels a pending timer other than the interval, except
    when that very timer fires. *)
Lemma handle_keeps a s t :
  wf s -> In t (timers s) -> callback t <> TickInterval ->
  a <> TimerFires (timer_id t) ->
  In t (timers (handle random clock a s)).
Proof.
  intros W H N A.
  assert (forall iv, simulationInterval s = Some iv -> timer_id t <> iv) as V.
  { intros iv E Et. apply N. apply (wf_interval W t H). now rewrite E, Et. }
  handler_cases a s; match goal with |- In _ ?L => let L' := eval cbn in L in change L with L' end;
    try exact H.
  - apply in_app_iff. now left.
  - apply in_app_iff. left. apply In_cancel. split; [exact H | now apply V].
  - apply in_app_iff. now left.
  - apply In_cancel. split; [exact H | now apply V].
  - apply in_app_iff. left. apply In_cancel. split; [exact H | now apply V].
  - apply in_app_iff. now left.
  - apply In_cancel. split; [exact H|]. intros E. apply A. now rewrite E.
  - apply In_cancel. split; [exact H|]. intros E. apply A. now rewrite E.
  - apply In_cancel. split; [exact H|]. intros E. apply A. now rewrite E.
  - apply In_cancel. split; [exact H|]. intros E. apply A. now rewrite E.
Qed.

(** Nor the interval, short of a restart or the rollback. *)
Lemma handle_keeps_interval a s t :
  wf s -> In t (timers s) -> callback t = TickInterval ->
  match a with StartCanary | Replay | ConfirmRollback => False | _ => True end ->
  In t (timers (handle random clock a s)).
Proof.
  intros W H C A.
  assert (forall id x, pending id s = Some x -> repeats x = false -> timer_id t <> id) as V.
  { intros id x P R E. apply find_handle in P as [Px Ex].
    assert (x = t) as ->.
    { pose proof (find_unique (timers s) t (wf_nodup W) H) as F1.
      pose proof (find_unique (timers s) x (wf_nodup W) Px) as F2.
      rewrite Ex, <- E in F2. congruence. }
    rewrite (wf_periodic W t H C) in R. discriminate R. }
  handler_cases a s; try contradiction;
    match goal with |- In _ ?L => let L' := eval cbn in L in change L with L' end;
    try exact H.
  - apply in_app_iff. now left.
  - apply In_cancel. split; [exact H | now apply (V id _ Hpending)].
  - apply In_cancel. split; [exact H | now apply (V id _ Hpending)].
  - apply In_cancel. split; [exact H | now apply (V id _ Hpending)].
  - apply In_cancel. split; [exact H | now apply (V id _ Hpending)].
Qed.

(** No handler sets a decision timeout. *)
Lemma handle_no_timeout a s :
  (forall t, In t (timers s) -> callback t <> RecommendationExpired) ->
  forall t, In t (timers (handle random clock a s)) -> callback t <> RecommendationExpired.
Proof.
  intros H. handler_cases a s; intros t;
    match goal with |- In _ ?L -> _ => let L' := eval cbn in L in change L with L' end;
    intros I;
    try apply in_app_iff in I as [I|[<-|[]]];
    try apply filter_In in I as [I _];
    solve [now apply H | cbn; discriminate].
Qed.

(** The message that a firing advisory timer appends. *)
Lemma fire_advisory id s t body kind meta :
  pending id s = Some t -> callback t = PostAgentMessage body kind meta ->
  messages (handle random clock (TimerFires id) s)
  = messages s ++ [mkAgentMessage (random (draws s)) body (clock (reads s)) Terra kind meta].
Proof.
  intros P C. cbn [handle]. unfold fire. rewrite P, C.
  destruct (repeats t); reflexivity.
Qed.

Lemma handle_activeModel a s :
  activeModel (handle random clock a s)
  = match a with
    | StartCanary =>
        (version BASELINE_MODEL ++ " (95%) / " ++ version CANDIDATE_MODEL ++ " (5%)")%string
    | ConfirmRollback => version BASELINE_MODEL
    | _ => activeModel s
    end.
Proof. handler_cases a s; reflexivity. Qed.

End HandlerTimers.

#[global] Opaque handle.

(** ** Rendering comes to rest *)

Section Quiescence.

Variable random : nat -> Q.
Variable clock : nat -> Z.

(** X3. The effects cannot keep one another running: whatever the state, the
    second render after an event is the last one that changes anything, a
    quiescent state is left alone, and every event ends in a quiescent
    state. *)
Theorem X3_render_comes_to_rest s a :
  commit random clock (settle random clock s) = settle random clock s
  /\ (stable s -> settle random clock s = s)
  /\ stable (step random clock a s).
Proof.
  split; [|split].
  - apply stable_commit, stable_settle.
  - apply settle_stable.
  - apply stable_settle.
Qed.

(** ** The network switch at the threshold *)

(** X4. Re-enabling the network while the tick index is still 3 and the phase
    still [MONITORING] raises the anomaly at once: the switch is one of the
    dependencies of the metric effect. *)
Theorem X4_reenabling_at_threshold_fires s :
  stable s -> phase s = MONITORING -> tickIndex s = ANOMALY_TICK_INDEX ->
  networkEnabled s = false ->
  phase (step random clock ToggleNetwork s) = ANOMALY_DETECTED
  /\ anomalies (step random clock ToggleNetwork s) = S (anomalies s)
  /\ networkEnabled (step random clock ToggleNetwork s) = true
  /\ tickIndex (step random clock ToggleNetwork s) = ANOMALY_TICK_INDEX.
Proof.
  intros St P T N.
  assert (fires (handle random clock ToggleNetwork s) = true) as F.
  { unfold fires, raises. fold (samples (handle random clock ToggleNetwork s)).
    rewrite (samples_handle random clock _ s St).
    rewrite handle_tickIndex, handle_phase, handle_networkEnabled, P, T, N.
    reflexivity. }
  rewrite step_phase, step_anomalies, step_networkEnabled, step_tickIndex, F.
  rewrite handle_networkEnabled, handle_tickIndex, N, T. clear F. conj; reflexivity.
Qed.

End Quiescence.

(** ** Timers that nothing cancels *)

Section Pending.

Variable random : nat -> Q.
Variable clock : nat -> Z.

Lemma step_keeps a s t :
  wf s -> In t (timers s) ->
  callback t <> TickInterval -> callback t <> RecommendationExpired ->
  a <> TimerFires (timer_id t) ->
  In t (timers (step random clock a s)).
Proof.
  intros W H N1 N2 A. unfold step.
  apply In_settle; [now apply wf_handle | now apply handle_keeps | exact N2].
Qed.

(** X5. An advisory message scheduled by the anomaly is never cancelled: it
    stays pending through every event except its own firing (the rollback
    and a restart included), and when it fires it appends its message
    whatever the phase has become. *)
Theorem X5_advisories_never_cancelled s a t body kind meta :
  wf s -> In t (timers s) ->
  callback t = PostAgentMessage body kind meta ->
  (a <> TimerFires (timer_id t) -> In t (timers (step random clock a s)))
  /\ messages (step random clock (TimerFires (timer_id t)) s)
     = messages s
         ++ [mkAgentMessage (random (draws s)) body (clock (reads s)) Terra kind meta].
Proof.
  intros W H C. split.
  - intros A. apply step_keeps; try assumption; rewrite C; discriminate.
  - unfold step. rewrite settle_messages.
    apply fire_advisory with (t := t); [|exact C].
    unfold pending. apply (find_unique (timers s) t (wf_nodup W) H).
Qed.

(** X6. Continuing the rollout clears the timeout flag but leaves the 60 s
    timer pending: when that timer elapses afterwards the flag is set
    again, although the decision was taken. *)
Theorem X6_continue_leaves_timeout_pending s t :
  stable s -> wf s -> phase s = ANOMALY_DETECTED ->
  In t (timers s) -> callback t = RecommendationExpired ->
  let s1 := step random clock ContinueRollout s in
  recommendationTimeout s1 = false
  /\ phase s1 = ANOMALY_DETECTED
  /\ In t (timers s1)
  /\ recommendationTimeout (step random clock (TimerFires (timer_id t)) s1) = true.
Proof.
  intros St W P H C s1.
  assert (samples (handle random clock ContinueRollout s) = false) as S.
  { apply same_deps_no_sample; [exact St | now rewrite handle_tickIndex
      | now rewrite handle_phase | now rewrite handle_networkEnabled]. }
  pose proof (fires_false_of_samples _ S) as F.
  assert (phase s1 = ANOMALY_DETECTED) as P1
    by (unfold s1; now rewrite step_phase, F, handle_phase).
  assert (timers s1 = timers s) as Q1.
  { unfold s1, step, settle.
    assert (stable (commit random clock (handle random clock ContinueRollout s))) as St1
      by now apply stable_commit_iff.
    rewrite (stable_commit random clock _ St1).
    rewrite commit_timers, F. cbv zeta.
    rewrite handle_timeoutDeps, (stable_timeoutDeps s St). unfold deps_timeout, same_timeout.
    rewrite handle_phase, phase_eqb_refl. now apply handle_timers_same. }
  assert (wf s1) as W1 by (unfold s1; now apply wf_step).
  conj.
  - unfold s1. now apply resolved_clears.
  - exact P1.
  - now rewrite Q1.
  - assert (pending (timer_id t) s1 = Some t) as Pe.
    { unfold pending. apply (find_unique (timers s1) t (wf_nodup W1)). now rewrite Q1. }
    unfold step. rewrite settle_recommendationTimeout.
    rewrite handle_recommendationTimeout, handle_phase, Pe, C, P1. cbn.
    now rewrite orb_true_r.
Qed.

End Pending.

(** ** The shadow test *)

Section ShadowTest.

Variable random : nat -> Q.
Variable clock : nat -> Z.

(** X7. The guided start runs the shadow test: its status is running and the
    view does not offer the continuation until the 2 s timer that the start
    has set elapses; then the status is complete, "Shadow Test Completed"
    heads the audit log and the continuation is offered. *)
Theorem X7_shadow_test_gates_setup s :
  wf s ->
  let id := nextTimerId s in
  let s1 := step random clock StartGuidedRelease s in
  let s2 := step random clock (TimerFires id) s1 in
  (phase s1 = SHADOW_TEST /\ shadowTestStatus s1 = ShadowRunning
   /\ offered ContinueToSetup s1 = false
   /\ pending id s1 = Some (mkTimer id 2000 false ShadowTestDone))
  /\ (phase s2 = SHADOW_TEST /\ shadowTestStatus s2 = ShadowComplete
      /\ offered ContinueToSetup s2 = true
      /\ hd_error (map event (logs s2)) = Some "Shadow Test Completed").
Proof.
  intros W id s1 s2.
  assert (phase s1 = SHADOW_TEST) as P1
    by (unfold s1; now rewrite step_phase_set, handle_phase).
  assert (shadowTestStatus s1 = ShadowRunning) as S1
    by (unfold s1, step; now rewrite settle_shadowTestStatus, handle_shadowTestStatus).
  assert (wf s1) as W1 by (unfold s1; now apply wf_step).
  assert (pending id s1 = Some (mkTimer id 2000 false ShadowTestDone)) as Pe.
  { unfold pending.
    apply (find_unique (timers s1) (mkTimer id 2000 false ShadowTestDone) (wf_nodup W1)).
    unfold s1, step. apply In_settle; [now apply wf_handle | | discriminate].
    rewrite handleStartGuided_timers. apply in_app_iff. right. now left. }
  assert (fires (handle random clock (TimerFires id) s1) = false) as F.
  { apply fires_needs_monitoring. rewrite handle_phase, P1. discriminate. }
  assert (phase s2 = SHADOW_TEST) as P2
    by (unfold s2; now rewrite step_phase, F, handle_phase).
  assert (shadowTestStatus s2 = ShadowComplete) as S2.
  { unfold s2, step. now rewrite settle_shadowTestStatus, handle_shadowTestStatus, Pe. }
  split; conj; try assumption.
  - cbn [offered]. now rewrite P1, S1.
  - cbn [offered]. now rewrite P2, S2.
  - unfold s2, step. rewrite settle_logs, F, handle_TimerFires. unfold fire.
    rewrite Pe. reflexivity.
Qed.

End ShadowTest.

(** ** The default canary percentage *)

Section DefaultPercent.

Variable random : nat -> Q.
Variable clock : nat -> Z.

(** While the release is idle the percentage of the flow is the default. *)
Lemma reachable_idle_default sn sc s :
  reachable random clock (mount random clock sn sc) s ->
  phase s = IDLE -> canaryPercent s = defaultCanaryPercent s.
Proof.
  intros R. induction R as [|s a R IH O].
  - intros _. unfold mount.
    rewrite settle_canaryPercent, settle_defaultCanaryPercent.
    destruct (_ && _); reflexivity.
  - pose proof (reachable_stable random clock sn sc s R) as St.
    pose proof (offered_phase a s O) as Of.
    rewrite step_phase. destruct (fires (handle random clock a s)); [intros E; discriminate E|].
    rewrite handle_phase. intros P.
    assert (phase s = IDLE) as P0 by (destruct a; try discriminate P; exact P).
    specialize (IH P0).
    unfold step. rewrite settle_canaryPercent, settle_defaultCanaryPercent.
    rewrite handle_syncDeps, (stable_syncDeps s St). unfold same_sync, deps_sync.
    rewrite handle_phase, handle_defaultCanaryPercent, handle_canaryPercent.
    destruct a; try discriminate P; rewrite ?P0, ?Nat.eqb_refl; cbn; try exact IH;
      try (apply proj1 in Of; rewrite P0 in Of; discriminate Of).
    destruct (defaultCanaryPercent s =? val) eqn:E; cbn; [|reflexivity].
    apply Nat.eqb_eq in E. now rewrite IH.
Qed.

(** X8. Choosing a default percentage in the settings always stores it; it
    also becomes the percentage of the flow while the release is idle, and
    leaves the percentage of the flow alone in every other phase. *)
Theorem X8_default_percent_follows_only_when_idle sn sc s val :
  reachable random clock (mount random clock sn sc) s ->
  let s' := step random clock (SelectDefaultCanaryPercent val) s in
  defaultCanaryPercent s' = val
  /\ (phase s = IDLE -> canaryPercent s' = val)
  /\ (phase s <> IDLE -> canaryPercent s' = canaryPercent s)
  /\ phase s' = phase s.
Proof.
  intros R s'.
  pose proof (reachable_stable random clock sn sc s R) as St.
  assert (canaryPercent s'
          = if negb ((defaultCanaryPercent s =? val) && true) && phase_eqb (phase s) IDLE
            then val else canaryPercent s) as E.
  { unfold s', step. rewrite settle_canaryPercent.
    rewrite handle_syncDeps, (stable_syncDeps s St). unfold same_sync, deps_sync.
    now rewrite handle_phase, handle_defaultCanaryPercent, handle_canaryPercent,
      phase_eqb_refl. }
  conj.
  - unfold s', step. now rewrite settle_defaultCanaryPercent, handle_defaultCanaryPercent.
  - intros P. rewrite E, P. cbn.
    destruct (defaultCanaryPercent s =? val) eqn:D; cbn; [|reflexivity].
    apply Nat.eqb_eq in D. now rewrite (reachable_idle_default sn sc s R P).
  - intros N. rewrite E.
    destruct (phase s); try reflexivity; try (now rewrite andb_false_r).
    now contradiction N.
  - unfold s'. now rewrite step_phase_kept, handle_phase.
Qed.

End DefaultPercent.

(** ** The samples *)

Section Samples.

Variable random : nat -> Q.
Variable clock : nat -> Z.

Local Open Scope Q_scope.

Lemma anomaly_latency : ANOMALY_VALUES.latency == 256.
Proof. reflexivity. Qed.

(** X9. With [Math.random] in [0, 1) the latency of a sample lies
    between 256 and 266 from tick 3 on and between 205 and 215 before, so
    the two bands are apart; from tick 3 on the error rate and the drift
    are at least the anomaly values, and before that the drift is at least
    the initial one.  The bounds are closed: the source adds in floating
    point, where a sum may round up to the end of its range. *)
Theorem X9_sample_bands s :
  (forall n, 0 <= random n /\ random n < 1) ->
  let p := sample random clock s in
  if (ANOMALY_TICK_INDEX <=? tickIndex s)%nat
  then (256 <= latency p /\ latency p <= 266)
       /\ ANOMALY_VALUES.error_rate <= error_rate p
       /\ ANOMALY_VALUES.drift_user_region <= drift_user_region p
  else (205 <= latency p /\ latency p <= 215)
       /\ INITIAL_METRICS_STATE.drifts_user_region <= drift_user_region p.
Proof.
  intros H p. unfold p, sample, newPoint. cbn [fst Date_now Math_random].
  cbn [draws reads set_draws set_reads latency error_rate drift_user_region].
  pose proof (H (draws s)) as [A1 A2].
  pose proof (H (S (draws s))) as [B1 B2].
  pose proof (H (S (S (draws s)))) as [C1 C2].
  pose proof anomaly_latency as L.
  unfold INITIAL_METRICS_STATE.error_rate, INITIAL_METRICS_STATE.drifts_user_region,
    ANOMALY_VALUES.error_rate, ANOMALY_VALUES.drift_user_region.
  cbn [latency_ms BASELINE_MODEL].
  destruct (ANOMALY_TICK_INDEX <=? tickIndex s)%nat; repeat split; lra.
Qed.

End Samples.

(** ** What is pending, phase by phase *)

Lemma at_most_one (q : list Timer) (id : nat) :
  NoDup (map timer_id q) -> (forall t, In t q -> timer_id t = id) -> length q <= 1.
Proof.
  intros N H. destruct q as [|x [|y q]]; cbn; try lia.
  exfalso. inversion N as [|? ? Nx _]; subst. apply Nx. left.
  rewrite (H x), (H y); [reflexivity | right; now left | now left].
Qed.

Lemma NoDup_filter_ids (f : Timer -> bool) (q : list Timer) :
  NoDup (map timer_id q) -> NoDup (map timer_id (filter f q)).
Proof.
  induction q as [|t q IH]; cbn; intros H; [constructor|].
  inversion H as [|? ? Hn Hq]; subst.
  destruct (f t); cbn; auto.
  constructor; auto. intros Hin. apply Hn.
  apply in_map_iff in Hin as (t' & E & Ht'). apply filter_In in Ht' as [Ht' _].
  apply in_map_iff. now exists t'.
Qed.

Section PendingByPhase.

Variable random : nat -> Q.
Variable clock : nat -> Z.

Lemma wf_intervals s : wf s -> length (intervals s) <= 1.
Proof.
  intros W. unfold intervals.
  destruct (simulationInterval s) as [id|] eqn:E.
  - apply (at_most_one _ id); [apply NoDup_filter_ids, (wf_nodup W)|].
    intros t [H C]%filter_In. unfold is_interval in C.
    assert (callback t = TickInterval) as Ct by (destruct (callback t); congruence).
    apply (wf_interval W t H) in Ct. congruence.
  - destruct (filter is_interval (timers s)) as [|t q] eqn:F; cbn; [lia|].
    assert (In t (filter is_interval (timers s))) as [H C]%filter_In
      by (rewrite F; now left).
    unfold is_interval in C.
    assert (callback t = TickInterval) as Ct by (destruct (callback t); congruence).
    apply (wf_interval W t H) in Ct. congruence.
Qed.

Lemma step_ticking a s :
  wf s -> ticking s ->
  a <> ConfirmRollback ->
  ticking (step random clock a s).
Proof.
  intros W T A.
  destruct a; try (now apply start_ticking); try (now apply replay_ticking);
    try contradiction.
  all: destruct T as (iv & E & H);
    unfold step; apply ticking_settle; [now apply wf_handle|];
    exists iv; rewrite handle_simulationInterval; (split; [exact E|]);
    apply handle_keeps_interval; auto.
Qed.

(** X10. In every reachable state at most one interval is pending, and while
    the phase is [MONITORING] or [ANOMALY_DETECTED] the interval of the
    simulation is pending. *)
Theorem X10_one_interval_while_sampling sn sc s :
  reachable random clock (mount random clock sn sc) s ->
  length (intervals s) <= 1
  /\ (sampling (phase s) = true -> ticking s).
Proof.
  intros R. split; [apply wf_intervals, (reachable_wf random clock sn sc s R)|].
  induction R as [|s a R IH O].
  - rewrite mount_phase. intros E; discriminate E.
  - pose proof (reachable_stable random clock sn sc s R) as St.
    pose proof (reachable_wf random clock sn sc s R) as W.
    intros P. rewrite step_phase in P.
    destruct a; try (now apply start_ticking); try (now apply replay_ticking).
    all: try (rewrite fires_needs_monitoring in P by (rewrite handle_phase; discriminate);
              rewrite handle_phase in P; discriminate P).
    all: apply step_ticking; [exact W | | discriminate].
    all: apply IH.
    all: destruct (fires (handle random clock _ s)) eqn:F;
      [ apply (fires_handle random clock _ s St) in F as (M & _); now rewrite M
      | now rewrite handle_phase in P ].
Qed.

Lemma commit_no_timeout s :
  phase s <> ANOMALY_DETECTED ->
  (forall t, In t (timers s) -> callback t <> RecommendationExpired) ->
  forall t, In t (timers (commit random clock s)) -> callback t <> RecommendationExpired.
Proof.
  intros P H t. rewrite commit_timers. cbv zeta.
  assert (forall x, In x (if fires s then timers s ++ advisories (nextTimerId s)
                          else timers s) -> callback x <> RecommendationExpired) as Q.
  { intros x Hx. destruct (fires s); [|now apply H].
    apply in_app_iff in Hx as [Hx|Hx]; [now apply H|].
    destruct Hx as [<-|[<-|[<-|[]]]]; discriminate. }
  destruct (same_timeout (timeoutDeps s) s); [apply Q|].
  assert (phase_eqb (phase s) ANOMALY_DETECTED = false) as E
    by (destruct (phase s); try reflexivity; now contradiction P).
  rewrite E. intros Ht. now apply Q, (In_cleared (timeoutId s)).
Qed.

(** X11. A decision timeout is pending only while the phase is
    [ANOMALY_DETECTED], and it is then the one whose handle the timeout
    effect remembers. *)
Theorem X11_timeout_pending_only_in_anomaly sn sc s t :
  reachable random clock (mount random clock sn sc) s ->
  In t (timers s) -> callback t = RecommendationExpired ->
  phase s = ANOMALY_DETECTED /\ timeoutId s = Some (timer_id t).
Proof.
  intros R H C. split; [|now apply (wf_timeout (reachable_wf random clock sn sc s R) t H)].
  revert t H C. induction R as [|s a R IH O]; intros t H C.
  - exfalso. revert H C. unfold mount, settle.
    assert (forall x, In x (timers (initialState sn sc)) ->
                      callback x <> RecommendationExpired) as H0 by (intros x []).
    assert (phase (initialState sn sc) <> ANOMALY_DETECTED) as P0 by discriminate.
    pose proof (commit_no_timeout _ P0 H0) as H1.
    assert (phase (commit random clock (initialState sn sc)) <> ANOMALY_DETECTED) as P1.
    { rewrite commit_phase, fires_needs_monitoring; discriminate. }
    intros H C. exact (commit_no_timeout _ P1 H1 t H C).
  - pose proof (reachable_stable random clock sn sc s R) as St.
    pose proof (reachable_wf random clock sn sc s R) as W.
    destruct (phase_eqb (phase (step random clock a s)) ANOMALY_DETECTED) eqn:E;
      [now apply phase_eqb_eq|].
    assert (phase (step random clock a s) <> ANOMALY_DETECTED) as N
      by (intros Q; rewrite Q in E; discriminate E).
    exfalso.
    destruct (phase_eqb (phase s) ANOMALY_DETECTED) eqn:E0.
    + apply phase_eqb_eq in E0.
      destruct (leaving_clears random clock a s St W E0 N) as (_ & L).
      exact (L t H C).
    + assert (forall x, In x (timers s) -> callback x <> RecommendationExpired) as H0.
      { intros x Hx Cx. pose proof (IH x Hx Cx) as Q. rewrite Q in E0. discriminate E0. }
      pose proof (handle_no_timeout random clock a s H0) as Hh.
      rewrite step_phase in N.
      destruct (fires (handle random clock a s)) eqn:F; [now contradiction N|].
      pose proof (commit_no_timeout _ N Hh) as H1.
      assert (phase (commit random clock (handle random clock a s)) <> ANOMALY_DETECTED) as P1
        by now rewrite commit_phase, F.
      exact (commit_no_timeout _ P1 H1 t H C).
Qed.

End PendingByPhase.

(** ** The label of the model in production *)

Section ActiveModel.

Variable random : nat -> Q.
Variable clock : nat -> Z.

Lemma step_activeModel a s :
  activeModel (step random clock a s) = activeModel (handle random clock a s).
Proof. unfold step, settle. now rewrite commit_activeModel, commit_activeModel. Qed.

(** X12. The header shows the baseline version in every phase but
    [MONITORING] and [ANOMALY_DETECTED], where it shows the 95/5 split of
    baseline and candidate, whichever canary percentage was chosen. *)
Theorem X12_active_model_follows_phase sn sc s :
  reachable random clock (mount random clock sn sc) s ->
  activeModel s
  = if sampling (phase s)
    then (version BASELINE_MODEL ++ " (95%) / " ++ version CANDIDATE_MODEL ++ " (5%)")%string
    else version BASELINE_MODEL.
Proof.
  intros R. induction R as [|s a R IH O].
  - rewrite mount_phase. unfold mount, settle.
    now rewrite commit_activeModel, commit_activeModel.
  - pose proof (reachable_stable random clock sn sc s R) as St.
    pose proof (offered_phase a s O) as Of.
    pose proof (reachable_modal random clock sn sc s R) as M.
    rewrite step_activeModel, handle_activeModel, step_phase.
    destruct (fires (handle random clock a s)) eqn:F.
    + apply (fires_handle random clock a s St) in F as (P & _ & _ & A).
      rewrite P in IH. destruct a; try contradiction A; exact IH.
    + clear F. rewrite handle_phase.
      destruct a; try exact IH; try reflexivity.
      * rewrite Of in IH. exact IH.
      * destruct Of as [Of _]. rewrite Of in IH. exact IH.
Qed.

End ActiveModel.

(** ** The overview dashboard *)

Lemma Math_max_bounds (a b : Q) :
  (a <= Overview.Math_max a b /\ b <= Overview.Math_max a b
   /\ (Overview.Math_max a b == a \/ Overview.Math_max a b == b))%Q.
Proof.
  unfold Overview.Math_max. destruct (Qlt_le_dec a b) as [H|H].
  - split; [lra|]. split; [lra|]. right. reflexivity.
  - split; [lra|]. split; [lra|]. left. reflexivity.
Qed.

Lemma Math_min_bounds (a b : Q) :
  (Overview.Math_min a b <= a /\ Overview.Math_min a b <= b
   /\ (Overview.Math_min a b == a \/ Overview.Math_min a b == b))%Q.
Proof.
  unfold Overview.Math_min. destruct (Qlt_le_dec b a) as [H|H].
  - split; [lra|]. split; [lra|]. right. reflexivity.
  - split; [lra|]. split; [lra|]. left. reflexivity.
Qed.

Lemma clamp_bounds (lo hi x : Q) :
  (lo <= hi -> lo <= Overview.Math_min hi (Overview.Math_max lo x) <= hi)%Q.
Proof.
  intros H.
  destruct (Math_max_bounds lo x) as (A & B & C).
  destruct (Math_min_bounds hi (Overview.Math_max lo x)) as (D & E & [F|F]); lra.
Qed.

Lemma floor_band (lo hi : Z) (x : Q) :
  (inject_Z lo <= x)%Q -> (x < inject_Z hi)%Q -> (lo <= Qfloor x < hi)%Z.
Proof.
  intros L H. split.
  - rewrite <- (Qfloor_Z lo). now apply Qfloor_resp_le.
  - rewrite Zlt_Qlt. apply Qle_lt_trans with x; [apply Qfloor_le | exact H].
Qed.

Section DashboardFacts.

Variable random : nat -> Q.
Variable clock : nat -> Z.

(** X13. Whatever the gauges were and whatever [Math.random] returns, once the
    interval callback has run the CPU gauge is in [15, 95], the memory
    gauge in [25, 90], the request rate at 500 or more and the latency at
    50 or more, and they stay so however often the callback runs. *)
Theorem X13_dashboard_gauges_clamped (b : Overview.Dashboard) (n : nat) :
  let st := Overview.sysStats (Nat.iter (S n) (Overview.dashboardTick random clock) b) in
  (15 <= Overview.cpu st <= 95)%Q
  /\ (25 <= Overview.memory st <= 90)%Q
  /\ (500 <= Overview.requests st)%Z
  /\ (50 <= Overview.latency st)%Z.
Proof.
  cbv zeta. rewrite Nat.iter_succ.
  generalize (Nat.iter n (Overview.dashboardTick random clock) b). intros b'.
  cbn [Overview.dashboardTick Overview.sysStats Overview.nextStats
       Overview.requests Overview.latency Overview.cpu Overview.memory].
  split; [apply clamp_bounds; lra|]. split; [apply clamp_bounds; lra|]. lia.
Qed.

(** X14. With [Math.random] in [0, 1) the lower clamps of the request
    rate and of the latency never apply: after every run of the callback
    the two gauges are the floors themselves, between 1250 and 1550 and
    between 200 and 210.  The upper ends are included: the source adds in
    floating point, where the sum may round up to 1550 or 210. *)
Theorem X14_dashboard_floors_unclamped (b : Overview.Dashboard) :
  (forall n, 0 <= random n /\ random n < 1)%Q ->
  let d := Overview.draws b in
  let st := Overview.sysStats (Overview.dashboardTick random clock b) in
  Overview.requests st = Overview.Math_floor (1400 + (random (2 + d) * 300 - 150))
  /\ (1250 <= Overview.requests st <= 1550)%Z
  /\ Overview.latency st = Overview.Math_floor (205 + (random (3 + d) * 10 - 5))
  /\ (200 <= Overview.latency st <= 210)%Z.
Proof.
  intros R. cbv zeta.
  cbn [Overview.dashboardTick Overview.sysStats Overview.nextStats
       Overview.requests Overview.latency].
  pose proof (R (2 + Overview.draws b)) as [R2 R2'].
  pose proof (R (3 + Overview.draws b)) as [R3 R3'].
  unfold Overview.Math_floor.
  assert (1250 <= Qfloor (1400 + (random (2 + Overview.draws b) * 300 - 150)) < 1550)%Z as A
    by (apply floor_band; unfold inject_Z; lra).
  assert (200 <= Qfloor (205 + (random (3 + Overview.draws b) * 10 - 5)) < 210)%Z as B
    by (apply floor_band; unfold inject_Z; lra).
  repeat split; lia.
Qed.

Lemma nextTraffic_full d r prev :
  length prev = 20 ->
  Overview.nextTraffic random clock d r prev
  = tl prev ++ [Overview.mkTrafficPoint (clock r) (1400 + (random d * 300 - 150))].
Proof.
  intros L. unfold Overview.nextTraffic. cbv zeta.
  rewrite length_app, L. cbn [length Nat.add Nat.ltb Nat.leb].
  destruct prev as [|x prev]; [discriminate L | reflexivity].
Qed.

Lemma mount_length b :
  length (Overview.trafficData (Overview.mountDashboard random b)) = 20.
Proof. cbn [Overview.mountDashboard Overview.trafficData]. unfold Overview.initialHistory.
  now rewrite length_map, length_seq. Qed.

Lemma tick_length b :
  length (Overview.trafficData b) = 20 ->
  length (Overview.trafficData (Overview.dashboardTick random clock b)) = 20.
Proof.
  intros L. cbn [Overview.dashboardTick Overview.trafficData].
  rewrite (nextTraffic_full _ _ _ L), length_app.
  destruct (Overview.trafficData b); [discriminate L|]. cbn in *. lia.
Qed.

(** X15. The traffic history is a sliding window of twenty points: mounting
    fills it, every run of the interval callback after that drops the
    oldest point and appends the new one, and the length stays 20 however
    many runs follow. *)
Theorem X15_dashboard_traffic_window (b : Overview.Dashboard) (n : nat) :
  let live := Nat.iter n (Overview.dashboardTick random clock)
                       (Overview.mountDashboard random b) in
  length (Overview.trafficData live) = 20
  /\ Overview.trafficData (Overview.dashboardTick random clock live)
     = tl (Overview.trafficData live)
       ++ [Overview.mkTrafficPoint (clock (Overview.reads live))
             (1400 + (random (4 + Overview.draws live) * 300 - 150))]
  /\ Overview.draws live = 20 + 5 * n + Overview.draws b
  /\ Overview.reads live = n + Overview.reads b.
Proof.
  cbv zeta.
  assert (length (Overview.trafficData
            (Nat.iter n (Overview.dashboardTick random clock)
                      (Overview.mountDashboard random b))) = 20) as L.
  { induction n as [|n IH]; [apply mount_length|].
    rewrite Nat.iter_succ. now apply tick_length. }
  split; [exact L|]. split.
  - cbn [Overview.dashboardTick Overview.trafficData]. now apply nextTraffic_full.
  - clear L. induction n as [|n [IHd IHr]]; [split; cbn; lia|].
    rewrite Nat.iter_succ.
    cbn [Overview.dashboardTick Overview.draws Overview.reads]. lia.
Qed.

End DashboardFacts.

(** * The further properties on the guided scenario *)

Lemma anomaly0_script :
  anomaly0
  = run random0 clock0 (guided ++ [TimerFires 2; TimerFires 2; TimerFires 2]) mount0.
Proof. vm_compute. reflexivity. Qed.

Lemma anomaly0_reachable : reachable random0 clock0 mount0 anomaly0.
Proof. rewrite anomaly0_script. apply mount0_reachable. vm_compute. reflexivity. Qed.

Lemma anomaly0_stable : stable anomaly0.
Proof. unfold anomaly0. apply ticks_stable, monitoring0_stable. Qed.

Lemma anomaly0_wf : wf anomaly0.
Proof. unfold anomaly0. apply ticks_wf, monitoring0_wf. Qed.

Lemma X4_witness :
  networkEnabled offline3 = false
  /\ phase (step random0 clock0 ToggleNetwork offline3) = ANOMALY_DETECTED
  /\ anomalies (step random0 clock0 ToggleNetwork offline3) = S (anomalies offline3).
Proof.
  assert (phase offline3 = MONITORING) as P by reflexivity.
  assert (tickIndex offline3 = ANOMALY_TICK_INDEX) as T by reflexivity.
  assert (networkEnabled offline3 = false) as N by reflexivity.
  split; [exact N|].
  pose proof (X4_reenabling_at_threshold_fires random0 clock0 offline3
                (ticks_stable 3 _ (stable_step random0 clock0 ToggleNetwork monitoring0))
                P T N) as (H1 & H2 & _).
  split; assumption.
Defined.

Lemma X5_witness :
  let t := mkTimer 3 500 false
             (PostAgentMessage "⚠️ Early anomaly detected during canary rollout." MsgAlert None) in
  In t (timers anomaly0)
  /\ In t (timers (step random0 clock0 ConfirmRollback anomaly0)).
Proof.
  intros t.
  assert (In t (timers anomaly0)) as H by (vm_compute; tauto).
  split; [exact H|].
  apply (X5_advisories_never_cancelled random0 clock0 anomaly0 ConfirmRollback t
           _ _ _ anomaly0_wf H eq_refl).
  discriminate.
Defined.

Lemma X6_witness :
  let t := mkTimer 6 60000 false RecommendationExpired in
  let s1 := step random0 clock0 ContinueRollout anomaly0 in
  In t (timers anomaly0)
  /\ recommendationTimeout s1 = false
  /\ recommendationTimeout (step random0 clock0 (TimerFires 6) s1) = true.
Proof.
  intros t s1.
  assert (In t (timers anomaly0)) as H by (vm_compute; tauto).
  assert (phase anomaly0 = ANOMALY_DETECTED) as P by reflexivity.
  split; [exact H|].
  pose proof (X6_continue_leaves_timeout_pending random0 clock0 anomaly0 t
                anomaly0_stable anomaly0_wf P H eq_refl) as (H1 & _ & _ & H4).
  split; [exact H1 | exact H4].
Defined.

Lemma X7_witness :
  nextTimerId mount0 = 1
  /\ offered ContinueToSetup (step random0 clock0 StartGuidedRelease mount0) = false
  /\ offered ContinueToSetup
       (step random0 clock0 (TimerFires 1) (step random0 clock0 StartGuidedRelease mount0))
     = true.
Proof.
  split; [reflexivity|].
  pose proof (X7_shadow_test_gates_setup random0 clock0 mount0
                (wf_mount random0 clock0 None None))
    as ((_ & _ & H1 & _) & (_ & _ & H2 & _)).
  split; [exact H1 | exact H2].
Defined.

Lemma X8_witness :
  phase setup0 = CANARY_SETUP
  /\ defaultCanaryPercent (step random0 clock0 (SelectDefaultCanaryPercent 10) setup0) = 10
  /\ canaryPercent (step random0 clock0 (SelectDefaultCanaryPercent 10) setup0)
     = canaryPercent setup0.
Proof.
  assert (phase setup0 = CANARY_SETUP) as P by reflexivity.
  split; [exact P|].
  pose proof (X8_default_percent_follows_only_when_idle random0 clock0 None None setup0 10
                setup0_reachable) as (H1 & _ & H3 & _).
  split; [exact H1|]. apply H3. rewrite P. discriminate.
Defined.

Lemma randomEdge_unit : forall n, (0 <= randomEdge n /\ randomEdge n < 1)%Q.
Proof. intros n. unfold randomEdge. split; lra. Qed.

Lemma X9_witness :
  tickIndex anomaly0 = 3
  /\ (256 <= latency (sample randomEdge clock0 anomaly0))%Q
  /\ (latency (sample randomEdge clock0 anomaly0) <= 266)%Q.
Proof.
  split; [reflexivity|].
  pose proof (X9_sample_bands randomEdge clock0 anomaly0 randomEdge_unit) as H.
  cbv zeta in H.
  change (ANOMALY_TICK_INDEX <=? tickIndex anomaly0) with true in H.
  destruct H as ((H1 & H2) & _). split; [exact H1 | exact H2].
Defined.

Lemma X10_witness :
  sampling (phase monitoring0) = true
  /\ length (intervals monitoring0) <= 1
  /\ ticking monitoring0.
Proof.
  assert (sampling (phase monitoring0) = true) as S by reflexivity.
  split; [exact S|].
  pose proof (X10_one_interval_while_sampling random0 clock0 None None monitoring0
                monitoring0_reachable) as (H1 & H2).
  split; [exact H1 | exact (H2 S)].
Defined.

Lemma X11_witness :
  let t := mkTimer 6 60000 false RecommendationExpired in
  In t (timers anomaly0)
  /\ phase anomaly0 = ANOMALY_DETECTED
  /\ timeoutId anomaly0 = Some 6.
Proof.
  intros t.
  assert (In t (timers anomaly0)) as H by (vm_compute; tauto).
  split; [exact H|].
  exact (X11_timeout_pending_only_in_anomaly random0 clock0 None None anomaly0 t
           anomaly0_reachable H eq_refl).
Defined.

Lemma X14_witness :
  (1250 <= Overview.requests
             (Overview.sysStats
                (Overview.dashboardTick randomEdge clock0 Overview.initialDashboard))
   <= 1550)%Z
  /\ (200 <= Overview.latency
              (Overview.sysStats
                 (Overview.dashboardTick randomEdge clock0 Overview.initialDashboard))
      <= 210)%Z.
Proof.
  pose proof (X14_dashboard_floors_unclamped randomEdge clock0 Overview.initialDashboard
                randomEdge_unit) as (_ & H2 & _ & H4).
  split; [exact H2 | exact H4].
Defined.

Lemma X12_witness :
  canaryPercent (step random0 clock0 StartCanary
                   (step random0 clock0 (SelectCanaryPercent 10) setup0)) = 10
  /\ activeModel (step random0 clock0 StartCanary
                    (step random0 clock0 (SelectCanaryPercent 10) setup0))
     = "v2.1 (95%) / v3.0 (5%)".
Proof.
  split; [reflexivity|].
  assert (reachable random0 clock0 mount0
            (step random0 clock0 StartCanary
               (step random0 clock0 (SelectCanaryPercent 10) setup0))) as R.
  { apply reach_step; [apply reach_step; [exact setup0_reachable|]|];
      vm_compute; reflexivity. }
  rewrite (X12_active_model_follows_phase random0 clock0 None None _ R).
  reflexivity.
Defined.
